(** * EasyGo Advisor: the consultation-booking pipeline

    A shallow embedding of the booking endpoint of [server/index.js]
    ([POST /api/book-consultation]), of the mongoose model it stores to
    ([server/Booking.js], [server/bookingService.js]) and of the client
    side of the form ([validateForm] and [handleSubmit] of [src/App.js]),
    followed by the properties of the pipeline.

    Conventions of the embedding.
    - A JavaScript string is a [string]; every character is one code unit
      below 256 (the Latin-1 range), which is where [trim], [toLowerCase]
      and the class [\s] are written out.
    - A JavaScript object whose properties are strings ([req.body],
      [formData], [process.env], a mongoose document's paths, the [errors]
      object of the validator) is a [gmap string string]; an absent
      property reads as [undefined], here [None].  The fields of a
      payload are strings or absent: a payload with a number or an
      object for a field is outside the embedding.
    - The libraries the code calls (crypto-js, [JSON], [Date.parse]) are the
      fields of the class [Libs]; nothing is assumed of them unless a
      statement says so.
    - What a request cannot control (the clock, the outcome of a database
      or mail call) is read from a [World] record; the handler threads the
      collection and the list of external calls it made. *)

From Stdlib Require Import ZArith Ascii String List Lia.
From stdpp Require Import base option strings list gmap fin_maps.

Local Open Scope string_scope.

(** ** JavaScript strings *)

Module JsString.

Definition code (c : ascii) : N := N_of_ascii c.

(** The class [\s] (WhiteSpace and LineTerminator) below code 256:
    TAB, LF, VT, FF, CR, SP and NBSP. *)
Definition isWhiteSpace (c : ascii) : bool :=
  let n := code c in
  ((9 <=? n) && (n <=? 13) || (n =? 32) || (n =? 160))%N.

Definition isDigit (c : ascii) : bool :=
  let n := code c in ((48 <=? n) && (n <=? 57))%N.

Definition isUpperAZ (c : ascii) : bool :=
  let n := code c in ((65 <=? n) && (n <=? 90))%N.

Definition isLowerAZ (c : ascii) : bool :=
  let n := code c in ((97 <=? n) && (n <=? 122))%N.

(** Upper-case letters of Latin-1 whose lower case is 32 code units up:
    A-Z and U+00C0-U+00DE without the multiplication sign U+00D7. *)
Definition hasLowerCase (c : ascii) : bool :=
  let n := code c in
  (isUpperAZ c || ((192 <=? n) && (n <=? 222) && negb (n =? 215)))%N.

Definition lowerChar (c : ascii) : ascii :=
  if hasLowerCase c then ascii_of_N (code c + 32) else c.

(** [String.prototype.toLowerCase] *)
Fixpoint toLowerCase (s : string) : string :=
  match s with
  | EmptyString => EmptyString
  | String c s' => String (lowerChar c) (toLowerCase s')
  end.

Fixpoint trimStart (s : string) : string :=
  match s with
  | EmptyString => EmptyString
  | String c s' => if isWhiteSpace c then trimStart s' else s
  end.

Fixpoint trimEnd (s : string) : string :=
  match s with
  | EmptyString => EmptyString
  | String c s' =>
      match trimEnd s' with
      | EmptyString => if isWhiteSpace c then EmptyString else String c EmptyString
      | t => String c t
      end
  end.

(** [String.prototype.trim] *)
Definition trim (s : string) : string := trimEnd (trimStart s).

(** Truthiness of a value that is a string or [undefined]:
    [undefined] and the empty string are falsy. *)
Definition truthy (v : option string) : bool :=
  match v with
  | Some s => negb (String.eqb s "")
  | None => false
  end.

(** [v || d] on such a value. *)
Definition or_default (v : option string) (d : string) : string :=
  match v with
  | Some s => if String.eqb s "" then d else s
  | None => d
  end.

End JsString.

(** ** Regular expressions

    The three patterns of the code are anchored at both ends and use only
    character classes, concatenation, [+] and [{m,n}]; [test] is matching
    by derivatives. *)

Module RegExp.

Inductive regex : Type :=
| Void : regex
| Eps : regex
| Class : (ascii -> bool) -> regex
| Cat : regex -> regex -> regex
| Alt : regex -> regex -> regex
| Star : regex -> regex.

Definition Plus (r : regex) : regex := Cat r (Star r).

(** [r{lo,lo+extra}] *)
Fixpoint Between (r : regex) (lo extra : nat) : regex :=
  match lo with
  | S lo' => Cat r (Between r lo' extra)
  | O =>
      (fix upto (k : nat) : regex :=
         match k with
         | O => Eps
         | S k' => Alt Eps (Cat r (upto k'))
         end) extra
  end.

Fixpoint nullable (r : regex) : bool :=
  match r with
  | Void => false
  | Eps => true
  | Class _ => false
  | Cat a b => nullable a && nullable b
  | Alt a b => nullable a || nullable b
  | Star _ => true
  end.

Definition cat (a b : regex) : regex :=
  match a, b with
  | Void, _ => Void
  | _, Void => Void
  | Eps, _ => b
  | _, _ => Cat a b
  end.

Definition alt (a b : regex) : regex :=
  match a, b with
  | Void, _ => b
  | _, Void => a
  | _, _ => Alt a b
  end.

Fixpoint deriv (c : ascii) (r : regex) : regex :=
  match r with
  | Void => Void
  | Eps => Void
  | Class p => if p c then Eps else Void
  | Cat a b =>
      alt (cat (deriv c a) b) (if nullable a then deriv c b else Void)
  | Alt a b => alt (deriv c a) (deriv c b)
  | Star a => cat (deriv c a) (Star a)
  end.

(** [/^r$/.test(s)] *)
Fixpoint test (r : regex) (s : string) : bool :=
  match s with
  | EmptyString => nullable r
  | String c s' => test (deriv c r) s'
  end.

Definition chr (x : ascii) : regex := Class (Ascii.eqb x).

End RegExp.

Import JsString RegExp.

(** [/^[^\s@]+@[^\s@]+\.[^\s@]+$/] *)
Definition emailRegex : regex :=
  let part := Class (fun c => negb (isWhiteSpace c || Ascii.eqb c "@")) in
  Cat (Plus part) (Cat (chr "@") (Cat (Plus part) (Cat (chr ".") (Plus part)))).

(** [/^[a-zA-Z\s]{2,50}$/] *)
Definition nameRegex : regex :=
  Between (Class (fun c => isLowerAZ c || isUpperAZ c || isWhiteSpace c)) 2 48.

(** [/^[\d\s\-\(\)\+]{10,15}$/] *)
Definition phoneRegex : regex :=
  Between
    (Class (fun c => isDigit c || isWhiteSpace c || Ascii.eqb c "-"
                     || Ascii.eqb c "(" || Ascii.eqb c ")" || Ascii.eqb c "+"))
    10 5.

(** ** Dates

    A [Date] holds a time value, the milliseconds since the epoch, or NaN
    ([None], an invalid date).  Local time is UTC shifted by a fixed offset
    [tza] in milliseconds (a zone without daylight-saving transitions). *)

Module JsDate.

Local Open Scope Z_scope.

Definition msPerDay : Z := 86400000.

Definition maxTime : Z := 8640000000000000.

Definition TimeClip (t : Z) : option Z :=
  if Z.abs t <=? maxTime then Some t else None.

(** [Day(t)]: the day number of a time value (rounding down). *)
Definition Day (t : Z) : Z := t / msPerDay.

(** The local calendar day a time value falls on. *)
Definition LocalDay (tza t : Z) : Z := Day (t + tza).

(** [d.setHours(0, 0, 0, 0)]: midnight, local time, of the local day of
    [d]; the new time value. *)
Definition setHours0 (tza : Z) (d : option Z) : option Z :=
  match d with
  | None => None
  | Some t => TimeClip (LocalDay tza t * msPerDay - tza)
  end.

(** [a < b] on two dates: false as soon as one is NaN. *)
Definition lt (a b : option Z) : bool :=
  match a, b with
  | Some x, Some y => x <? y
  | _, _ => false
  end.

(** [isNaN(d.getTime())] *)
Definition isNaN (d : option Z) : bool :=
  match d with
  | None => true
  | Some _ => false
  end.

End JsDate.

(** ** The libraries behind the code *)

Class Libs : Type := {
  (** crypto-js: [CryptoJS.AES.encrypt(message, key).toString()]; the
      library draws a random salt, here the first argument. *)
  Salt : Type;
  AES_encrypt : Salt -> string -> string -> string;
  (** [CryptoJS.AES.decrypt(ciphertext, key)], a word array. *)
  WordArray : Type;
  AES_decrypt : string -> string -> WordArray;
  (** [bytes.toString(CryptoJS.enc.Utf8)]; [None] when it throws
      (malformed UTF-8). *)
  Utf8_stringify : WordArray -> option string;
  (** [JSON.stringify] and [JSON.parse] on objects with string properties;
      [None] is a [SyntaxError].  A parsed value that is not an object
      ([null], a number, ...) has none of the properties the handler reads
      and stands as the empty object. *)
  JSON_stringify : gmap string string -> string;
  JSON_parse : string -> option (gmap string string);
  (** [Date.parse]: the time value of a date string, [None] for NaN. *)
  Date_parse : string -> option Z
}.

(** [new Date(s)] *)
Definition new_Date `{Libs} (s : string) : option Z :=
  match Date_parse s with
  | Some t => JsDate.TimeClip t
  | None => None
  end.

(** ** The collection behind the mongoose model *)

(** A stored booking: the paths of the document, the identity the store
    gives it and the two timestamps of [{ timestamps: true }]. *)
Record Doc : Type := {
  _id : N;
  paths : gmap string string;
  createdAt : Z;
  updatedAt : Z
}.

(** A schema: its paths, each with its [required] flag. *)
Definition Schema : Type := list (string * bool).

(** [server/Booking.js] *)
Definition BookingSchema : Schema :=
  [ ("name", true); ("email", true); ("phone", true); ("service", true);
    ("preferredDate", true); ("message", false) ].

(** The revision of the schema with [state] and the eligibility paths. *)
Definition BookingSchema_eligibility : Schema :=
  [ ("name", true); ("email", true); ("phone", true); ("state", true);
    ("service", true); ("preferredDate", true); ("message", false);
    ("englishLevel", true); ("age", true); ("education", true);
    ("experience", true); ("visaType", true) ].

(** What the handler cannot decide: the environment variables, the clock,
    the time zone, and whether a database or mail call goes through. *)
Record MailOptions : Type := {
  from : string;
  to : option string;  (* [None] is [undefined] *)
  subject : string;
  text : string
}.

Record World : Type := {
  process_env : gmap string string;
  clock : Z;
  LocalTZA : Z;
  db_findOne_ok : bool;
  db_save_ok : bool;
  sendMail_ok : MailOptions -> bool;
  fresh_id : N;
  save_clock : Z
}.

Module Booking.

(** A document answers a query when it has every property of the
    query, with an equal value. *)
Definition matches (query : gmap string string) (d : Doc) : bool :=
  bool_decide (map_Forall (fun k v => paths d !! k = Some v) query).

(** [Booking.findOne(query)]: the first such document. *)
Definition findOne (query : gmap string string) (coll : list Doc) : option Doc :=
  List.find (matches query) coll.

(** [new Booking(data)]: properties outside the schema are dropped. *)
Definition new (schema : Schema) (data : gmap string string) : gmap string string :=
  filter (fun kv => kv.1 ∈ schema.*1) data.

(** The validation [save] runs first: a required path holds a
    non-empty string. *)
Definition validate (schema : Schema) (doc : gmap string string) : bool :=
  forallb (fun p => negb p.2 || truthy (doc !! p.1)) schema.

(** [booking.save()]: [None] when the promise rejects. *)
Definition save (w : World) (schema : Schema) (doc : gmap string string)
    (coll : list Doc) : option (list Doc) :=
  if validate schema doc && db_save_ok w
  then Some (coll ++ [ {| _id := fresh_id w; paths := doc;
                          createdAt := save_clock w;
                          updatedAt := save_clock w |} ])%list
  else None.

End Booking.

(** [server/bookingService.js]; [None] is a rejected promise. *)
Definition findOneBooking (w : World) (query : gmap string string)
    (coll : list Doc) : option (option Doc) :=
  if db_findOne_ok w then Some (Booking.findOne query coll) else None.

Definition insertBooking (w : World) (schema : Schema)
    (data : gmap string string) (coll : list Doc) : option (list Doc) :=
  Booking.save w schema (Booking.new schema data) coll.

(** ** The endpoint [POST /api/book-consultation] *)

Inductive jsval : Type :=
| JBool : bool -> jsval
| JStr : string -> jsval.

(** What [res.status(code).json(obj)] sends. *)
Record Response : Type := {
  status : Z;
  json : gmap string jsval
}.

(** The calls a request makes to the record store and to the mail
    transport, in the order it makes them. *)
Inductive Call : Type :=
| FindOne : gmap string string -> Call
| Insert : gmap string string -> Call
| SendMail : MailOptions -> Call.

Record Result : Type := {
  response : Response;
  collection : list Doc;
  calls : list Call
}.

Definition isStoreCall (c : Call) : bool :=
  match c with
  | FindOne _ | Insert _ => true
  | SendMail _ => false
  end.

Definition isSendMail (c : Call) : bool :=
  match c with
  | SendMail _ => true
  | _ => false
  end.

(** A destructured variable past the guard that makes it a string. *)
Definition str (v : option string) : string := default "" v.

(** [`${v}`] in a template: [undefined] prints as the word. *)
Definition template (v : option string) : string := default "undefined" v.

(** [a || b] where both may be [undefined]. *)
Definition or_else (a b : option string) : option string :=
  if truthy a then a else b.

Definition nonEmpty (s : string) : bool := negb (String.eqb s "").

Definition nl : string := String (ascii_of_N 10) EmptyString.

Module Server.

Definition error (code : Z) (msg : string) : Response :=
  {| status := code; json := {[ "error" := JStr msg ]} |}.

Definition SECRET_KEY (w : World) : string :=
  or_default (process_env w !! "SECRET_KEY") "EasyGoAdvisor@1974".

(** Step 1: decrypt or parse the request data. *)
Definition decode `{Libs} (w : World) (body : gmap string string)
    : Response + gmap string string :=
  if truthy (body !! "encrypted") then
    if negb (nonEmpty (SECRET_KEY w)) then
      inl (error 500 "Server configuration error: encryption key missing.")
    else
      let bytes := AES_decrypt (str (body !! "encrypted")) (SECRET_KEY w) in
      match Utf8_stringify bytes with
      | None => inl (error 400 "Invalid data format. Please try again.")
      | Some decryptedString =>
          if negb (nonEmpty decryptedString) then
            inl (error 400 "Invalid encrypted data. Decryption failed.")
          else
            match JSON_parse decryptedString with
            | None => inl (error 400 "Invalid data format. Please try again.")
            | Some formData => inr formData
            end
      end
  else inr body.

(** The guard on the required fields. *)
Definition missing_required (formData : gmap string string) : bool :=
  negb (truthy (formData !! "name")) || negb (truthy (formData !! "email"))
  || negb (truthy (formData !! "phone")) || negb (truthy (formData !! "state"))
  || negb (truthy (formData !! "service"))
  || negb (truthy (formData !! "preferredDate"))
  || negb (truthy (formData !! "englishLevel"))
  || negb (truthy (formData !! "age")) || negb (truthy (formData !! "education"))
  || negb (truthy (formData !! "experience"))
  || negb (truthy (formData !! "visaType")).

(** The date rule: [None] when the date passes. *)
Definition date_policy `{Libs} (w : World) (preferredDate : string)
    : option Response :=
  let now := Some (clock w) in
  let bookingDate := new_Date preferredDate in
  if JsDate.isNaN bookingDate then Some (error 400 "Invalid date format.")
  else
    let now := JsDate.setHours0 (LocalTZA w) now in
    let bookingDate := JsDate.setHours0 (LocalTZA w) bookingDate in
    if JsDate.lt bookingDate now
    then Some (error 400 "Cannot book a consultation in the past.")
    else None.

Definition conflict_query (formData : gmap string string) : gmap string string :=
  {[ "preferredDate" := str (formData !! "preferredDate");
     "email" := toLowerCase (str (formData !! "email")) ]}.

(** The object handed to [insertBooking]. *)
Definition booking_data (formData : gmap string string) : gmap string string :=
  {[ "name" := trim (str (formData !! "name"));
     "email" := trim (toLowerCase (str (formData !! "email")));
     "phone" := trim (str (formData !! "phone"));
     "state" := trim (str (formData !! "state"));
     "service" := str (formData !! "service");
     "preferredDate" := str (formData !! "preferredDate");
     "message" := (if truthy (formData !! "message")
                   then trim (str (formData !! "message")) else "");
     "englishLevel" := trim (str (formData !! "englishLevel"));
     "age" := trim (str (formData !! "age"));
     "education" := trim (str (formData !! "education"));
     "experience" := trim (str (formData !! "experience"));
     "visaType" := trim (str (formData !! "visaType")) ]}.

Definition line (label : string) (v : option string) : string :=
  if truthy v then label ++ str v ++ nl else "".

Definition eligibility (header : string) (formData : gmap string string) : string :=
  if truthy (formData !! "englishLevel") || truthy (formData !! "age")
     || truthy (formData !! "education") || truthy (formData !! "experience")
     || truthy (formData !! "visaType")
  then header
       ++ line "English Level: " (formData !! "englishLevel")
       ++ line "Age: " (formData !! "age")
       ++ line "Education: " (formData !! "education")
       ++ line "Experience: " (formData !! "experience")
       ++ line "Visa Type: " (formData !! "visaType")
  else "".

Definition withEligibility (formData : gmap string string) : string :=
  if truthy (formData !! "englishLevel") then " - With Eligibility Check" else "".

Definition userMailOptions (w : World) (formData : gmap string string) : MailOptions :=
  {| from := "Easy Go Overseas <" ++ str (process_env w !! "EMAIL_USER") ++ ">";
     to := formData !! "email";
     subject := "Your Consultation Booking - Easy Go Overseas"
                ++ withEligibility formData;
     text := "Dear " ++ str (formData !! "name") ++ "," ++ nl ++ nl
             ++ "Thank you for booking a consultation with Easy Go Overseas."
             ++ nl ++ nl ++ "Details:" ++ nl
             ++ "Service: " ++ str (formData !! "service") ++ nl
             ++ "Date: " ++ str (formData !! "preferredDate") ++ nl
             ++ "State: " ++ str (formData !! "state") ++ nl
             ++ eligibility
                  (nl ++ "--- Canada Immigration Eligibility Details ---" ++ nl)
                  formData
             ++ nl ++ "We will contact you soon!" ++ nl ++ nl
             ++ "Best regards," ++ nl ++ "Easy Go Overseas Team" |}.

Definition adminMailOptions (w : World) (formData : gmap string string) : MailOptions :=
  {| from := "Easy Go Overseas <" ++ str (process_env w !! "EMAIL_USER") ++ ">";
     to := or_else (process_env w !! "ADMIN_EMAIL")
                   (process_env w !! "EMAIL_USER");
     subject := "New Consultation Booking" ++ withEligibility formData;
     text := "A new consultation has been booked:" ++ nl ++ nl
             ++ "Name: " ++ str (formData !! "name") ++ nl
             ++ "Email: " ++ str (formData !! "email") ++ nl
             ++ "Phone: " ++ str (formData !! "phone") ++ nl
             ++ "State: " ++ str (formData !! "state") ++ nl
             ++ "Service: " ++ str (formData !! "service") ++ nl
             ++ "Date: " ++ str (formData !! "preferredDate") ++ nl
             ++ "Message: " ++ or_default (formData !! "message") "N/A"
             ++ eligibility
                  (nl ++ nl ++ "--- Canada Immigration Eligibility Details ---" ++ nl)
                  formData |}.

Definition credentials_missing (w : World) : bool :=
  negb (truthy (process_env w !! "EMAIL_USER"))
  || negb (truthy (process_env w !! "EMAIL_PASS")).

Definition saved_emails_disabled : Response :=
  {| status := 200;
     json := {[ "success" := JBool true;
                "message" := JStr "Booking saved successfully. Email notifications are disabled." ]} |}.

Definition saved : Response :=
  {| status := 200; json := {[ "success" := JBool true ]} |}.

Definition saved_emails_failed : Response :=
  {| status := 200;
     json := {[ "success" := JBool true;
                "warning" := JStr "Booking saved successfully, but email notifications failed. Please contact us directly if needed." ]} |}.

(** Step 5: the two emails, once the booking is saved. The response and
    the mail calls made. *)
Definition notify (w : World) (formData : gmap string string)
    : Response * list Call :=
  if credentials_missing w then (saved_emails_disabled, [])
  else
    let user := userMailOptions w formData in
    let admin := adminMailOptions w formData in
    if sendMail_ok w user then
      if sendMail_ok w admin
      then (saved, [SendMail user; SendMail admin])
      else (saved_emails_failed, [SendMail user; SendMail admin])
    else (saved_emails_failed, [SendMail user]).

(** The handler, over the schema of the model it stores to. *)
Definition submit_with `{Libs} (schema : Schema) (w : World) (coll : list Doc)
    (body : gmap string string) : Result :=
  match decode w body with
  | inl r => {| response := r; collection := coll; calls := [] |}
  | inr formData =>
      if missing_required formData then
        {| response := error 400 "Missing required fields. Please fill in all required fields.";
           collection := coll; calls := [] |}
      else if negb (test emailRegex (trim (str (formData !! "email")))) then
        {| response := error 400 "Invalid email format.";
           collection := coll; calls := [] |}
      else
        match date_policy w (str (formData !! "preferredDate")) with
        | Some r => {| response := r; collection := coll; calls := [] |}
        | None =>
            let query := conflict_query formData in
            match findOneBooking w query coll with
            | None =>
                {| response := error 500 "Database error. Please try again later or contact support.";
                   collection := coll; calls := [FindOne query] |}
            | Some (Some conflict) =>
                {| response := error 409 "You have already booked a consultation for this date with this email.";
                   collection := coll; calls := [FindOne query] |}
            | Some None =>
                let data := booking_data formData in
                match insertBooking w schema data coll with
                | None =>
                    {| response := error 500 "Failed to save booking. Please try again later or contact support.";
                       collection := coll;
                       calls := [FindOne query; Insert data] |}
                | Some coll' =>
                    let (r, mails) := notify w formData in
                    {| response := r; collection := coll';
                       calls := (FindOne query :: Insert data :: mails)%list |}
                end
            end
        end
  end.

Definition submit `{Libs} : World -> list Doc -> gmap string string -> Result :=
  submit_with BookingSchema_eligibility.

End Server.

(** ** The earlier revision of the handler

    It reads five fields, stores to [BookingSchema], wraps neither store
    call in a [try] (a rejected promise leaves the request without a
    response, [None]) and answers 500 when a mail fails. *)

Module Legacy.

Record Result : Type := {
  response : option Response;
  collection : list Doc;
  calls : list Call
}.

Definition SECRET_KEY : string := "EasyGoAdvisor@1974".

Definition decode `{Libs} (body : gmap string string)
    : Response + gmap string string :=
  if truthy (body !! "encrypted") then
    let bytes := AES_decrypt (str (body !! "encrypted")) SECRET_KEY in
    match Utf8_stringify bytes with
    | None => inl (Server.error 400 "Invalid data.")
    | Some decrypted =>
        match JSON_parse decrypted with
        | None => inl (Server.error 400 "Invalid data.")
        | Some formData => inr formData
        end
    end
  else inr body.

Definition missing_required (formData : gmap string string) : bool :=
  negb (truthy (formData !! "name")) || negb (truthy (formData !! "email"))
  || negb (truthy (formData !! "phone")) || negb (truthy (formData !! "service"))
  || negb (truthy (formData !! "preferredDate")).

Definition booking_data (formData : gmap string string) : gmap string string :=
  let data : gmap string string :=
    {[ "name" := str (formData !! "name");
       "email" := toLowerCase (str (formData !! "email"));
       "phone" := str (formData !! "phone");
       "service" := str (formData !! "service");
       "preferredDate" := str (formData !! "preferredDate") ]} in
  match formData !! "message" with
  | Some m => <["message" := m]> data
  | None => data
  end.

(** The two mails. This revision has no guard on the credentials: where
    [EMAIL_USER] is not set the template prints [undefined], and the
    admin's mail has no recipient when [ADMIN_EMAIL] is not set either. *)
Definition userMailOptions (w : World) (formData : gmap string string) : MailOptions :=
  {| from := "Easy Go Overseas <" ++ template (process_env w !! "EMAIL_USER") ++ ">";
     to := formData !! "email";
     subject := "Your Consultation Booking - Easy Go Overseas";
     text := "Dear " ++ template (formData !! "name") ++ "," ++ nl ++ nl
             ++ "Thank you for booking a consultation with Easy Go Overseas."
             ++ nl ++ nl ++ "Details:" ++ nl
             ++ "Service: " ++ template (formData !! "service") ++ nl
             ++ "Date: " ++ template (formData !! "preferredDate") ++ nl ++ nl
             ++ "We will contact you soon!" ++ nl ++ nl
             ++ "Best regards," ++ nl ++ "Easy Go Overseas Team" |}.

Definition adminMailOptions (w : World) (formData : gmap string string) : MailOptions :=
  {| from := "Easy Go Overseas <" ++ template (process_env w !! "EMAIL_USER") ++ ">";
     to := or_else (process_env w !! "ADMIN_EMAIL")
                   (process_env w !! "EMAIL_USER");
     subject := "New Consultation Booking";
     text := "A new consultation has been booked:" ++ nl ++ nl
             ++ "Name: " ++ template (formData !! "name") ++ nl
             ++ "Email: " ++ template (formData !! "email") ++ nl
             ++ "Phone: " ++ template (formData !! "phone") ++ nl
             ++ "Service: " ++ template (formData !! "service") ++ nl
             ++ "Date: " ++ template (formData !! "preferredDate") ++ nl
             ++ "Message: " ++ or_default (formData !! "message") "N/A" |}.

Definition notify (w : World) (formData : gmap string string)
    : Response * list Call :=
  let user := userMailOptions w formData in
  let admin := adminMailOptions w formData in
  if sendMail_ok w user then
    if sendMail_ok w admin
    then (Server.saved, [SendMail user; SendMail admin])
    else (Server.error 500 "Failed to send emails.", [SendMail user; SendMail admin])
  else (Server.error 500 "Failed to send emails.", [SendMail user]).

Definition submit `{Libs} (w : World) (coll : list Doc)
    (body : gmap string string) : Result :=
  match decode body with
  | inl r => {| response := Some r; collection := coll; calls := [] |}
  | inr formData =>
      if missing_required formData then
        {| response := Some (Server.error 400 "Missing required fields.");
           collection := coll; calls := [] |}
      else
        match Server.date_policy w (str (formData !! "preferredDate")) with
        | Some r => {| response := Some r; collection := coll; calls := [] |}
        | None =>
            let query := Server.conflict_query formData in
            match findOneBooking w query coll with
            | None =>
                {| response := None; collection := coll; calls := [FindOne query] |}
            | Some (Some conflict) =>
                {| response := Some (Server.error 409 "You have already booked a consultation for this date with this email.");
                   collection := coll; calls := [FindOne query] |}
            | Some None =>
                let data := booking_data formData in
                match insertBooking w BookingSchema data coll with
                | None =>
                    {| response := None; collection := coll;
                       calls := [FindOne query; Insert data] |}
                | Some coll' =>
                    let (r, mails) := notify w formData in
                    {| response := Some r; collection := coll';
                       calls := (FindOne query :: Insert data :: mails)%list |}
                end
            end
        end
  end.

End Legacy.

(** ** The client: [validateForm] and the encoding of [handleSubmit] *)

Module Client.

(** The form data: the twelve properties of [initialFormData], each a
    string. *)
Record FormData : Type := {
  name : string;
  email : string;
  phone : string;
  state : string;
  service : string;
  preferredDate : string;
  message : string;
  englishLevel : string;
  age : string;
  education : string;
  experience : string;
  visaType : string
}.

(** The object itself, as [JSON.stringify] and the server see it. *)
Definition to_object (data : FormData) : gmap string string :=
  {[ "name" := name data; "email" := email data; "phone" := phone data;
     "state" := state data; "service" := service data;
     "preferredDate" := preferredDate data; "message" := message data;
     "englishLevel" := englishLevel data; "age" := age data;
     "education" := education data; "experience" := experience data;
     "visaType" := visaType data ]}.

(** The blocks of [validateForm], each on the [errors] object so far.
    Name: only letters and spaces, 2-50 characters. *)
Definition validate_name (data : FormData) (errors : gmap string string)
    : gmap string string :=
  if negb (nonEmpty (trim (name data))) then
    <["name" := "Name is required"]> errors
  else if negb (test nameRegex (trim (name data))) then
    <["name" := "Name must contain only letters and spaces (2-50 characters)"]> errors
  else errors.

Definition validate_email (data : FormData) (errors : gmap string string)
    : gmap string string :=
  if negb (nonEmpty (trim (email data))) then
    <["email" := "Email is required"]> errors
  else if negb (test emailRegex (trim (email data))) then
    <["email" := "Please enter a valid email address"]> errors
  else errors.

Definition validate_phone (data : FormData) (errors : gmap string string)
    : gmap string string :=
  if negb (nonEmpty (trim (phone data))) then
    <["phone" := "Phone number is required"]> errors
  else if negb (test phoneRegex (trim (phone data))) then
    <["phone" := "Please enter a valid phone number (10-15 digits)"]> errors
  else errors.

(** [if (!data.field) errors.field = msg] *)
Definition validate_present (field value msg : string)
    (errors : gmap string string) : gmap string string :=
  if negb (nonEmpty value) then <[field := msg]> errors else errors.

(** Date: today or a future date. *)
Definition validate_date `{Libs} (now tza : Z) (data : FormData)
    (errors : gmap string string) : gmap string string :=
  if negb (nonEmpty (preferredDate data)) then
    <["preferredDate" := "Please select a preferred date"]> errors
  else
    let selectedDate := new_Date (preferredDate data) in
    let today := Some now in
    let today := JsDate.setHours0 tza today in
    let selectedDate := JsDate.setHours0 tza selectedDate in
    if JsDate.lt selectedDate today
    then <["preferredDate" := "Please select future date"]> errors
    else errors.

(** Message: optional, but limited in length when provided. *)
Definition validate_message (data : FormData) (errors : gmap string string)
    : gmap string string :=
  if nonEmpty (message data) && (500 <? Z.of_nat (String.length (message data)))%Z
  then <["message" := "Message must be less than 500 characters"]> errors
  else errors.

(** [validateForm]; [now] and [tza] are the browser's clock and zone. *)
Definition validateForm `{Libs} (now tza : Z) (data : FormData)
    : gmap string string :=
  let errors : gmap string string := ∅ in
  let errors := validate_name data errors in
  let errors := validate_email data errors in
  let errors := validate_phone data errors in
  let errors :=
    validate_present "service" (service data) "Please select a service" errors in
  let errors :=
    validate_present "englishLevel" (englishLevel data)
                     "English level is required" errors in
  let errors := validate_present "age" (age data) "Age is required" errors in
  let errors :=
    validate_present "education" (education data) "Education is required" errors in
  let errors :=
    validate_present "experience" (experience data)
                     "Experience is required" errors in
  let errors :=
    validate_present "visaType" (visaType data) "Visa type is required" errors in
  let errors := validate_date now tza data errors in
  let errors := validate_message data errors in
  errors.

(** The key and the mode, read from the environment of the build. *)
Definition SECRET_KEY (env : gmap string string) : string :=
  or_default (env !! "REACT_APP_SECRET_KEY") "EasyGoAdvisor@1974".

Definition isProduction (env : gmap string string) : bool :=
  bool_decide (env !! "NODE_ENV" = Some "production").

(** The payload [handleSubmit] posts once [validateForm] found nothing:
    encrypted in production, plain otherwise. *)
Definition encode `{Libs} (isProduction : bool) (salt : Salt)
    (SECRET_KEY : string) (formData : FormData) : gmap string string :=
  if isProduction then
    let encryptedData :=
      AES_encrypt salt (JSON_stringify (to_object formData)) SECRET_KEY in
    {[ "encrypted" := encryptedData ]}
  else to_object formData.

(** [handleSubmit] up to the request: nothing is sent when the error
    object has a key. *)
Definition handleSubmit `{Libs} (isProduction : bool) (salt : Salt)
    (SECRET_KEY : string) (now tza : Z) (formData : FormData)
    : option (gmap string string) :=
  let validationErrors := validateForm now tza formData in
  if bool_decide (validationErrors = ∅) then
    Some (encode isProduction salt SECRET_KEY formData)
  else None.

End Client.

(** ** An executable instance of the libraries

    Enough of each library to run the handler on concrete requests: the
    date-time string format of ECMAScript in its UTC forms
    ([YYYY-MM-DD], then optionally [THH:mm], [THH:mm:ss] or
    [THH:mm:ss.sss] followed by [Z]), JSON objects of strings, and a
    keyed, salted, invertible cipher in place of AES. *)

Module Sample.

Local Open Scope Z_scope.

Definition digit (c : ascii) : option Z :=
  if isDigit c then Some (Z.of_N (code c) - 48) else None.

(** Reads [n] decimal digits. *)
Fixpoint digits (n : nat) (acc : Z) (s : string) : option (Z * string) :=
  match n with
  | O => Some (acc, s)
  | S n' =>
      match s with
      | String c s' =>
          match digit c with
          | Some d => digits n' (10 * acc + d) s'
          | None => None
          end
      | EmptyString => None
      end
  end.

Definition expect (c : ascii) (s : string) : option string :=
  match s with
  | String c' s' => if Ascii.eqb c c' then Some s' else None
  | EmptyString => None
  end.

Definition isLeap (y : Z) : bool :=
  ((y mod 4 =? 0) && negb (y mod 100 =? 0)) || (y mod 400 =? 0).

Definition daysInMonth (y m : Z) : Z :=
  if m =? 2 then (if isLeap y then 29 else 28)
  else if (m =? 4) || (m =? 6) || (m =? 9) || (m =? 11) then 30
  else 31.

(** Days from the epoch to a date of the proleptic Gregorian calendar. *)
Definition daysFromCivil (y m d : Z) : Z :=
  let y' := if m <=? 2 then y - 1 else y in
  let era := y' / 400 in
  let yoe := y' - era * 400 in
  let mp := (m + 9) mod 12 in
  let doy := (153 * mp + 2) / 5 + d - 1 in
  let doe := yoe * 365 + yoe / 4 - yoe / 100 + doy in
  era * 146097 + doe - 719468.

(** The time of day after the [T], up to the closing [Z]. *)
Definition parseTime (s : string) : option Z :=
  h ← digits 2 0 s;
  s ← expect ":" h.2;
  mi ← digits 2 0 s;
  let hm := h.1 * 3600000 + mi.1 * 60000 in
  if negb ((h.1 <? 24) && (mi.1 <? 60)) then None
  else
    match expect "Z" mi.2 with
    | Some rest => if String.eqb rest "" then Some hm else None
    | None =>
        s ← expect ":" mi.2;
        sec ← digits 2 0 s;
        if negb (sec.1 <? 60) then None
        else
          match expect "Z" sec.2 with
          | Some rest =>
              if String.eqb rest "" then Some (hm + sec.1 * 1000) else None
          | None =>
              s ← expect "." sec.2;
              ms ← digits 3 0 s;
              rest ← expect "Z" ms.2;
              if String.eqb rest "" then Some (hm + sec.1 * 1000 + ms.1) else None
          end
    end.

Definition parseDate (s : string) : option Z :=
  y ← digits 4 0 s;
  s ← expect "-" y.2;
  m ← digits 2 0 s;
  s ← expect "-" m.2;
  d ← digits 2 0 s;
  if negb ((1 <=? m.1) && (m.1 <=? 12) && (1 <=? d.1)
           && (d.1 <=? daysInMonth y.1 m.1)) then None
  else
    let day := daysFromCivil y.1 m.1 d.1 * JsDate.msPerDay in
    if String.eqb d.2 "" then Some day
    else
      s ← expect "T" d.2;
      t ← parseTime s;
      Some (day + t).

Definition quote : string := String (ascii_of_N 34) EmptyString.

(** A string literal of JSON: quotes and backslashes are escaped. *)
Fixpoint escape (s : string) : string :=
  match s with
  | EmptyString => EmptyString
  | String c s' =>
      if Ascii.eqb c (ascii_of_N 34) || Ascii.eqb c (ascii_of_N 92)
      then String (ascii_of_N 92) (String c (escape s'))
      else String c (escape s')
  end.

Definition literal (s : string) : string := (quote ++ escape s ++ quote)%string.

Fixpoint members (l : list (string * string)) : string :=
  match l with
  | [] => EmptyString
  | [(k, v)] => (literal k ++ ":" ++ literal v)%string
  | (k, v) :: l' => (literal k ++ ":" ++ literal v ++ "," ++ members l')%string
  end.

Definition stringify (o : gmap string string) : string :=
  ("{" ++ members (map_to_list o) ++ "}")%string.

(** Reads a string literal past its opening quote. *)
Fixpoint unescape (s : string) : option (string * string) :=
  match s with
  | EmptyString => None
  | String c s' =>
      if Ascii.eqb c (ascii_of_N 34) then Some (EmptyString, s')
      else if Ascii.eqb c (ascii_of_N 92) then
        match s' with
        | String e s'' =>
            r ← unescape s'';
            Some (String e r.1, r.2)
        | EmptyString => None
        end
      else
        r ← unescape s';
        Some (String c r.1, r.2)
  end.

Definition parseLiteral (s : string) : option (string * string) :=
  s ← expect (ascii_of_N 34) s;
  unescape s.

(** Reads the members of an object past its opening brace. *)
Fixpoint parseMembers (fuel : nat) (s : string) : option (list (string * string)) :=
  match fuel with
  | O => None
  | S fuel' =>
      k ← parseLiteral s;
      s ← expect ":" k.2;
      v ← parseLiteral s;
      match v.2 with
      | String c rest =>
          if Ascii.eqb c "}" then
            if String.eqb rest "" then Some [(k.1, v.1)] else None
          else if Ascii.eqb c "," then
            l ← parseMembers fuel' rest;
            Some ((k.1, v.1) :: l)
          else None
      | EmptyString => None
      end
  end.

Definition parse (s : string) : option (gmap string string) :=
  if String.eqb s "{}" then Some ∅
  else
    s' ← expect "{" s;
    l ← parseMembers (String.length s) s';
    Some (list_to_map (reverse l)).

Definition xorChar (a b : ascii) : ascii :=
  ascii_of_N (N.lxor (code a) (code b)).

(** Each character combined with the next character of the key
    stream, which repeats the salt followed by the key. *)
Fixpoint xorStream (stream rest m : string) : string :=
  match m with
  | EmptyString => EmptyString
  | String c m' =>
      match rest with
      | String k rest' => String (xorChar c k) (xorStream stream rest' m')
      | EmptyString =>
          match stream with
          | String k rest' => String (xorChar c k) (xorStream stream rest' m')
          | EmptyString => m
          end
      end
  end.

Definition header : string := "Salted__".

Definition encrypt (salt : ascii) (m key : string) : string :=
  let stream := String salt key in
  (header ++ String salt (xorStream stream stream m))%string.

Fixpoint stripPrefix (p s : string) : option string :=
  match p, s with
  | EmptyString, _ => Some s
  | String a p', String b s' => if Ascii.eqb a b then stripPrefix p' s' else None
  | String _ _, EmptyString => None
  end.

(** The plain bytes; none without the header. *)
Definition decrypt (c key : string) : string :=
  match stripPrefix header c with
  | Some (String salt body) =>
      let stream := String salt key in xorStream stream stream body
  | _ => EmptyString
  end.

(** Bytes above 127 do not stand alone in UTF-8. *)
Definition utf8 (bytes : string) : option string :=
  if forallb (fun c => (code c <? 128)%N) (list_ascii_of_string bytes)
  then Some bytes else None.

#[export] Instance libs : Libs := {|
  Salt := ascii;
  AES_encrypt := encrypt;
  WordArray := string;
  AES_decrypt := decrypt;
  Utf8_stringify := utf8;
  JSON_stringify := stringify;
  JSON_parse := parse;
  Date_parse := parseDate
|}.

End Sample.

(** ** The vocabulary of the statements *)

(** The request went through step 1 and step 2: it decoded to [formData],
    no required field is missing, the email has the shape of one and the
    date rule lets the date through. *)
Definition passes_checks `{Libs} (w : World) (body formData : gmap string string)
    : Prop :=
  Server.decode w body = inr formData
  /\ Server.missing_required formData = false
  /\ test emailRegex (trim (str (formData !! "email"))) = true
  /\ Server.date_policy w (str (formData !! "preferredDate")) = None.

(** The envelope does not decode: it carries [encrypted], and the
    decryption throws, or yields the empty string, or yields a string
    that does not parse. *)
Definition decode_fails `{Libs} (w : World) (body : gmap string string) : Prop :=
  truthy (body !! "encrypted") = true
  /\ let bytes := AES_decrypt (str (body !! "encrypted")) (Server.SECRET_KEY w) in
     Utf8_stringify bytes = None
     \/ Utf8_stringify bytes = Some ""
     \/ exists s, Utf8_stringify bytes = Some s /\ JSON_parse s = None.

(** The decoded payload fails the validation or the date rule. *)
Definition validation_fails `{Libs} (w : World) (formData : gmap string string)
    : Prop :=
  Server.missing_required formData = true
  \/ test emailRegex (trim (str (formData !! "email"))) = false
  \/ Server.date_policy w (str (formData !! "preferredDate")) <> None.

(** A time value at least two days inside the range of dates. *)
Definition inside (t : Z) : Prop :=
  (Z.abs t <= JsDate.maxTime - 2 * JsDate.msPerDay)%Z.

(** The answer of the date rule to a date in the past. *)
Definition past_error : Response :=
  Server.error 400 "Cannot book a consultation in the past.".

(** The answer of the guard on the required fields. *)
Definition missing_error : Response :=
  Server.error 400 "Missing required fields. Please fill in all required fields.".

(** The pair a stored booking is to be unique in. *)
Definition pair_of (d : Doc) : option string * option string :=
  (paths d !! "email", paths d !! "preferredDate").

Definition unique_pairs (coll : list Doc) : Prop := NoDup (pair_of <$> coll).

(** Requests handled one after the other, each to completion, every one
    in the world it meets: the collection they leave. *)
Fixpoint submit_all `{Libs} (schema : Schema)
    (requests : list (World * gmap string string)) (coll : list Doc) : list Doc :=
  match requests with
  | [] => coll
  | (w, body) :: rest =>
      submit_all schema rest (collection (Server.submit_with schema w coll body))
  end.

(** The email comes without surrounding white space. *)
Definition trimmed (s : string) : Prop := trim s = s.

(** A stored booking with this email and this date. *)
Definition booked (coll : list Doc) (email date : string) : Prop :=
  exists d, d ∈ coll /\ paths d !! "email" = Some email
            /\ paths d !! "preferredDate" = Some date.

Definition required_fields : list string :=
  [ "name"; "email"; "phone"; "state"; "service"; "preferredDate";
    "englishLevel"; "age"; "education"; "experience"; "visaType" ].

(** The required fields [validateForm] looks at: all but [state]. *)
Definition client_required_fields : list string :=
  [ "name"; "email"; "phone"; "service"; "preferredDate";
    "englishLevel"; "age"; "education"; "experience"; "visaType" ].

(** The keys on which a client error is matched by a server check of the
    same rule. *)
Definition agreed_fields : list string :=
  [ "email"; "service"; "englishLevel"; "age"; "education"; "experience";
    "visaType" ].

(** ** Worlds and payloads to run the code on *)

Module Scenario.

(** 2 November 2025, 09:30 UTC, on a server five and a half hours east
    of Greenwich; no mail credentials. *)
Definition world : World := {|
  process_env := ∅;
  clock := 1762075800000;
  LocalTZA := 19800000;
  db_findOne_ok := true;
  db_save_ok := true;
  sendMail_ok := fun _ => true;
  fresh_id := 1;
  save_clock := 1762075800250
|}.

(** The next request, a minute later. *)
Definition world_later : World := {|
  process_env := ∅;
  clock := 1762075860000;
  LocalTZA := 19800000;
  db_findOne_ok := true;
  db_save_ok := true;
  sendMail_ok := fun _ => true;
  fresh_id := 2;
  save_clock := 1762075860250
|}.

(** Credentials in place, a transport that fails every message. *)
Definition world_mail_down : World := {|
  process_env := {[ "EMAIL_USER" := "desk@easygo.example";
                    "EMAIL_PASS" := "app-password" ]};
  clock := 1762075800000;
  LocalTZA := 19800000;
  db_findOne_ok := true;
  db_save_ok := true;
  sendMail_ok := fun _ => false;
  fresh_id := 1;
  save_clock := 1762075800250
|}.

(** The same instant on a server five hours west of Greenwich. *)
Definition world_west : World := {|
  process_env := ∅;
  clock := 1762075800000;
  LocalTZA := -18000000;
  db_findOne_ok := true;
  db_save_ok := true;
  sendMail_ok := fun _ => true;
  fresh_id := 1;
  save_clock := 1762075800250
|}.

Definition jane : Client.FormData := {|
  Client.name := "Jane Doe";
  Client.email := "JANE@x.com";
  Client.phone := "1234567890";
  Client.state := "Gujarat";
  Client.service := "visa-processing";
  Client.preferredDate := "2025-11-02";
  Client.message := "";
  Client.englishLevel := "Good (7 Band)";
  Client.age := "18-35 years";
  Client.education := "Graduation";
  Client.experience := "1 year";
  Client.visaType := "Work Permit"
|}.

Definition with_name (s : string) (d : Client.FormData) : Client.FormData := {|
  Client.name := s;
  Client.email := Client.email d;
  Client.phone := Client.phone d;
  Client.state := Client.state d;
  Client.service := Client.service d;
  Client.preferredDate := Client.preferredDate d;
  Client.message := Client.message d;
  Client.englishLevel := Client.englishLevel d;
  Client.age := Client.age d;
  Client.education := Client.education d;
  Client.experience := Client.experience d;
  Client.visaType := Client.visaType d
|}.

Definition with_email (s : string) (d : Client.FormData) : Client.FormData := {|
  Client.name := Client.name d;
  Client.email := s;
  Client.phone := Client.phone d;
  Client.state := Client.state d;
  Client.service := Client.service d;
  Client.preferredDate := Client.preferredDate d;
  Client.message := Client.message d;
  Client.englishLevel := Client.englishLevel d;
  Client.age := Client.age d;
  Client.education := Client.education d;
  Client.experience := Client.experience d;
  Client.visaType := Client.visaType d
|}.

Definition with_phone (s : string) (d : Client.FormData) : Client.FormData := {|
  Client.name := Client.name d;
  Client.email := Client.email d;
  Client.phone := s;
  Client.state := Client.state d;
  Client.service := Client.service d;
  Client.preferredDate := Client.preferredDate d;
  Client.message := Client.message d;
  Client.englishLevel := Client.englishLevel d;
  Client.age := Client.age d;
  Client.education := Client.education d;
  Client.experience := Client.experience d;
  Client.visaType := Client.visaType d
|}.

Definition with_state (s : string) (d : Client.FormData) : Client.FormData := {|
  Client.name := Client.name d;
  Client.email := Client.email d;
  Client.phone := Client.phone d;
  Client.state := s;
  Client.service := Client.service d;
  Client.preferredDate := Client.preferredDate d;
  Client.message := Client.message d;
  Client.englishLevel := Client.englishLevel d;
  Client.age := Client.age d;
  Client.education := Client.education d;
  Client.experience := Client.experience d;
  Client.visaType := Client.visaType d
|}.

Definition with_date (s : string) (d : Client.FormData) : Client.FormData := {|
  Client.name := Client.name d;
  Client.email := Client.email d;
  Client.phone := Client.phone d;
  Client.state := Client.state d;
  Client.service := Client.service d;
  Client.preferredDate := s;
  Client.message := Client.message d;
  Client.englishLevel := Client.englishLevel d;
  Client.age := Client.age d;
  Client.education := Client.education d;
  Client.experience := Client.experience d;
  Client.visaType := Client.visaType d
|}.

Definition with_message (s : string) (d : Client.FormData) : Client.FormData := {|
  Client.name := Client.name d;
  Client.email := Client.email d;
  Client.phone := Client.phone d;
  Client.state := Client.state d;
  Client.service := Client.service d;
  Client.preferredDate := Client.preferredDate d;
  Client.message := s;
  Client.englishLevel := Client.englishLevel d;
  Client.age := Client.age d;
  Client.education := Client.education d;
  Client.experience := Client.experience d;
  Client.visaType := Client.visaType d
|}.

(** A message of 501 characters. *)
Definition long_message : string :=
  string_of_list_ascii (repeat "a"%char 501).

(** Jane's booking as the pipeline stores it. *)
Definition jane_stored : Doc := {|
  _id := 1;
  paths := Booking.new BookingSchema_eligibility
             (Server.booking_data (Client.to_object jane));
  createdAt := 1762075800250;
  updatedAt := 1762075800250
|}.

(** The same booking put into the collection from outside the pipeline,
    its email as typed. *)
Definition jane_stored_as_typed : Doc := {|
  _id := 1;
  paths := <["email" := "JANE@x.com"]> (paths jane_stored);
  createdAt := 1762075800250;
  updatedAt := 1762075800250
|}.

Definition run : World -> list Doc -> gmap string string -> Result :=
  Server.submit (H := Sample.libs).

End Scenario.

(** ** The rest of [server/bookingService.js] *)

(** [Booking.find(query)]: the documents that answer the query, in the
    order of the collection. *)
Definition Booking_find (query : gmap string string) (coll : list Doc) : list Doc :=
  List.filter (Booking.matches query) coll.

(** [Booking.deleteOne(query)]: the first document that answers the
    query is removed; the [deletedCount] and the collection left. *)
Fixpoint Booking_deleteOne (query : gmap string string) (coll : list Doc)
    : nat * list Doc :=
  match coll with
  | [] => (0%nat, [])
  | d :: rest =>
      if Booking.matches query d then (1%nat, rest)
      else let (n, rest') := Booking_deleteOne query rest in (n, d :: rest')
  end.

(** The two calls of the service; [ok] tells whether the database call
    goes through, [None] is a rejected promise. *)
Definition findManyBookings (ok : bool) (query : gmap string string)
    (coll : list Doc) : option (list Doc) :=
  if ok then Some (Booking_find query coll) else None.

Definition deleteBooking (ok : bool) (query : gmap string string)
    (coll : list Doc) : option (nat * list Doc) :=
  if ok then Some (Booking_deleteOne query coll) else None.

(** ** The helper [isValidTime] of [server/index.js] *)

(** [/^([01]\d|2[0-3]):([0-5]\d)$/] *)
Definition timeRegex : regex :=
  let between (lo hi : N) : regex :=
    Class (fun c => ((lo <=? code c) && (code c <=? hi))%N) in
  Cat (Alt (Cat (between 48%N 49%N) (Class isDigit))
           (Cat (chr "2") (between 48%N 51%N)))
      (Cat (chr ":") (Cat (between 48%N 53%N) (Class isDigit))).

Definition isValidTime (time : string) : bool := test timeRegex time.

(** [HH:MM], both numbers on two digits. *)
Definition twoDigits (n : N) : string :=
  String (ascii_of_N (48 + n / 10)%N)
         (String (ascii_of_N (48 + n mod 10)%N) EmptyString).

Definition clockTime (h m : N) : string := twoDigits h ++ ":" ++ twoDigits m.

(** ** The contact form: its state and its handlers *)

Module Form.

(** The class of [sanitizeInput]: the two angle brackets, the double quote
    and the apostrophe. *)
Definition isDangerous (c : ascii) : bool :=
  Ascii.eqb c "<" || Ascii.eqb c ">" || Ascii.eqb c (ascii_of_N 34)
  || Ascii.eqb c "'".

(** [sanitizeInput]: every character of the class is removed. *)
Fixpoint sanitizeInput (value : string) : string :=
  match value with
  | EmptyString => EmptyString
  | String c rest =>
      if isDangerous c then sanitizeInput rest
      else String c (sanitizeInput rest)
  end.

Fixpoint clean (s : string) : bool :=
  match s with
  | EmptyString => true
  | String c rest => negb (isDangerous c) && clean rest
  end.

Definition field_names : list string :=
  [ "name"; "email"; "phone"; "state"; "service"; "preferredDate"; "message";
    "englishLevel"; "age"; "education"; "experience"; "visaType" ].

Definition initialFormData : gmap string string :=
  {[ "name" := ""; "email" := ""; "phone" := ""; "state" := "";
     "service" := ""; "preferredDate" := ""; "message" := "";
     "englishLevel" := ""; "age" := ""; "education" := "";
     "experience" := ""; "visaType" := "" ]}.

(** The state of [ContactForm]: the five [useState] cells. *)
Record State : Type := {
  formData : gmap string string;
  errors : gmap string string;
  isSubmitting : bool;
  submitMessage : jsval;
  selectedDate : option Z
}.

Definition initial : State := {|
  formData := initialFormData;
  errors := ∅;
  isSubmitting := false;
  submitMessage := JStr "";
  selectedDate := None
|}.

(** [handleInputChange] on an event whose target has this name and this
    value. *)
Definition handleInputChange (name value : string) (st : State) : State :=
  let sanitizedValue := sanitizeInput value in
  {| formData := <[name := sanitizedValue]> (formData st);
     errors := (if truthy (errors st !! name)
                then <[name := ""]> (errors st) else errors st);
     isSubmitting := isSubmitting st;
     submitMessage := submitMessage st;
     selectedDate := selectedDate st |}.

(** [s.split('T')[0]] *)
Fixpoint beforeT (s : string) : string :=
  match s with
  | EmptyString => EmptyString
  | String c rest => if Ascii.eqb c "T" then EmptyString else String c (beforeT rest)
  end.

(** The [onChange] of the date picker; [toISOString] is
    [Date.prototype.toISOString] on a time value. *)
Definition onDateChange (toISOString : Z -> string) (date : option Z)
    (st : State) : State :=
  handleInputChange "preferredDate"
    (match date with
     | Some t => beforeT (toISOString t)
     | None => ""
     end)
    {| formData := formData st; errors := errors st;
       isSubmitting := isSubmitting st; submitMessage := submitMessage st;
       selectedDate := date |}.

(** The form data as [validateForm] reads it. *)
Definition of_object (o : gmap string string) : Client.FormData := {|
  Client.name := str (o !! "name");
  Client.email := str (o !! "email");
  Client.phone := str (o !! "phone");
  Client.state := str (o !! "state");
  Client.service := str (o !! "service");
  Client.preferredDate := str (o !! "preferredDate");
  Client.message := str (o !! "message");
  Client.englishLevel := str (o !! "englishLevel");
  Client.age := str (o !! "age");
  Client.education := str (o !! "education");
  Client.experience := str (o !! "experience");
  Client.visaType := str (o !! "visaType")
|}.

(** Every field of the form is there, so that no [data.field.trim()] of
    [validateForm] throws. *)
Definition complete (o : gmap string string) : Prop :=
  forall k, k ∈ field_names -> is_Some (o !! k).

Definition thanks : string :=
  "Thank you! Your appointment request has been submitted successfully. We will contact you within 24 hours.".

Definition sorry : string :=
  "Sorry, there was an error submitting your request. Please try again or contact us directly.".

Definition truthy_value (v : jsval) : bool :=
  match v with
  | JBool b => b
  | JStr s => nonEmpty s
  end.

(** [response.ok] *)
Definition ok (r : Response) : bool :=
  ((200 <=? status r) && (status r <=? 299))%Z.

(** The message taken from the body of a response that is not [ok]. *)
Definition errorMsg (r : Response) : jsval :=
  match json r !! "error" with
  | Some v => if truthy_value v then v else JStr sorry
  | None => JStr sorry
  end.

(** The payload of [handleSubmit], on the object of the state. *)
Definition payload `{Libs} (isProduction : bool) (salt : Salt)
    (SECRET_KEY : string) (o : gmap string string) : gmap string string :=
  if isProduction then
    {[ "encrypted" := AES_encrypt salt (JSON_stringify o) SECRET_KEY ]}
  else o.

(** [handleSubmit], whole: [fetch] is the request to the backend, [None]
    when it throws. *)
Definition handleSubmit `{Libs} (isProduction : bool) (salt : Salt)
    (SECRET_KEY : string) (now tza : Z)
    (fetch : gmap string string -> option Response) (st : State) : State :=
  let validationErrors := Client.validateForm now tza (of_object (formData st)) in
  if negb (bool_decide (validationErrors = ∅)) then
    {| formData := formData st; errors := validationErrors;
       isSubmitting := isSubmitting st; submitMessage := submitMessage st;
       selectedDate := selectedDate st |}
  else
    match fetch (payload isProduction salt SECRET_KEY (formData st)) with
    | Some response =>
        if negb (ok response) then
          {| formData := formData st; errors := ∅; isSubmitting := false;
             submitMessage := errorMsg response;
             selectedDate := selectedDate st |}
        else
          {| formData := initialFormData; errors := ∅; isSubmitting := false;
             submitMessage := JStr thanks; selectedDate := None |}
    | None =>
        {| formData := formData st; errors := ∅; isSubmitting := false;
           submitMessage := JStr sorry; selectedDate := selectedDate st |}
    end.

(** A run of input events, the first of the list first. *)
Fixpoint type_all (events : list (string * string)) (st : State) : State :=
  match events with
  | [] => st
  | (name, value) :: rest => type_all rest (handleInputChange name value st)
  end.

End Form.

(** ** More vocabulary *)

(** The required paths the handler trims before it stores them. *)
Definition trimmed_required_fields : list string :=
  [ "name"; "phone"; "state"; "englishLevel"; "age"; "education";
    "experience"; "visaType" ].

(** The keys [validateForm] can set. *)
Definition error_keys : list string :=
  [ "name"; "email"; "phone"; "service"; "englishLevel"; "age"; "education";
    "experience"; "visaType"; "preferredDate"; "message" ].

(** A stored booking as the handler leaves it: its email is in lower
    case, without white space around it and of the shape of an email,
    and its trimmed required paths are trimmed and not empty. *)
Definition well_formed (d : Doc) : Prop :=
  (exists e, paths d !! "email" = Some e
             /\ toLowerCase e = e /\ trim e = e /\ test emailRegex e = true)
  /\ forall k, k ∈ trimmed_required_fields ->
       exists v, paths d !! k = Some v /\ trim v = v /\ v <> "".

(** The string does not start with white space. *)
Definition starts_clean (s : string) : bool :=
  match s with
  | EmptyString => true
  | String c _ => negb (isWhiteSpace c)
  end.

(** Every character class of the pattern gives the same answer on [c]
    and on [f c]. *)
Fixpoint respects (f : ascii -> ascii) (r : regex) : Prop :=
  match r with
  | Class p => forall c, p (f c) = p c
  | Cat a b | Alt a b => respects f a /\ respects f b
  | Star a => respects f a
  | Void | Eps => True
  end.

(** The paths a stored booking is well formed on are required paths of
    the schema. *)
Definition requires_all (schema : Schema) : Prop :=
  forall k, k ∈ "email" :: "preferredDate" :: trimmed_required_fields ->
            (k, true) ∈ schema.

(** What [validateForm] lets through, field by field. *)
Definition lets_through `{Libs} (now tza : Z) (fd : Client.FormData) : Prop :=
  test nameRegex (trim (Client.name fd)) = true
  /\ test emailRegex (trim (Client.email fd)) = true
  /\ test phoneRegex (trim (Client.phone fd)) = true
  /\ nonEmpty (Client.service fd) = true
  /\ nonEmpty (Client.englishLevel fd) = true
  /\ nonEmpty (Client.age fd) = true
  /\ nonEmpty (Client.education fd) = true
  /\ nonEmpty (Client.experience fd) = true
  /\ nonEmpty (Client.visaType fd) = true
  /\ nonEmpty (Client.preferredDate fd) = true
  /\ JsDate.lt (JsDate.setHours0 tza (new_Date (Client.preferredDate fd)))
               (JsDate.setHours0 tza (Some now)) = false
  /\ (String.length (Client.message fd) <= 500)%nat.

(** The messages of the answers that are not a success. *)
Definition server_messages : list string :=
  [ "Invalid encrypted data. Decryption failed.";
    "Invalid data format. Please try again.";
    "Missing required fields. Please fill in all required fields.";
    "Invalid email format.";
    "Invalid date format.";
    "Cannot book a consultation in the past.";
    "Database error. Please try again later or contact support.";
    "You have already booked a consultation for this date with this email.";
    "Failed to save booking. Please try again later or contact support." ].

(** What the form data keeps: every field is there and no value holds a
    character of the class. *)
Definition tidy (o : gmap string string) : Prop :=
  Form.complete o /\ forall k v, o !! k = Some v -> Form.clean v = true.

(** The strings a pattern stands for. *)
Inductive lang : regex -> string -> Prop :=
| lang_Eps : lang Eps ""
| lang_Class p c : p c = true -> lang (Class p) (String c "")
| lang_Cat a b s t : lang a s -> lang b t -> lang (Cat a b) (s ++ t)
| lang_AltL a b s : lang a s -> lang (Alt a b) s
| lang_AltR a b s : lang b s -> lang (Alt a b) s
| lang_Star0 a : lang (Star a) ""
| lang_StarS a s t : lang a s -> lang (Star a) t -> lang (Star a) (s ++ t).

(** Every character of the string is of the class. *)
Fixpoint all (p : ascii -> bool) (s : string) : bool :=
  match s with
  | EmptyString => true
  | String c rest => p c && all p rest
  end.

(** The classes of the three patterns of the validation. *)
Definition emailPart (c : ascii) : bool :=
  negb (isWhiteSpace c || Ascii.eqb c "@").

Definition nameChar (c : ascii) : bool :=
  isLowerAZ c || isUpperAZ c || isWhiteSpace c.

Definition phoneChar (c : ascii) : bool :=
  isDigit c || isWhiteSpace c || Ascii.eqb c "-" || Ascii.eqb c "("
  || Ascii.eqb c ")" || Ascii.eqb c "+".

(** The server behind [fetch]: the request reaches the handler and its
    answer comes back. *)
Definition backend `{Libs} (schema : Schema) (w : World) (coll : list Doc)
    (body : gmap string string) : option Response :=
  Some (response (Server.submit_with schema w coll body)).

(** The earlier handler on requests one after the other. *)
Fixpoint legacy_submit_all `{Libs}
    (requests : list (World * gmap string string)) (coll : list Doc) : list Doc :=
  match requests with
  | [] => coll
  | (w, body) :: rest =>
      legacy_submit_all rest (Legacy.collection (Legacy.submit w coll body))
  end.

(** More to run the code on. *)
Module Desk.

(** [Date.prototype.toISOString] for the years 0 to 9999. *)
Definition civilFromDays (z : Z) : Z * Z * Z :=
  let z := (z + 719468)%Z in
  let era := (z / 146097)%Z in
  let doe := (z - era * 146097)%Z in
  let yoe := ((doe - doe / 1460 + doe / 36524 - doe / 146096) / 365)%Z in
  let y := (yoe + era * 400)%Z in
  let doy := (doe - (365 * yoe + yoe / 4 - yoe / 100))%Z in
  let mp := ((5 * doy + 2) / 153)%Z in
  let d := (doy - (153 * mp + 2) / 5 + 1)%Z in
  let m := (if (mp <? 10)%Z then mp + 3 else mp - 9)%Z in
  ((if (m <=? 2)%Z then y + 1 else y)%Z, m, d).

Definition decimal (width : nat) (n : Z) : string :=
  (fix go (k : nat) (n : Z) (acc : string) : string :=
     match k with
     | O => acc
     | S k' => go k' (n / 10)%Z (String (ascii_of_N (48 + Z.to_N (n mod 10))) acc)
     end) width n EmptyString.

Definition toISOString (t : Z) : string :=
  let '(y, m, d) := civilFromDays (JsDate.Day t) in
  let ms := (t mod JsDate.msPerDay)%Z in
  decimal 4 y ++ "-" ++ decimal 2 m ++ "-" ++ decimal 2 d ++ "T"
  ++ decimal 2 (ms / 3600000) ++ ":" ++ decimal 2 (ms / 60000 mod 60) ++ ":"
  ++ decimal 2 (ms / 1000 mod 60) ++ "." ++ decimal 3 (ms mod 1000) ++ "Z".

(** Jane's form, typed field by field, with a quote in the name. *)
Definition jane_typed : list (string * string) :=
  [ ("name", "Jane <Doe>"); ("email", "JANE@x.com"); ("phone", "1234567890");
    ("state", "Gujarat"); ("service", "visa-processing");
    ("preferredDate", "2025-11-02"); ("englishLevel", "Good (7 Band)");
    ("age", "18-35 years"); ("education", "Graduation");
    ("experience", "1 year"); ("visaType", "Work Permit") ].

(** Credentials in place and a transport that delivers. *)
Definition world_mail_up : World := {|
  process_env := {[ "EMAIL_USER" := "desk@easygo.example";
                    "EMAIL_PASS" := "app-password" ]};
  clock := 1762075800000;
  LocalTZA := 19800000;
  db_findOne_ok := true;
  db_save_ok := true;
  sendMail_ok := fun _ => true;
  fresh_id := 1;
  save_clock := 1762075800250
|}.

(** Midnight of 2 November 2025, local time, five and a half hours east
    of Greenwich. *)
Definition local_midnight : Z := 1762021800000.

(** A name of spaces only. *)
Definition blank_name : Client.FormData := Scenario.with_name "   " Scenario.jane.

(** Another booking, for another day. *)
Definition ravi_stored : Doc := {|
  _id := 2;
  paths := Booking.new BookingSchema_eligibility
             (Server.booking_data
                (Client.to_object
                   (Scenario.with_date "2025-11-05"
                      (Scenario.with_email "ravi@y.org" Scenario.jane))));
  createdAt := 1762075860250;
  updatedAt := 1762075860250
|}.

End Desk.

(** * Properties *)

Section Pipeline.

Context {L : Libs}.

Implicit Types (w : World) (coll : list Doc) (schema : Schema).
Implicit Types (body formData query data : gmap string string).

(** ** Decoding *)

Lemma or_default_nonEmpty (v : option string) (d : string) :
  nonEmpty d = true -> nonEmpty (or_default v d) = true.
Proof.
  intros Hd. unfold or_default, nonEmpty in *.
  destruct v as [s|]; [|exact Hd].
  destruct (String.eqb s "") eqn:E; [exact Hd|]. now rewrite E.
Qed.

(** The key is never empty: the branch that answers 500 in [decode]
    is never taken. *)
Lemma SECRET_KEY_nonEmpty w : nonEmpty (Server.SECRET_KEY w) = true.
Proof. apply or_default_nonEmpty. reflexivity. Qed.

Lemma decode_plain w body :
  truthy (body !! "encrypted") = false -> Server.decode w body = inr body.
Proof. intros H. unfold Server.decode. now rewrite H. Qed.

Lemma decode_fails_400 w body :
  decode_fails w body ->
  exists msg, Server.decode w body = inl (Server.error 400 msg).
Proof.
  intros [Henc Hcases]. unfold Server.decode.
  rewrite Henc, SECRET_KEY_nonEmpty. cbn [negb].
  destruct Hcases as [-> | [-> | (s & -> & Hparse)]].
  - eauto.
  - cbn. eauto.
  - destruct (negb (nonEmpty s)); [eauto|]. rewrite Hparse. eauto.
Qed.

(** Whatever [decode] refuses, it refuses with status 400. *)
Lemma decode_inl_400 w body r :
  Server.decode w body = inl r -> exists msg, r = Server.error 400 msg.
Proof.
  unfold Server.decode.
  destruct (truthy (body !! "encrypted")); [|discriminate].
  rewrite SECRET_KEY_nonEmpty. cbn [negb].
  destruct (Utf8_stringify _) as [s|]; [|intros [= <-]; eauto].
  destruct (negb (nonEmpty s)); [intros [= <-]; eauto|].
  destruct (JSON_parse s); [discriminate|intros [= <-]; eauto].
Qed.

Lemma date_policy_400 w pd r :
  Server.date_policy w pd = Some r -> exists msg, r = Server.error 400 msg.
Proof.
  unfold Server.date_policy.
  destruct (JsDate.isNaN _); [intros [= <-]; eauto|].
  destruct (JsDate.lt _ _); [intros [= <-]; eauto|discriminate].
Qed.

(** ** The handler past its checks *)

Lemma submit_passed schema w coll body formData :
  passes_checks w body formData ->
  Server.submit_with schema w coll body =
    let query := Server.conflict_query formData in
    match findOneBooking w query coll with
    | None =>
        {| response := Server.error 500 "Database error. Please try again later or contact support.";
           collection := coll; calls := [FindOne query] |}
    | Some (Some conflict) =>
        {| response := Server.error 409 "You have already booked a consultation for this date with this email.";
           collection := coll; calls := [FindOne query] |}
    | Some None =>
        let data := Server.booking_data formData in
        match insertBooking w schema data coll with
        | None =>
            {| response := Server.error 500 "Failed to save booking. Please try again later or contact support.";
               collection := coll; calls := [FindOne query; Insert data] |}
        | Some coll' =>
            {| response := (Server.notify w formData).1; collection := coll';
               calls := (FindOne query :: Insert data
                         :: (Server.notify w formData).2)%list |}
        end
    end.
Proof.
  intros (Hdec & Hreq & Hmail & Hdate). unfold Server.submit_with.
  rewrite Hdec, Hreq, Hmail, Hdate. cbn [negb].
  destruct (findOneBooking _ _ _) as [[c|]|]; try reflexivity.
  cbn zeta. destruct (insertBooking _ _ _ _); [|reflexivity].
  now destruct (Server.notify w formData).
Qed.

(** A saved booking is the collection with one document more, the
    one made of the data. *)
Lemma insertBooking_Some w schema data coll coll' :
  insertBooking w schema data coll = Some coll' ->
  exists doc, coll' = (coll ++ [doc])%list
              /\ paths doc = Booking.new schema data.
Proof.
  unfold insertBooking, Booking.save.
  destruct (_ && _); [|discriminate]. intros [= <-]. eauto.
Qed.

(** Whatever the transport does, the answer after a saved booking is a
    success. *)
Lemma notify_success w formData :
  let r := (Server.notify w formData).1 in
  status r = 200%Z /\ json r !! "success" = Some (JBool true)
  /\ json r !! "error" = None.
Proof.
  unfold Server.notify.
  destruct (Server.credentials_missing w); [now vm_compute|].
  destruct (sendMail_ok w _); [destruct (sendMail_ok w _)|]; now vm_compute.
Qed.

(** ** Rejections come before the store *)

Lemma early_rejection schema w coll body formData :
  Server.decode w body = inr formData ->
  validation_fails w formData ->
  let r := Server.submit_with schema w coll body in
  status (response r) = 400%Z
  /\ is_Some (json (response r) !! "error")
  /\ calls r = []
  /\ collection r = coll.
Proof.
  intros Hdec H r. subst r. unfold Server.submit_with. rewrite Hdec.
  destruct (Server.missing_required formData) eqn:Hreq.
  { cbn. rewrite lookup_singleton_eq. eauto. }
  destruct (test emailRegex _) eqn:Hmail; cbn [negb].
  2:{ cbn. rewrite lookup_singleton_eq. eauto. }
  destruct (Server.date_policy w _) as [e|] eqn:Hdate.
  { destruct (date_policy_400 _ _ _ Hdate) as [msg ->]. cbn.
    rewrite lookup_singleton_eq. eauto. }
  destruct H as [H | [H | H]]; congruence.
Qed.

(** C4. An envelope that does not decode, and a payload that fails the
    validation or the date rule, is answered with status 400 and an
    [error] message; the handler has then made no call to the record
    store (nor to the mail transport) and the collection is as it was. *)
Theorem rejected_before_store schema w coll body :
  decode_fails w body
  \/ (exists formData, Server.decode w body = inr formData
                       /\ validation_fails w formData) ->
  let r := Server.submit_with schema w coll body in
  status (response r) = 400%Z
  /\ is_Some (json (response r) !! "error")
  /\ calls r = []
  /\ collection r = coll.
Proof.
  intros [H | (formData & Hdec & H)].
  - unfold Server.submit_with.
    destruct (decode_fails_400 _ _ H) as [msg ->]. cbn.
    rewrite lookup_singleton_eq. eauto.
  - now apply early_rejection with formData.
Qed.

(** The other way round: a request that makes no store call was
    refused by the decoding, the validation or the date rule. *)
Lemma no_store_call_rejected schema w coll body :
  calls (Server.submit_with schema w coll body) = [] ->
  status (response (Server.submit_with schema w coll body)) = 400%Z.
Proof.
  unfold Server.submit_with.
  destruct (Server.decode w body) as [r|formData] eqn:Hdec.
  { destruct (decode_inl_400 _ _ _ Hdec) as [msg ->]. reflexivity. }
  destruct (Server.missing_required formData); [reflexivity|].
  destruct (negb _); [reflexivity|].
  destruct (Server.date_policy w _) as [e|] eqn:Hdate.
  { destruct (date_policy_400 _ _ _ Hdate) as [msg ->]. reflexivity. }
  cbn zeta. destruct (findOneBooking _ _ _) as [[c|]|]; try discriminate.
  destruct (insertBooking _ _ _ _); [|discriminate].
  destruct (Server.notify w formData). discriminate.
Qed.

(** ** Notification is best effort *)

(** C1. A submission that passes the decoding, the validation, the date
    rule and the conflict check, and whose insert succeeds: when the
    transport then fails the user's message and the admin's, the
    answer is still the success, status 200 with [success: true] and a
    [warning] and no [error], and the booking is in the collection. *)
Theorem accepted_when_mail_fails schema w coll body formData coll' :
  passes_checks w body formData ->
  findOneBooking w (Server.conflict_query formData) coll = Some None ->
  insertBooking w schema (Server.booking_data formData) coll = Some coll' ->
  Server.credentials_missing w = false ->
  sendMail_ok w (Server.userMailOptions w formData) = false ->
  sendMail_ok w (Server.adminMailOptions w formData) = false ->
  let r := Server.submit_with schema w coll body in
  response r = Server.saved_emails_failed
  /\ status (response r) = 200%Z
  /\ json (response r) !! "success" = Some (JBool true)
  /\ is_Some (json (response r) !! "warning")
  /\ json (response r) !! "error" = None
  /\ collection r = coll'
  /\ exists doc, coll' = (coll ++ [doc])%list
                 /\ paths doc = Booking.new schema (Server.booking_data formData).
Proof.
  intros Hpass Hfind Hins Hcred Huser Hadmin r. subst r.
  rewrite (submit_passed _ _ _ _ _ Hpass). cbn zeta.
  rewrite Hfind, Hins. unfold Server.notify. rewrite Hcred, Huser. cbn.
  split; [reflexivity|]. split; [reflexivity|]. split; [reflexivity|].
  split; [eexists; reflexivity|]. split; [reflexivity|]. split; [reflexivity|].
  eapply insertBooking_Some; eauto.
Qed.

(** Whatever the transport does, a saved booking is answered with a
    success: no outcome of the mail step gives an [error]. *)
Lemma accepted_whatever_mail_does schema w coll body formData coll' :
  passes_checks w body formData ->
  findOneBooking w (Server.conflict_query formData) coll = Some None ->
  insertBooking w schema (Server.booking_data formData) coll = Some coll' ->
  let r := Server.submit_with schema w coll body in
  status (response r) = 200%Z
  /\ json (response r) !! "success" = Some (JBool true)
  /\ json (response r) !! "error" = None
  /\ collection r = coll'.
Proof.
  intros Hpass Hfind Hins r. subst r.
  rewrite (submit_passed _ _ _ _ _ Hpass). cbn zeta.
  rewrite Hfind, Hins. cbn [response collection].
  destruct (notify_success w formData) as (H1 & H2 & H3). auto.
Qed.

(** The earlier revision of the handler did turn the failure of a mail
    into a failure of the request, with the booking already stored. *)
Lemma legacy_mail_failure_is_500 w coll body formData coll' :
  Legacy.decode body = inr formData ->
  Legacy.missing_required formData = false ->
  Server.date_policy w (str (formData !! "preferredDate")) = None ->
  findOneBooking w (Server.conflict_query formData) coll = Some None ->
  insertBooking w BookingSchema (Legacy.booking_data formData) coll = Some coll' ->
  sendMail_ok w (Legacy.userMailOptions w formData) = false ->
  let r := Legacy.submit w coll body in
  Legacy.response r = Some (Server.error 500 "Failed to send emails.")
  /\ Legacy.collection r = coll'.
Proof.
  intros Hdec Hreq Hdate Hfind Hins Huser r. subst r.
  unfold Legacy.submit. rewrite Hdec, Hreq, Hdate. cbn zeta.
  rewrite Hfind, Hins. unfold Legacy.notify. rewrite Huser. now cbn.
Qed.

(** C9. A booking is saved and the mail credentials are absent or
    empty: nothing is sent, and the answer is the success with the
    message that says email notifications are disabled. *)
Theorem accepted_without_credentials schema w coll body formData coll' :
  passes_checks w body formData ->
  findOneBooking w (Server.conflict_query formData) coll = Some None ->
  insertBooking w schema (Server.booking_data formData) coll = Some coll' ->
  truthy (process_env w !! "EMAIL_USER") = false
  \/ truthy (process_env w !! "EMAIL_PASS") = false ->
  let r := Server.submit_with schema w coll body in
  response r = Server.saved_emails_disabled
  /\ status (response r) = 200%Z
  /\ json (response r) !! "success" = Some (JBool true)
  /\ json (response r) !! "message"
     = Some (JStr "Booking saved successfully. Email notifications are disabled.")
  /\ json (response r) !! "error" = None
  /\ filter (fun c => isSendMail c = true) (calls r) = []
  /\ collection r = coll'.
Proof.
  intros Hpass Hfind Hins Hcred r. subst r.
  rewrite (submit_passed _ _ _ _ _ Hpass). cbn zeta.
  rewrite Hfind, Hins. unfold Server.notify.
  assert (Server.credentials_missing w = true) as ->.
  { unfold Server.credentials_missing.
    destruct Hcred as [-> | ->]; cbn; [reflexivity|apply orb_true_r]. }
  cbn. repeat (split; [reflexivity|]). reflexivity.
Qed.

(** ** The conflict check *)

(** A document answers the conflict query when its [email] is the
    submitted email in lower case, untrimmed, and its [preferredDate]
    is the submitted string. *)
Lemma matches_conflict_query formData (d : Doc) :
  Booking.matches (Server.conflict_query formData) d = true <->
  paths d !! "email" = Some (toLowerCase (str (formData !! "email")))
  /\ paths d !! "preferredDate" = Some (str (formData !! "preferredDate")).
Proof.
  unfold Booking.matches, Server.conflict_query.
  rewrite bool_decide_eq_true.
  rewrite map_Forall_insert by done.
  rewrite map_Forall_singleton. tauto.
Qed.

Lemma findOne_Some_booked query coll (d : Doc) :
  Booking.findOne query coll = Some d ->
  d ∈ coll /\ Booking.matches query d = true.
Proof.
  unfold Booking.findOne. intros H. apply find_some in H as [Hin Hm].
  split; [now apply list_elem_of_In|exact Hm].
Qed.

Lemma findOne_None query coll :
  Booking.findOne query coll = None <->
  forall d, d ∈ coll -> Booking.matches query d = false.
Proof.
  unfold Booking.findOne. split.
  - intros H d Hd. apply (find_none _ _ H). now apply list_elem_of_In.
  - intros H. induction coll as [|d coll IH]; [reflexivity|]. cbn.
    rewrite (H d) by left. apply IH. intros d' Hd'. apply H. now right.
Qed.

(** The query finds a booking exactly when one is stored under the
    lower-cased email and the date string. *)
Lemma conflict_iff_booked formData coll :
  is_Some (Booking.findOne (Server.conflict_query formData) coll) <->
  booked coll (toLowerCase (str (formData !! "email")))
         (str (formData !! "preferredDate")).
Proof.
  split.
  - intros [d Hd]. apply findOne_Some_booked in Hd as [Hin Hm].
    apply matches_conflict_query in Hm. exists d. tauto.
  - intros (d & Hin & He & Hd).
    destruct (Booking.findOne _ coll) eqn:E; [eauto|].
    rewrite findOne_None in E. specialize (E d Hin).
    assert (Booking.matches (Server.conflict_query formData) d = true)
      by (apply matches_conflict_query; tauto).
    congruence.
Qed.

(** The amended C3. A booking is stored under email [E] and date [D];
    a second request that passes the decoding, the validation and the
    date rule, whose email in lower case is [E] and whose
    [preferredDate] is the string [D], is answered 409 as soon as the
    store answers the query: nothing is inserted, whatever the other
    fields of the request are. *)
Theorem conflict_detected schema w coll body formData :
  passes_checks w body formData ->
  db_findOne_ok w = true ->
  booked coll (toLowerCase (str (formData !! "email")))
         (str (formData !! "preferredDate")) ->
  let r := Server.submit_with schema w coll body in
  response r
  = Server.error 409 "You have already booked a consultation for this date with this email."
  /\ status (response r) = 409%Z
  /\ calls r = [FindOne (Server.conflict_query formData)]
  /\ collection r = coll.
Proof.
  intros Hpass Hdb Hbooked r. subst r.
  rewrite (submit_passed _ _ _ _ _ Hpass). cbn zeta.
  unfold findOneBooking. rewrite Hdb.
  apply conflict_iff_booked in Hbooked as [d ->]. auto.
Qed.

(** ** What is stored *)

Lemma Booking_new_lookup schema data (k : string) :
  k ∈ schema.*1 -> Booking.new schema data !! k = data !! k.
Proof.
  intros Hk. unfold Booking.new.
  destruct (data !! k) as [v|] eqn:E.
  - apply map_lookup_filter_Some. split; [exact E|exact Hk].
  - apply map_lookup_filter_None. left. exact E.
Qed.

Lemma booking_data_email formData :
  Server.booking_data formData !! "email"
  = Some (trim (toLowerCase (str (formData !! "email")))).
Proof. unfold Server.booking_data. now simplify_map_eq. Qed.

Lemma booking_data_preferredDate formData :
  Server.booking_data formData !! "preferredDate"
  = Some (str (formData !! "preferredDate")).
Proof. unfold Server.booking_data. now simplify_map_eq. Qed.

(** C10. On a request that passes the checks and a store that answers:
    the request is refused as a conflict exactly when a booking is
    stored whose email is the submitted email in lower case, not
    trimmed, and whose date is the submitted string, character for
    character; otherwise, once the insert succeeds, the answer is a
    success and the collection has one booking more, stored under the
    trimmed email.  So a booking stored under [E] and [D] does not stop
    a second request whose email has spaces around [E], or whose date
    is another string for the day of [D]: it is stored next to the
    first, under the same email. *)
Theorem conflict_check_is_exact schema w coll body formData :
  passes_checks w body formData ->
  db_findOne_ok w = true ->
  "email" ∈ schema.*1 ->
  "preferredDate" ∈ schema.*1 ->
  let r := Server.submit_with schema w coll body in
  let email := str (formData !! "email") in
  let date := str (formData !! "preferredDate") in
  (status (response r) = 409%Z <-> booked coll (toLowerCase email) date)
  /\ (~ booked coll (toLowerCase email) date ->
      forall coll',
        insertBooking w schema (Server.booking_data formData) coll = Some coll' ->
        status (response r) = 200%Z
        /\ json (response r) !! "success" = Some (JBool true)
        /\ exists doc, collection r = (coll ++ [doc])%list
                       /\ paths doc !! "email" = Some (trim (toLowerCase email))
                       /\ paths doc !! "preferredDate" = Some date).
Proof.
  intros Hpass Hdb Hse Hsd r email date. subst r email date.
  rewrite (submit_passed _ _ _ _ _ Hpass). cbn zeta.
  unfold findOneBooking. rewrite Hdb.
  pose proof (conflict_iff_booked formData coll) as Hiff.
  destruct (Booking.findOne _ coll) as [d|] eqn:Hfind.
  - split.
    + split; [intros _; apply Hiff; eauto|reflexivity].
    + intros Hno. exfalso. apply Hno, Hiff. eauto.
  - assert (Hno : ~ booked coll (toLowerCase (str (formData !! "email")))
                    (str (formData !! "preferredDate"))).
    { intros Hb. apply Hiff in Hb as [d Hd]. discriminate. }
    split.
    + split; [|tauto]. intros H409. exfalso.
      destruct (insertBooking _ _ _ _); cbn in H409.
      * destruct (notify_success w formData) as (H1 & _). congruence.
      * discriminate.
    + intros _ coll' Hins. rewrite Hins. cbn [response collection].
      destruct (notify_success w formData) as (H1 & H2 & _).
      split; [exact H1|]. split; [exact H2|].
      apply insertBooking_Some in Hins as (doc & -> & Hdoc).
      exists doc. split; [reflexivity|]. rewrite Hdoc.
      rewrite !Booking_new_lookup by assumption.
      rewrite booking_data_email, booking_data_preferredDate.
      split; reflexivity.
Qed.

(** ** One booking per email and date *)

Lemma unique_pairs_snoc coll (doc : Doc) :
  unique_pairs coll -> pair_of doc ∉ pair_of <$> coll ->
  unique_pairs (coll ++ [doc]).
Proof.
  unfold unique_pairs. intros Hnd Hnew. rewrite fmap_app. cbn.
  apply NoDup_app. split; [exact Hnd|]. split; [|apply NoDup_singleton].
  intros x Hx Hx'. apply list_elem_of_singleton in Hx'. now subst.
Qed.

(** A request whose email comes without white space around it leaves
    the pairs unique. *)
Lemma submit_keeps_unique_pairs schema w coll body :
  "email" ∈ schema.*1 ->
  "preferredDate" ∈ schema.*1 ->
  (forall formData, Server.decode w body = inr formData ->
                    trimmed (toLowerCase (str (formData !! "email")))) ->
  unique_pairs coll ->
  unique_pairs (collection (Server.submit_with schema w coll body)).
Proof.
  intros Hse Hsd Htrim Huniq. unfold Server.submit_with.
  destruct (Server.decode w body) as [r|formData] eqn:Hdec; [exact Huniq|].
  specialize (Htrim formData eq_refl).
  destruct (Server.missing_required formData); [exact Huniq|].
  destruct (negb _); [exact Huniq|].
  destruct (Server.date_policy w _); [exact Huniq|]. cbn zeta.
  unfold findOneBooking. destruct (db_findOne_ok w); [|exact Huniq].
  destruct (Booking.findOne _ coll) as [d|] eqn:Hfind; [exact Huniq|].
  destruct (insertBooking _ _ _ _) as [coll'|] eqn:Hins; [|exact Huniq].
  destruct (Server.notify w formData) as [r mails]. cbn [collection].
  apply insertBooking_Some in Hins as (doc & -> & Hdoc).
  apply unique_pairs_snoc; [exact Huniq|].
  intros Hin. apply list_elem_of_fmap in Hin as (d & Hpair & Hd).
  rewrite findOne_None in Hfind. specialize (Hfind d Hd).
  assert (Booking.matches (Server.conflict_query formData) d = true); [|congruence].
  apply matches_conflict_query.
  unfold pair_of in Hpair. rewrite Hdoc in Hpair.
  rewrite !Booking_new_lookup in Hpair by assumption.
  rewrite booking_data_email, booking_data_preferredDate in Hpair.
  unfold trimmed in Htrim. rewrite Htrim in Hpair.
  injection Hpair as <- <-. split; reflexivity.
Qed.

(** So do any number of such requests, handled one after the other. *)
Lemma submit_all_keeps_unique_pairs schema requests coll :
  "email" ∈ schema.*1 ->
  "preferredDate" ∈ schema.*1 ->
  Forall (fun req => forall formData,
              Server.decode req.1 req.2 = inr formData ->
              trimmed (toLowerCase (str (formData !! "email")))) requests ->
  unique_pairs coll ->
  unique_pairs (submit_all schema requests coll).
Proof.
  intros Hse Hsd Hall. revert coll.
  induction Hall as [|[w body] rest Hreq _ IH]; intros coll Huniq; cbn.
  - exact Huniq.
  - apply IH. now apply submit_keeps_unique_pairs.
Qed.

(** ** The codec *)

Lemma to_object_no_encrypted (data : Client.FormData) :
  Client.to_object data !! "encrypted" = None.
Proof. unfold Client.to_object. now simplify_map_eq. Qed.

(** C5. What the server decodes from the envelope the client encodes
    is the payload itself, in production (the JSON text of the payload
    encrypted under the shared key and wrapped as [{ encrypted }]) and
    in development (the payload itself): as soon as, on this payload,
    decrypting under the key undoes encrypting, parsing undoes
    [JSON.stringify], and neither the JSON text nor the ciphertext is
    the empty string. *)
Theorem codec_round_trip w (salt : Salt) (data : Client.FormData) :
  let payload := Client.to_object data in
  let key := Server.SECRET_KEY w in
  let plaintext := JSON_stringify payload in
  Utf8_stringify (AES_decrypt (AES_encrypt salt plaintext key) key)
    = Some plaintext ->
  JSON_parse plaintext = Some payload ->
  nonEmpty plaintext = true ->
  nonEmpty (AES_encrypt salt plaintext key) = true ->
  Server.decode w (Client.encode true salt key data) = inr payload
  /\ Server.decode w (Client.encode false salt key data) = inr payload.
Proof.
  intros payload key plaintext Hdecrypt Hparse Hplain Hcipher.
  subst payload key plaintext. split.
  - unfold Client.encode, Server.decode.
    rewrite lookup_singleton_eq. cbn [truthy str default from_option id].
    unfold nonEmpty in Hcipher. rewrite Hcipher.
    rewrite SECRET_KEY_nonEmpty. cbn [negb].
    rewrite Hdecrypt, Hplain. cbn [negb]. now rewrite Hparse.
  - unfold Client.encode. apply decode_plain.
    now rewrite to_object_no_encrypted.
Qed.

(** Client and server fall back on the same key. *)
Lemma default_keys_agree w (env : gmap string string) :
  env !! "REACT_APP_SECRET_KEY" = None ->
  process_env w !! "SECRET_KEY" = None ->
  Client.SECRET_KEY env = Server.SECRET_KEY w.
Proof.
  intros He Hw. unfold Client.SECRET_KEY, Server.SECRET_KEY.
  now rewrite He, Hw.
Qed.

(** ** The date rule *)

Section DateRule.

Local Open Scope Z_scope.

Lemma setHours0_value (tza t : Z) :
  Z.abs tza <= JsDate.msPerDay ->
  Z.abs t <= JsDate.maxTime - 2 * JsDate.msPerDay ->
  JsDate.setHours0 tza (Some t)
  = Some (JsDate.LocalDay tza t * JsDate.msPerDay - tza).
Proof.
  intros Hz Ht. unfold JsDate.setHours0, JsDate.TimeClip.
  unfold JsDate.LocalDay, JsDate.Day.
  pose proof (Z.div_mod (t + tza) JsDate.msPerDay) as Hdm.
  pose proof (Z.mod_pos_bound (t + tza) JsDate.msPerDay) as Hb.
  unfold JsDate.msPerDay, JsDate.maxTime in *.
  destruct (Z.leb_spec (Z.abs ((t + tza) / 86400000 * 86400000 - tza))
                       8640000000000000); [reflexivity|]. lia.
Qed.

Lemma TimeClip_value (t : Z) :
  Z.abs t <= JsDate.maxTime -> JsDate.TimeClip t = Some t.
Proof.
  intros Ht. unfold JsDate.TimeClip.
  destruct (Z.leb_spec (Z.abs t) JsDate.maxTime); [reflexivity|lia].
Qed.

(** The comparison of the two zeroed dates is the comparison of the
    two local days. *)
Lemma zeroed_lt (tza b now : Z) :
  Z.abs tza <= JsDate.msPerDay ->
  Z.abs b <= JsDate.maxTime - 2 * JsDate.msPerDay ->
  Z.abs now <= JsDate.maxTime - 2 * JsDate.msPerDay ->
  JsDate.lt (JsDate.setHours0 tza (Some b)) (JsDate.setHours0 tza (Some now))
  = (JsDate.LocalDay tza b <? JsDate.LocalDay tza now).
Proof.
  intros Hz Hb Hn. rewrite !setHours0_value by assumption. cbn [JsDate.lt].
  unfold JsDate.msPerDay.
  destruct (Z.ltb_spec (JsDate.LocalDay tza b) (JsDate.LocalDay tza now));
    [apply Z.ltb_lt|apply Z.ltb_ge]; lia.
Qed.

Lemma validate_date_eq (now tza : Z) (data : Client.FormData)
    (errors : gmap string string) :
  Client.validate_date now tza data errors !! "preferredDate"
  = if negb (nonEmpty (Client.preferredDate data))
    then Some "Please select a preferred date"%string
    else if JsDate.lt (JsDate.setHours0 tza (new_Date (Client.preferredDate data)))
                      (JsDate.setHours0 tza (Some now))
         then Some "Please select future date"%string
         else errors !! "preferredDate".
Proof.
  unfold Client.validate_date.
  destruct (negb _); [apply lookup_insert_eq|]. cbn zeta.
  destruct (JsDate.lt _ _); [apply lookup_insert_eq|reflexivity].
Qed.

End DateRule.

(** ** The validator *)

Section Validator.

Implicit Types (fd : Client.FormData) (errors : gmap string string).
Implicit Types (k : string).

Lemma validate_name_ne fd errors k :
  k <> "name" -> Client.validate_name fd errors !! k = errors !! k.
Proof.
  intros Hk. unfold Client.validate_name.
  repeat destruct (negb _); try reflexivity; now apply lookup_insert_ne.
Qed.

Lemma validate_email_ne fd errors k :
  k <> "email" -> Client.validate_email fd errors !! k = errors !! k.
Proof.
  intros Hk. unfold Client.validate_email.
  repeat destruct (negb _); try reflexivity; now apply lookup_insert_ne.
Qed.

Lemma validate_phone_ne fd errors k :
  k <> "phone" -> Client.validate_phone fd errors !! k = errors !! k.
Proof.
  intros Hk. unfold Client.validate_phone.
  repeat destruct (negb _); try reflexivity; now apply lookup_insert_ne.
Qed.

Lemma validate_present_ne (field value msg : string) errors k :
  k <> field ->
  Client.validate_present field value msg errors !! k = errors !! k.
Proof.
  intros Hk. unfold Client.validate_present.
  destruct (negb _); try reflexivity. now apply lookup_insert_ne.
Qed.

Lemma validate_date_ne (now tza : Z) fd errors k :
  k <> "preferredDate" ->
  Client.validate_date now tza fd errors !! k = errors !! k.
Proof.
  intros Hk. unfold Client.validate_date.
  destruct (negb _); [now apply lookup_insert_ne|]. cbn zeta.
  destruct (JsDate.lt _ _); [now apply lookup_insert_ne|reflexivity].
Qed.

Lemma validate_message_ne fd errors k :
  k <> "message" -> Client.validate_message fd errors !! k = errors !! k.
Proof.
  intros Hk. unfold Client.validate_message.
  destruct (_ && _); [now apply lookup_insert_ne|reflexivity].
Qed.

Lemma validate_name_eq fd errors :
  Client.validate_name fd errors !! "name"
  = if negb (nonEmpty (trim (Client.name fd)))
    then Some "Name is required"
    else if negb (test nameRegex (trim (Client.name fd)))
         then Some "Name must contain only letters and spaces (2-50 characters)"
         else errors !! "name".
Proof.
  unfold Client.validate_name.
  repeat destruct (negb _); try reflexivity; apply lookup_insert_eq.
Qed.

Lemma validate_email_eq fd errors :
  Client.validate_email fd errors !! "email"
  = if negb (nonEmpty (trim (Client.email fd)))
    then Some "Email is required"
    else if negb (test emailRegex (trim (Client.email fd)))
         then Some "Please enter a valid email address"
         else errors !! "email".
Proof.
  unfold Client.validate_email.
  repeat destruct (negb _); try reflexivity; apply lookup_insert_eq.
Qed.

Lemma validate_phone_eq fd errors :
  Client.validate_phone fd errors !! "phone"
  = if negb (nonEmpty (trim (Client.phone fd)))
    then Some "Phone number is required"
    else if negb (test phoneRegex (trim (Client.phone fd)))
         then Some "Please enter a valid phone number (10-15 digits)"
         else errors !! "phone".
Proof.
  unfold Client.validate_phone.
  repeat destruct (negb _); try reflexivity; apply lookup_insert_eq.
Qed.

Lemma validate_present_eq (field value msg : string) errors :
  Client.validate_present field value msg errors !! field
  = if negb (nonEmpty value) then Some msg else errors !! field.
Proof.
  unfold Client.validate_present.
  destruct (negb _); [apply lookup_insert_eq|reflexivity].
Qed.

Lemma validate_message_eq fd errors :
  Client.validate_message fd errors !! "message"
  = if nonEmpty (Client.message fd)
       && (500 <? Z.of_nat (String.length (Client.message fd)))%Z
    then Some "Message must be less than 500 characters"
    else errors !! "message".
Proof.
  unfold Client.validate_message.
  destruct (_ && _); [apply lookup_insert_eq|reflexivity].
Qed.

(** Reads one key of the object [validateForm] returns, block by
    block from the last. *)
Ltac read_errors :=
  unfold Client.validateForm; cbn zeta;
  repeat first
    [ rewrite validate_message_ne by done
    | rewrite validate_date_ne by done
    | rewrite validate_present_ne by done
    | rewrite validate_phone_ne by done
    | rewrite validate_email_ne by done
    | rewrite validate_name_ne by done
    | rewrite validate_message_eq
    | rewrite validate_date_eq
    | rewrite validate_present_eq
    | rewrite validate_phone_eq
    | rewrite validate_email_eq
    | rewrite validate_name_eq ];
  rewrite ?lookup_empty.

Lemma validateForm_name (now tza : Z) fd :
  Client.validateForm now tza fd !! "name"
  = if negb (nonEmpty (trim (Client.name fd)))
    then Some "Name is required"
    else if negb (test nameRegex (trim (Client.name fd)))
         then Some "Name must contain only letters and spaces (2-50 characters)"
         else None.
Proof. read_errors. reflexivity. Qed.

Lemma validateForm_email (now tza : Z) fd :
  Client.validateForm now tza fd !! "email"
  = if negb (nonEmpty (trim (Client.email fd)))
    then Some "Email is required"
    else if negb (test emailRegex (trim (Client.email fd)))
         then Some "Please enter a valid email address"
         else None.
Proof. read_errors. reflexivity. Qed.

Lemma validateForm_phone (now tza : Z) fd :
  Client.validateForm now tza fd !! "phone"
  = if negb (nonEmpty (trim (Client.phone fd)))
    then Some "Phone number is required"
    else if negb (test phoneRegex (trim (Client.phone fd)))
         then Some "Please enter a valid phone number (10-15 digits)"
         else None.
Proof. read_errors. reflexivity. Qed.

Lemma validateForm_service (now tza : Z) fd :
  Client.validateForm now tza fd !! "service"
  = if negb (nonEmpty (Client.service fd))
    then Some "Please select a service" else None.
Proof. read_errors. reflexivity. Qed.

Lemma validateForm_englishLevel (now tza : Z) fd :
  Client.validateForm now tza fd !! "englishLevel"
  = if negb (nonEmpty (Client.englishLevel fd))
    then Some "English level is required" else None.
Proof. read_errors. reflexivity. Qed.

Lemma validateForm_age (now tza : Z) fd :
  Client.validateForm now tza fd !! "age"
  = if negb (nonEmpty (Client.age fd)) then Some "Age is required" else None.
Proof. read_errors. reflexivity. Qed.

Lemma validateForm_education (now tza : Z) fd :
  Client.validateForm now tza fd !! "education"
  = if negb (nonEmpty (Client.education fd))
    then Some "Education is required" else None.
Proof. read_errors. reflexivity. Qed.

Lemma validateForm_experience (now tza : Z) fd :
  Client.validateForm now tza fd !! "experience"
  = if negb (nonEmpty (Client.experience fd))
    then Some "Experience is required" else None.
Proof. read_errors. reflexivity. Qed.

Lemma validateForm_visaType (now tza : Z) fd :
  Client.validateForm now tza fd !! "visaType"
  = if negb (nonEmpty (Client.visaType fd))
    then Some "Visa type is required" else None.
Proof. read_errors. reflexivity. Qed.

Lemma validateForm_preferredDate (now tza : Z) fd :
  Client.validateForm now tza fd !! "preferredDate"
  = if negb (nonEmpty (Client.preferredDate fd))
    then Some "Please select a preferred date"
    else if JsDate.lt (JsDate.setHours0 tza (new_Date (Client.preferredDate fd)))
                      (JsDate.setHours0 tza (Some now))
         then Some "Please select future date"
         else None.
Proof. read_errors. reflexivity. Qed.

Lemma validateForm_message (now tza : Z) fd :
  Client.validateForm now tza fd !! "message"
  = if nonEmpty (Client.message fd)
       && (500 <? Z.of_nat (String.length (Client.message fd)))%Z
    then Some "Message must be less than 500 characters" else None.
Proof. read_errors. reflexivity. Qed.

(** No block of [validateForm] writes [errors.state]. *)
Lemma validateForm_state (now tza : Z) fd :
  Client.validateForm now tza fd !! "state" = None.
Proof. read_errors. reflexivity. Qed.

Lemma to_object_email fd :
  Client.to_object fd !! "email" = Some (Client.email fd).
Proof. unfold Client.to_object. now simplify_map_eq. Qed.

Lemma to_object_preferredDate fd :
  Client.to_object fd !! "preferredDate" = Some (Client.preferredDate fd).
Proof. unfold Client.to_object. now simplify_map_eq. Qed.

(** A property of the form data read by its name. *)
Lemma to_object_required fd k (v : string) :
  k ∈ required_fields ->
  Client.to_object fd !! k = Some v ->
  (k = "name" /\ Client.name fd = v) \/ (k = "email" /\ Client.email fd = v)
  \/ (k = "phone" /\ Client.phone fd = v) \/ (k = "state" /\ Client.state fd = v)
  \/ (k = "service" /\ Client.service fd = v)
  \/ (k = "preferredDate" /\ Client.preferredDate fd = v)
  \/ (k = "englishLevel" /\ Client.englishLevel fd = v)
  \/ (k = "age" /\ Client.age fd = v)
  \/ (k = "education" /\ Client.education fd = v)
  \/ (k = "experience" /\ Client.experience fd = v)
  \/ (k = "visaType" /\ Client.visaType fd = v).
Proof.
  intros Hk H. unfold required_fields in Hk. unfold Client.to_object in H.
  repeat (apply elem_of_cons in Hk as [-> | Hk];
          [simplify_map_eq; tauto|]).
  now apply elem_of_nil in Hk.
Qed.

(** One falsy required field is enough for the guard. *)
Lemma missing_required_field (formData : gmap string string) k :
  k ∈ required_fields ->
  truthy (formData !! k) = false ->
  Server.missing_required formData = true.
Proof.
  intros Hk H. unfold required_fields in Hk. unfold Server.missing_required.
  repeat (apply elem_of_cons in Hk as [-> | Hk];
          [rewrite H; cbn [negb orb]; rewrite ?orb_true_r; reflexivity|]).
  now apply elem_of_nil in Hk.
Qed.

Lemma nonEmpty_false (v : string) : negb (nonEmpty v) = true -> v = "".
Proof.
  unfold nonEmpty. rewrite negb_involutive. apply String.eqb_eq.
Qed.

Lemma present_is_Some (value msg : string) :
  is_Some (if negb (nonEmpty value) then Some msg else None) ->
  value = "".
Proof.
  destruct (negb (nonEmpty value)) eqn:E; [intros _; now apply nonEmpty_false|].
  intros [x Hx]. discriminate.
Qed.

End Validator.

(** ** The date rule, by calendar day *)

Section DateBoundary.

Local Open Scope Z_scope.

Lemma new_Date_value (pd : string) (b : Z) :
  Date_parse pd = Some b -> inside b -> new_Date pd = Some b.
Proof.
  intros Hp Hb. unfold new_Date. rewrite Hp. apply TimeClip_value.
  unfold inside, JsDate.maxTime, JsDate.msPerDay in *. lia.
Qed.

(** The server's rule decides by the local days of the two dates. *)
Lemma date_policy_by_day w (pd : string) (b : Z) :
  Date_parse pd = Some b ->
  Z.abs (LocalTZA w) <= JsDate.msPerDay -> inside b -> inside (clock w) ->
  Server.date_policy w pd
  = if JsDate.LocalDay (LocalTZA w) b <? JsDate.LocalDay (LocalTZA w) (clock w)
    then Some past_error else None.
Proof.
  intros Hp Hz Hb Hn. unfold Server.date_policy.
  rewrite (new_Date_value _ _ Hp Hb). cbn [JsDate.isNaN].
  now rewrite zeroed_lt.
Qed.

(** So does the client's. *)
Lemma validateForm_date_by_day (now tza : Z) (fd : Client.FormData) (b : Z) :
  nonEmpty (Client.preferredDate fd) = true ->
  Date_parse (Client.preferredDate fd) = Some b ->
  Z.abs tza <= JsDate.msPerDay -> inside b -> inside now ->
  Client.validateForm now tza fd !! "preferredDate"
  = if JsDate.LocalDay tza b <? JsDate.LocalDay tza now
    then Some "Please select future date"%string else None.
Proof.
  intros Hne Hp Hz Hb Hn. rewrite validateForm_preferredDate, Hne.
  cbn [negb]. rewrite (new_Date_value _ _ Hp Hb). now rewrite zeroed_lt.
Qed.

(** X21. A [preferredDate] that denotes a time [b], with the clock at
    [clock w] in the zone [LocalTZA w]: when [b] falls on the local
    day before the clock's, the date rule refuses it, on the server
    and in [validateForm]; when it falls on the clock's local day or
    on a later one, both let it through; and the outcome is the same
    for any other time of the same day, of the date and of the
    clock. *)
Theorem date_boundary w (fd : Client.FormData) (b : Z) :
  let pd := Client.preferredDate fd in
  let tza := LocalTZA w in
  nonEmpty pd = true ->
  Date_parse pd = Some b ->
  Z.abs tza <= JsDate.msPerDay -> inside b -> inside (clock w) ->
  (JsDate.LocalDay tza b = JsDate.LocalDay tza (clock w) - 1 ->
   Server.date_policy w pd = Some past_error
   /\ Client.validateForm (clock w) tza fd !! "preferredDate"
      = Some "Please select future date"%string)
  /\ (JsDate.LocalDay tza (clock w) <= JsDate.LocalDay tza b ->
      Server.date_policy w pd = None
      /\ Client.validateForm (clock w) tza fd !! "preferredDate" = None)
  /\ (forall w' (fd' : Client.FormData) (b' : Z),
        nonEmpty (Client.preferredDate fd') = true ->
        Date_parse (Client.preferredDate fd') = Some b' ->
        LocalTZA w' = tza -> inside b' -> inside (clock w') ->
        JsDate.LocalDay tza b' = JsDate.LocalDay tza b ->
        JsDate.LocalDay tza (clock w') = JsDate.LocalDay tza (clock w) ->
        Server.date_policy w' (Client.preferredDate fd')
        = Server.date_policy w pd
        /\ Client.validateForm (clock w') tza fd' !! "preferredDate"
           = Client.validateForm (clock w) tza fd !! "preferredDate").
Proof.
  intros pd tza Hne Hp Hz Hb Hn. subst pd tza.
  rewrite (date_policy_by_day _ _ _ Hp Hz Hb Hn).
  rewrite (validateForm_date_by_day _ _ _ _ Hne Hp Hz Hb Hn).
  split; [|split].
  - intros Hday.
    assert ((JsDate.LocalDay (LocalTZA w) b
             <? JsDate.LocalDay (LocalTZA w) (clock w)) = true) as ->
      by (apply Z.ltb_lt; lia).
    split; reflexivity.
  - intros Hday.
    assert ((JsDate.LocalDay (LocalTZA w) b
             <? JsDate.LocalDay (LocalTZA w) (clock w)) = false) as ->
      by (apply Z.ltb_ge; lia).
    split; reflexivity.
  - intros w' fd' b' Hne' Hp' Htz Hb' Hn' Hdb Hdn.
    rewrite <- Htz in Hz, Hdb, Hdn.
    rewrite (date_policy_by_day _ _ _ Hp' Hz Hb' Hn').
    rewrite <- Htz.
    rewrite (validateForm_date_by_day _ _ _ _ Hne' Hp' Hz Hb' Hn').
    rewrite Hdb, Hdn. split; reflexivity.
Qed.

(** Midnight UTC of the day [d], seen from a zone: west of Greenwich it
    falls on the local day before, elsewhere on the day [d]. *)
Lemma utc_midnight_by_zone (tza d : Z) :
  Z.abs tza < JsDate.msPerDay ->
  JsDate.LocalDay tza (d * JsDate.msPerDay) = if tza <? 0 then d - 1 else d.
Proof.
  intros Hz. unfold JsDate.LocalDay, JsDate.Day.
  destruct (Z.ltb_spec tza 0) as [Hwest | Heast]; symmetry.
  - apply (Z.div_unique_pos _ _ (d - 1) (tza + JsDate.msPerDay)); lia.
  - apply (Z.div_unique_pos _ _ d tza); lia.
Qed.

(** C6. The form sends the date alone, [YYYY-MM-DD], which [new Date]
    reads as midnight UTC of that calendar day [d]; the rule then zeroes
    the hours of both dates in local time. A date before today is
    refused and a date after today passes, on the server and in
    [validateForm], in every zone. Today's date passes at Greenwich and
    east of it; west of Greenwich its midnight UTC falls on the local day
    before and the rule refuses it, against the comment at the head of
    the rule, which allows today and future dates. *)
Theorem today_refused_west_of_greenwich w (fd : Client.FormData) (d : Z) :
  let pd := Client.preferredDate fd in
  let tza := LocalTZA w in
  let today := JsDate.LocalDay tza (clock w) in
  let server := Server.date_policy w pd in
  let client := Client.validateForm (clock w) tza fd !! "preferredDate" in
  nonEmpty pd = true ->
  Date_parse pd = Some (d * JsDate.msPerDay) ->
  Z.abs tza < JsDate.msPerDay ->
  inside (d * JsDate.msPerDay) -> inside (clock w) ->
  (d < today ->
   server = Some past_error /\ client = Some "Please select future date"%string)
  /\ (today < d -> server = None /\ client = None)
  /\ (d = today -> 0 <= tza -> server = None /\ client = None)
  /\ (d = today -> tza < 0 ->
      server = Some past_error
      /\ client = Some "Please select future date"%string).
Proof.
  intros pd tza today server client Hne Hp Hz Hb Hn.
  subst pd tza today server client.
  assert (Hz' : Z.abs (LocalTZA w) <= JsDate.msPerDay) by lia.
  rewrite (date_policy_by_day _ _ _ Hp Hz' Hb Hn).
  rewrite (validateForm_date_by_day _ _ _ _ Hne Hp Hz' Hb Hn).
  rewrite (utc_midnight_by_zone _ d Hz).
  set (today := JsDate.LocalDay (LocalTZA w) (clock w)).
  destruct (Z.ltb_spec (LocalTZA w) 0) as [Hwest | Heast].
  - split; [|split; [|split]].
    + intros Hd. assert ((d - 1 <? today) = true) as -> by (apply Z.ltb_lt; lia).
      split; reflexivity.
    + intros Hd. assert ((d - 1 <? today) = false) as -> by (apply Z.ltb_ge; lia).
      split; reflexivity.
    + intros _ Hge. lia.
    + intros Hd _. assert ((d - 1 <? today) = true) as -> by (apply Z.ltb_lt; lia).
      split; reflexivity.
  - split; [|split; [|split]].
    + intros Hd. assert ((d <? today) = true) as -> by (apply Z.ltb_lt; lia).
      split; reflexivity.
    + intros Hd. assert ((d <? today) = false) as -> by (apply Z.ltb_ge; lia).
      split; reflexivity.
    + intros Hd _. assert ((d <? today) = false) as -> by (apply Z.ltb_ge; lia).
      split; reflexivity.
    + intros _ Hlt. lia.
Qed.

End DateBoundary.

(** ** Client and server *)

(** The amended C7. The server checks again that the required fields
    are there, the shape of the email and the date rule, and nothing
    else: a payload for which [validateForm] sets [errors.email],
    [errors.service] or the error of an eligibility field, or, with
    the server's clock and zone, [errors.preferredDate], is answered
    400 by the server, before any store call. *)
Theorem client_rejection_matched_by_server schema w coll (now tza : Z)
    (fd : Client.FormData) (k : string) :
  k ∈ agreed_fields
  \/ (k = "preferredDate" /\ now = clock w /\ tza = LocalTZA w) ->
  is_Some (Client.validateForm now tza fd !! k) ->
  let r := Server.submit_with schema w coll (Client.to_object fd) in
  status (response r) = 400%Z
  /\ is_Some (json (response r) !! "error")
  /\ calls r = []
  /\ collection r = coll.
Proof.
  intros Hk Herr.
  apply early_rejection with (Client.to_object fd).
  { apply decode_plain. now rewrite to_object_no_encrypted. }
  assert (Hreq : forall k' v, k' ∈ required_fields ->
            Client.to_object fd !! k' = Some v -> v = "" ->
            validation_fails w (Client.to_object fd)).
  { intros k' v Hk' Hv ->. left.
    apply missing_required_field with k'; [exact Hk'|]. now rewrite Hv. }
  unfold Client.to_object in Hreq.
  destruct Hk as [Hk | (-> & -> & ->)].
  - unfold agreed_fields in Hk.
    repeat (apply elem_of_cons in Hk as [-> | Hk]).
    + rewrite validateForm_email in Herr.
      right; left. rewrite to_object_email. cbn [str default from_option id].
      destruct (negb (nonEmpty (trim (Client.email fd)))) eqn:E.
      * apply nonEmpty_false in E. now rewrite E.
      * destruct (test emailRegex _); [|reflexivity].
        destruct Herr as [x Hx]. discriminate.
    + rewrite validateForm_service in Herr. apply present_is_Some in Herr.
      apply (Hreq "service" (Client.service fd));
        [unfold required_fields; set_solver|now simplify_map_eq|exact Herr].
    + rewrite validateForm_englishLevel in Herr. apply present_is_Some in Herr.
      apply (Hreq "englishLevel" (Client.englishLevel fd));
        [unfold required_fields; set_solver|now simplify_map_eq|exact Herr].
    + rewrite validateForm_age in Herr. apply present_is_Some in Herr.
      apply (Hreq "age" (Client.age fd));
        [unfold required_fields; set_solver|now simplify_map_eq|exact Herr].
    + rewrite validateForm_education in Herr. apply present_is_Some in Herr.
      apply (Hreq "education" (Client.education fd));
        [unfold required_fields; set_solver|now simplify_map_eq|exact Herr].
    + rewrite validateForm_experience in Herr. apply present_is_Some in Herr.
      apply (Hreq "experience" (Client.experience fd));
        [unfold required_fields; set_solver|now simplify_map_eq|exact Herr].
    + rewrite validateForm_visaType in Herr. apply present_is_Some in Herr.
      apply (Hreq "visaType" (Client.visaType fd));
        [unfold required_fields; set_solver|now simplify_map_eq|exact Herr].
    + now apply elem_of_nil in Hk.
  - rewrite validateForm_preferredDate in Herr.
    destruct (negb (nonEmpty (Client.preferredDate fd))) eqn:E.
    + apply nonEmpty_false in E.
      apply (Hreq "preferredDate" (Client.preferredDate fd));
        [unfold required_fields; set_solver|now simplify_map_eq|exact E].
    + right; right. rewrite to_object_preferredDate.
      cbn [str default from_option id]. unfold Server.date_policy.
      destruct (JsDate.isNaN _); [discriminate|].
      destruct (JsDate.lt _ _); [discriminate|].
      destruct Herr as [x Hx]. discriminate.
Qed.

(** The amended C8. A payload with a required field other than [state]
    empty: the object [validateForm] returns has the key of that field.
    A payload with any required field, [state] too, absent or empty:
    the server answers 400 with the one message that fields are
    missing, an object whose only key is [error], without a key for
    the field, and makes no store call. *)
Theorem missing_field_reported :
  (forall (now tza : Z) (fd : Client.FormData) (k : string),
      k ∈ client_required_fields ->
      Client.to_object fd !! k = Some "" ->
      is_Some (Client.validateForm now tza fd !! k))
  /\ (forall schema w coll body formData (k : string),
         Server.decode w body = inr formData ->
         k ∈ required_fields ->
         truthy (formData !! k) = false ->
         let r := Server.submit_with schema w coll body in
         response r = missing_error
         /\ dom (json (response r)) = {[ "error" ]}
         /\ json (response r) !! k = None
         /\ calls r = []
         /\ collection r = coll).
Proof.
  split.
  - intros now tza fd k Hk Hv.
    assert (Hk' : k ∈ required_fields).
    { apply list_elem_of_In in Hk. apply list_elem_of_In. cbn in *. tauto. }
    destruct (to_object_required _ _ _ Hk' Hv)
      as [[-> E]|[[-> E]|[[-> E]|[[-> E]|[[-> E]|[[-> E]|[[-> E]|[[-> E]|[[-> E]|
          [[-> E]|[-> E]]]]]]]]]]].
    + rewrite validateForm_name, E. cbn. eauto.
    + rewrite validateForm_email, E. cbn. eauto.
    + rewrite validateForm_phone, E. cbn. eauto.
    + exfalso. unfold client_required_fields in Hk.
      repeat (apply elem_of_cons in Hk as [Hk | Hk]; [discriminate|]).
      now apply elem_of_nil in Hk.
    + rewrite validateForm_service, E. cbn. eauto.
    + rewrite validateForm_preferredDate, E. cbn. eauto.
    + rewrite validateForm_englishLevel, E. cbn. eauto.
    + rewrite validateForm_age, E. cbn. eauto.
    + rewrite validateForm_education, E. cbn. eauto.
    + rewrite validateForm_experience, E. cbn. eauto.
    + rewrite validateForm_visaType, E. cbn. eauto.
  - intros schema w coll body formData k Hdec Hk Hv r. subst r.
    unfold Server.submit_with.
    rewrite Hdec, (missing_required_field _ _ Hk Hv).
    cbn [response calls collection missing_error Server.error json].
    split; [reflexivity|]. split; [apply dom_singleton_L|].
    split; [|split; reflexivity].
    apply lookup_singleton_ne. unfold required_fields in Hk.
    intros <-.
    repeat (apply elem_of_cons in Hk as [Hk | Hk]; [discriminate|]).
    now apply elem_of_nil in Hk.
Qed.

End Pipeline.

(** * The pipeline on concrete requests *)

Section Runs.

Import Scenario.

#[local] Existing Instance Sample.libs.

Local Abbreviation plain := Client.to_object.

(** Scenario A, then Scenario B: Jane's booking is accepted and stored
    under the lower-cased email; the same request again is a conflict. *)
Example scenario_A :
  let r := run world [] (plain jane) in
  response r = Server.saved_emails_disabled
  /\ collection r = [jane_stored]
  /\ paths jane_stored !! "email" = Some "jane@x.com".
Proof. vm_compute. repeat split; reflexivity. Qed.

Example scenario_B :
  status (response (run world_later [jane_stored] (plain jane))) = 409%Z.
Proof. vm_compute. reflexivity. Qed.

(** A witness of C1: the transport fails every message, the answer is
    the success with a warning and Jane's booking is stored. *)
Lemma accepted_when_mail_fails_witness :
  let w := world_mail_down in
  let body := plain jane in
  passes_checks w body body
  /\ Server.credentials_missing w = false
  /\ sendMail_ok w (Server.userMailOptions w body) = false
  /\ sendMail_ok w (Server.adminMailOptions w body) = false
  /\ response (run w [] body) = Server.saved_emails_failed
  /\ collection (run w [] body) = [jane_stored].
Proof.
  intros w body.
  assert (Hpass : passes_checks w body body)
    by (unfold passes_checks; repeat split; vm_compute; reflexivity).
  assert (Hfind : findOneBooking w (Server.conflict_query body) [] = Some None)
    by (vm_compute; reflexivity).
  assert (Hins : insertBooking w BookingSchema_eligibility
                   (Server.booking_data body) [] = Some [jane_stored])
    by (vm_compute; reflexivity).
  assert (Hcred : Server.credentials_missing w = false)
    by (vm_compute; reflexivity).
  destruct (accepted_when_mail_fails (L := Sample.libs) BookingSchema_eligibility
              w [] body body [jane_stored] Hpass Hfind Hins Hcred
              eq_refl eq_refl) as (Hr & _ & _ & _ & _ & Hc & _).
  split; [exact Hpass|]. split; [exact Hcred|].
  split; [reflexivity|]. split; [reflexivity|].
  split; [exact Hr|exact Hc].
Defined.

(** A witness of C9: no credentials, nothing sent, booking saved. *)
Lemma accepted_without_credentials_witness :
  let w := world in
  let body := plain jane in
  passes_checks w body body
  /\ truthy (process_env w !! "EMAIL_USER") = false
  /\ response (run w [] body) = Server.saved_emails_disabled
  /\ filter (fun c => isSendMail c = true) (calls (run w [] body)) = []
  /\ collection (run w [] body) = [jane_stored].
Proof.
  intros w body.
  assert (Hpass : passes_checks w body body)
    by (unfold passes_checks; repeat split; vm_compute; reflexivity).
  assert (Hfind : findOneBooking w (Server.conflict_query body) [] = Some None)
    by (vm_compute; reflexivity).
  assert (Hins : insertBooking w BookingSchema_eligibility
                   (Server.booking_data body) [] = Some [jane_stored])
    by (vm_compute; reflexivity).
  destruct (accepted_without_credentials (L := Sample.libs) BookingSchema_eligibility
              w [] body body [jane_stored] Hpass Hfind Hins
              (or_introl eq_refl)) as (Hr & _ & _ & _ & _ & Hm & Hc).
  split; [exact Hpass|]. split; [reflexivity|].
  split; [exact Hr|]. split; [exact Hm|exact Hc].
Defined.

(** A witness of C4, Scenario D and Scenario E: an envelope that does
    not decrypt and a payload whose email is not one are refused, and
    the stored booking is all the store holds. *)
Lemma rejected_before_store_witness :
  let garbage : gmap string string := {[ "encrypted" := "garbage" ]} in
  let bad := plain (with_email "not-an-email" jane) in
  decode_fails world garbage
  /\ validation_fails world bad
  /\ status (response (run world [jane_stored] garbage)) = 400%Z
  /\ calls (run world [jane_stored] garbage) = []
  /\ collection (run world [jane_stored] garbage) = [jane_stored]
  /\ status (response (run world [jane_stored] bad)) = 400%Z
  /\ calls (run world [jane_stored] bad) = []
  /\ collection (run world [jane_stored] bad) = [jane_stored].
Proof.
  intros garbage bad.
  assert (Hg : decode_fails world garbage).
  { split; [vm_compute; reflexivity|]. right; left. vm_compute. reflexivity. }
  assert (Hb : validation_fails world bad).
  { right; left. vm_compute. reflexivity. }
  destruct (rejected_before_store (L := Sample.libs) BookingSchema_eligibility
              world [jane_stored] garbage (or_introl Hg))
    as (H1 & _ & H2 & H3).
  destruct (rejected_before_store (L := Sample.libs) BookingSchema_eligibility
              world [jane_stored] bad
              (or_intror (ex_intro _ bad (conj eq_refl Hb))))
    as (H4 & _ & H5 & H6).
  split; [exact Hg|]. split; [exact Hb|].
  split; [exact H1|]. split; [exact H2|]. split; [exact H3|].
  split; [exact H4|]. split; [exact H5|exact H6].
Defined.

(** The claim C3 as it stands fails.  Jane's booking is stored, and a
    second request with her email and her date but no name is answered
    400, not 409.  And with her booking stored under the email as typed,
    ["JANE@x.com"], her own request again finds no conflict: the query
    looks for the lower-cased email. *)
Lemma conflict_not_always_reported :
  let nameless := plain (with_name "" jane) in
  (booked [jane_stored] "jane@x.com" "2025-11-02"
   /\ toLowerCase (str (nameless !! "email")) = "jane@x.com"
   /\ str (nameless !! "preferredDate") = "2025-11-02"
   /\ response (run world_later [jane_stored] nameless) = missing_error
   /\ status (response (run world_later [jane_stored] nameless)) <> 409%Z)
  /\ (booked [jane_stored_as_typed] "JANE@x.com" "2025-11-02"
      /\ toLowerCase (str (plain jane !! "email")) = toLowerCase "JANE@x.com"
      /\ str (plain jane !! "preferredDate") = "2025-11-02"
      /\ status (response (run world_later [jane_stored_as_typed] (plain jane)))
         = 200%Z
      /\ length (collection (run world_later [jane_stored_as_typed] (plain jane)))
         = 2%nat).
Proof.
  intros nameless. split.
  - split.
    { exists jane_stored. split; [constructor|]. split; vm_compute; reflexivity. }
    split; [vm_compute; reflexivity|]. split; [vm_compute; reflexivity|].
    split; [vm_compute; reflexivity|]. vm_compute. discriminate.
  - split.
    { exists jane_stored_as_typed. split; [constructor|].
      split; vm_compute; reflexivity. }
    repeat split; vm_compute; reflexivity.
Qed.

(** A witness of the amended C3: another name and another phone, the
    same email in another case, the same date. *)
Lemma conflict_detected_witness :
  let body := plain (with_phone "+91 98765 43210" (with_name "Janet Roe"
                (with_email "Jane@X.com" jane))) in
  passes_checks world_later body body
  /\ booked [jane_stored] (toLowerCase (str (body !! "email")))
            (str (body !! "preferredDate"))
  /\ status (response (run world_later [jane_stored] body)) = 409%Z
  /\ collection (run world_later [jane_stored] body) = [jane_stored].
Proof.
  intros body.
  assert (Hpass : passes_checks world_later body body)
    by (unfold passes_checks; repeat split; vm_compute; reflexivity).
  assert (Hb : booked [jane_stored] (toLowerCase (str (body !! "email")))
                      (str (body !! "preferredDate"))).
  { exists jane_stored. split; [constructor|]. split; vm_compute; reflexivity. }
  destruct (conflict_detected (L := Sample.libs) BookingSchema_eligibility
              world_later [jane_stored] body body Hpass eq_refl Hb)
    as (_ & H1 & _ & H2).
  split; [exact Hpass|]. split; [exact Hb|]. split; [exact H1|exact H2].
Defined.

(** C2, where the code departs from it.  The same request twice, one
    after the other, from the empty collection: its email starts with a
    space, so the query of the second looks for [" jane@x.com"] while the
    first was stored as ["jane@x.com"]; both are stored, under the same
    email and the same date. *)
Theorem duplicate_pair_after_spaced_email :
  let body := plain (with_email " jane@x.com" jane) in
  let coll :=
    submit_all BookingSchema_eligibility [(world, body); (world_later, body)] [] in
  unique_pairs []
  /\ pair_of <$> coll = [ (Some "jane@x.com", Some "2025-11-02");
                          (Some "jane@x.com", Some "2025-11-02") ]
  /\ ~ unique_pairs coll.
Proof.
  intros body coll.
  assert (Hpairs : pair_of <$> coll = [ (Some "jane@x.com", Some "2025-11-02");
                                        (Some "jane@x.com", Some "2025-11-02") ])
    by (vm_compute; reflexivity).
  split; [apply NoDup_nil_2|]. split; [exact Hpairs|].
  unfold unique_pairs. rewrite Hpairs. intros Hnd.
  apply NoDup_cons in Hnd as [Hnotin _]. apply Hnotin. constructor.
Qed.

(** Both requests were answered with a success. *)
Example spaced_email_accepted_twice :
  let body := plain (with_email " jane@x.com" jane) in
  let first := run world [] body in
  let second := run world_later (collection first) body in
  status (response first) = 200%Z /\ status (response second) = 200%Z
  /\ length (collection second) = 2%nat.
Proof. vm_compute. repeat split; reflexivity. Qed.

(** A witness of C5, with the default key. *)
Lemma codec_round_trip_witness :
  let payload := plain jane in
  let key := Server.SECRET_KEY world in
  key = "EasyGoAdvisor@1974"
  /\ JSON_parse (JSON_stringify payload) = Some payload
  /\ Server.decode world (Client.encode true "s"%char key jane) = inr payload
  /\ Server.decode world (Client.encode false "s"%char key jane) = inr payload.
Proof.
  intros payload key.
  assert (Hparse : JSON_parse (JSON_stringify payload) = Some payload)
    by (vm_compute; reflexivity).
  assert (Hdecrypt :
            Utf8_stringify
              (AES_decrypt (AES_encrypt "s"%char (JSON_stringify payload) key) key)
            = Some (JSON_stringify payload))
    by (vm_compute; reflexivity).
  destruct (codec_round_trip (L := Sample.libs) world "s"%char jane
              Hdecrypt Hparse eq_refl eq_refl) as [Hprod Hdev].
  split; [reflexivity|]. split; [exact Hparse|]. split; [exact Hprod|exact Hdev].
Defined.

(** A witness of X21: Jane's date is the day of the clock, 15:00 local
    time on 2 November 2025, and passes on the server and in the form. *)
Lemma date_boundary_witness :
  let tza := LocalTZA world in
  let b := 1762041600000%Z in
  Date_parse (Client.preferredDate jane) = Some b
  /\ JsDate.LocalDay tza b = JsDate.LocalDay tza (clock world)
  /\ Server.date_policy world (Client.preferredDate jane) = None
  /\ Client.validateForm (clock world) tza jane !! "preferredDate" = None.
Proof.
  intros tza b.
  assert (Hz : (Z.abs tza <= JsDate.msPerDay)%Z) by (vm_compute; discriminate).
  assert (Hb : inside b) by (vm_compute; discriminate).
  assert (Hn : inside (clock world)) by (vm_compute; discriminate).
  assert (Hday : (JsDate.LocalDay tza (clock world) <= JsDate.LocalDay tza b)%Z)
    by (vm_compute; discriminate).
  destruct (date_boundary (L := Sample.libs) world jane b eq_refl eq_refl Hz Hb Hn)
    as (_ & Htoday & _).
  destruct (Htoday Hday) as [Hserver Hclient].
  split; [reflexivity|]. split; [reflexivity|].
  split; [exact Hserver|exact Hclient].
Defined.

(** A witness of C6: Jane's form with today's date, 2 November 2025, on
    a server five hours west of Greenwich, at half past four in the
    morning of 2 November there: the date is refused as a date in the
    past, in the form and on the server, and nothing is stored. *)
Lemma today_refused_west_of_greenwich_witness :
  let w := world_west in
  let today := JsDate.LocalDay (LocalTZA w) (clock w) in
  Client.preferredDate jane = "2025-11-02"
  /\ Desk.civilFromDays today = (2025, 11, 2)%Z
  /\ Date_parse "2025-11-02" = Some (today * JsDate.msPerDay)%Z
  /\ Server.date_policy w "2025-11-02" = Some past_error
  /\ Client.validateForm (clock w) (LocalTZA w) jane !! "preferredDate"
     = Some "Please select future date"
  /\ run w [] (plain jane)
     = {| response := Server.error 400 "Cannot book a consultation in the past.";
          collection := []; calls := [] |}.
Proof.
  intros w today.
  assert (Hz : (Z.abs (LocalTZA w) < JsDate.msPerDay)%Z) by (vm_compute; reflexivity).
  assert (Hb : inside (today * JsDate.msPerDay)) by (vm_compute; discriminate).
  assert (Hn : inside (clock w)) by (vm_compute; discriminate).
  destruct (today_refused_west_of_greenwich (L := Sample.libs) w jane today
              eq_refl eq_refl Hz Hb Hn) as (_ & _ & _ & Hwest).
  destruct (Hwest eq_refl ltac:(vm_compute; reflexivity)) as [Hserver Hclient].
  split; [reflexivity|]. split; [vm_compute; reflexivity|].
  split; [vm_compute; reflexivity|]. split; [exact Hserver|].
  split; [exact Hclient|]. vm_compute. reflexivity.
Defined.

(** The day before is refused, at any time of that day. *)
Example yesterday_refused :
  Server.date_policy world "2025-11-01" = Some past_error
  /\ Server.date_policy world "2025-11-01T18:29:59.999Z" = Some past_error
  /\ Server.date_policy world "2025-11-01T18:30:00.000Z" = None.
Proof. vm_compute. repeat split; reflexivity. Qed.

(** A date-only string denotes midnight UTC: on a server west of
    Greenwich that time falls on the local day before, and the date rule
    takes the string of the clock's own local day for a date in the
    past. *)
Example date_only_string_west_of_greenwich :
  let tza := LocalTZA world_west in
  Date_parse "2025-11-02" = Some 1762041600000%Z
  /\ JsDate.LocalDay tza 1762041600000 = (JsDate.LocalDay tza (clock world_west) - 1)%Z
  /\ Server.date_policy world_west "2025-11-02" = Some past_error.
Proof. vm_compute. repeat split; reflexivity. Qed.

(** The claim C7 as it stands fails: a name with a digit, a phone of
    five digits, a message of 501 characters are each refused by
    [validateForm] and each accepted and stored by the server. *)
Lemma server_accepts_what_client_rejects :
  let w := world in
  let bad_name := with_name "J4ne" jane in
  let bad_phone := with_phone "12345" jane in
  let bad_message := with_message long_message jane in
  (is_Some (Client.validateForm (clock w) (LocalTZA w) bad_name !! "name")
   /\ response (run w [] (plain bad_name)) = Server.saved_emails_disabled
   /\ length (collection (run w [] (plain bad_name))) = 1%nat)
  /\ (is_Some (Client.validateForm (clock w) (LocalTZA w) bad_phone !! "phone")
      /\ response (run w [] (plain bad_phone)) = Server.saved_emails_disabled
      /\ length (collection (run w [] (plain bad_phone))) = 1%nat)
  /\ (is_Some (Client.validateForm (clock w) (LocalTZA w) bad_message !! "message")
      /\ response (run w [] (plain bad_message)) = Server.saved_emails_disabled
      /\ length (collection (run w [] (plain bad_message))) = 1%nat).
Proof.
  intros w bad_name bad_phone bad_message.
  repeat split; try (vm_compute; reflexivity); vm_compute; eauto.
Qed.

(** A witness of the amended C7, Scenario E: the email is not one. *)
Lemma client_rejection_matched_by_server_witness :
  let fd := with_email "not-an-email" jane in
  "email" ∈ agreed_fields
  /\ Client.validateForm (clock world) (LocalTZA world) fd !! "email"
     = Some "Please enter a valid email address"
  /\ status (response (run world [jane_stored] (plain fd))) = 400%Z
  /\ calls (run world [jane_stored] (plain fd)) = []
  /\ collection (run world [jane_stored] (plain fd)) = [jane_stored].
Proof.
  intros fd.
  assert (Hk : "email" ∈ agreed_fields) by (apply list_elem_of_In; left; reflexivity).
  assert (Herr : Client.validateForm (clock world) (LocalTZA world) fd !! "email"
                 = Some "Please enter a valid email address")
    by (vm_compute; reflexivity).
  destruct (client_rejection_matched_by_server (L := Sample.libs)
              BookingSchema_eligibility world [jane_stored]
              (clock world) (LocalTZA world) fd "email" (or_introl Hk)
              (ex_intro _ _ Herr)) as (H1 & _ & H2 & H3).
  split; [exact Hk|]. split; [exact Herr|].
  split; [exact H1|]. split; [exact H2|exact H3].
Defined.

(** The claim C8 as it stands fails: with [state] empty and the rest in
    order, [validateForm] returns the empty object, and the answer of
    the server has no key for the field. *)
Lemma missing_state_not_reported :
  let fd := with_state "" jane in
  plain fd !! "state" = Some ""
  /\ Client.validateForm (clock world) (LocalTZA world) fd = ∅
  /\ response (run world [] (plain fd)) = missing_error
  /\ json (response (run world [] (plain fd))) !! "state" = None.
Proof. vm_compute. repeat split; reflexivity. Qed.

(** A witness of the amended C8: no name. *)
Lemma missing_field_reported_witness :
  let fd := with_name "" jane in
  plain fd !! "name" = Some ""
  /\ is_Some (Client.validateForm (clock world) (LocalTZA world) fd !! "name")
  /\ response (run world [] (plain fd)) = missing_error
  /\ json (response (run world [] (plain fd))) !! "name" = None.
Proof.
  intros fd.
  assert (Hv : plain fd !! "name" = Some "") by (vm_compute; reflexivity).
  assert (Hc : "name" ∈ client_required_fields)
    by (apply list_elem_of_In; left; reflexivity).
  assert (Hs : "name" ∈ required_fields)
    by (apply list_elem_of_In; left; reflexivity).
  destruct (missing_field_reported (L := Sample.libs)) as [Hclient Hserver].
  destruct (Hserver BookingSchema_eligibility world [] (plain fd) (plain fd) "name"
              eq_refl Hs eq_refl) as (Hr & _ & Hk & _).
  split; [exact Hv|].
  split; [exact (Hclient (clock world) (LocalTZA world) fd "name" Hc Hv)|].
  split; [exact Hr|exact Hk].
Defined.

(** A witness of C10: Jane's booking is stored; the request with spaces
    around her email finds no booking under [" jane@x.com "] and is
    stored under ["jane@x.com"], next to the first. *)
Lemma conflict_check_is_exact_witness :
  let body := plain (with_email " jane@x.com " jane) in
  passes_checks world_later body body
  /\ booked [jane_stored] "jane@x.com" "2025-11-02"
  /\ ~ booked [jane_stored] " jane@x.com " "2025-11-02"
  /\ status (response (run world_later [jane_stored] body)) = 200%Z
  /\ exists doc,
       collection (run world_later [jane_stored] body) = [jane_stored; doc]
       /\ paths doc !! "email" = Some "jane@x.com"
       /\ paths doc !! "preferredDate" = Some "2025-11-02".
Proof.
  intros body.
  assert (Hpass : passes_checks world_later body body)
    by (unfold passes_checks; repeat split; vm_compute; reflexivity).
  assert (Hb : booked [jane_stored] "jane@x.com" "2025-11-02").
  { exists jane_stored. split; [constructor|]. split; vm_compute; reflexivity. }
  assert (Hno : ~ booked [jane_stored] " jane@x.com " "2025-11-02").
  { intros (d & Hd & He & _). apply list_elem_of_singleton in Hd. subst d.
    vm_compute in He. discriminate. }
  assert (He : "email" ∈ BookingSchema_eligibility.*1)
    by (apply list_elem_of_In; vm_compute; tauto).
  assert (Hd : "preferredDate" ∈ BookingSchema_eligibility.*1)
    by (apply list_elem_of_In; vm_compute; tauto).
  destruct (conflict_check_is_exact (L := Sample.libs) BookingSchema_eligibility
              world_later [jane_stored] body body Hpass eq_refl He Hd)
    as [_ Hstored].
  destruct (Hstored Hno _ eq_refl) as (Hstatus & _ & doc & Hcoll & Hemail & Hdate).
  split; [exact Hpass|]. split; [exact Hb|]. split; [exact Hno|].
  split; [exact Hstatus|]. exists doc.
  split; [exact Hcoll|]. split; [exact Hemail|exact Hdate].
Defined.

(** The same day written as another string is stored next to the first
    as well. *)
Example respelled_date_booked_twice :
  let body := plain (with_date "2025-11-02T00:00:00.000Z" jane) in
  let r := run world_later [jane_stored] body in
  Date_parse "2025-11-02T00:00:00.000Z" = Date_parse "2025-11-02"
  /\ status (response r) = 200%Z
  /\ pair_of <$> collection r
     = [ (Some "jane@x.com", Some "2025-11-02");
         (Some "jane@x.com", Some "2025-11-02T00:00:00.000Z") ].
Proof. vm_compute. repeat split; reflexivity. Qed.

End Runs.

(** * The patterns and the string functions on examples *)

Example emailRegex_ok : test emailRegex "jane@x.com" = true.
Proof. vm_compute. reflexivity. Qed.

Example emailRegex_no_at : test emailRegex "not-an-email" = false.
Proof. vm_compute. reflexivity. Qed.

Example emailRegex_space : test emailRegex " jane@x.com" = false.
Proof. vm_compute. reflexivity. Qed.

Example emailRegex_dots : test emailRegex "a.b@c.d.e" = true.
Proof. vm_compute. reflexivity. Qed.

Example emailRegex_two_at : test emailRegex "a@b@c.de" = false.
Proof. vm_compute. reflexivity. Qed.

Example nameRegex_ok : test nameRegex "Jane Doe" = true.
Proof. vm_compute. reflexivity. Qed.

Example nameRegex_digit : test nameRegex "J4ne" = false.
Proof. vm_compute. reflexivity. Qed.

Example nameRegex_short : test nameRegex "J" = false.
Proof. vm_compute. reflexivity. Qed.

Example phoneRegex_ok : test phoneRegex "+91 (635) 9502" = true.
Proof. vm_compute. reflexivity. Qed.

Example phoneRegex_short : test phoneRegex "12345" = false.
Proof. vm_compute. reflexivity. Qed.

Example trim_ex : trim "  a b  " = "a b".
Proof. reflexivity. Qed.

Example toLowerCase_ex : toLowerCase "JANE@x.com" = "jane@x.com".
Proof. reflexivity. Qed.

Example trim_nbsp : trim (String (ascii_of_N 160) "a" ++ nl) = "a".
Proof. reflexivity. Qed.

Example spaced_email_passes_the_pattern :
  test emailRegex (trim " jane@x.com ") = true
  /\ toLowerCase " Jane@X.com " <> trim (toLowerCase " Jane@X.com ").
Proof. split; [vm_compute; reflexivity|vm_compute; discriminate]. Qed.

(** * More of the code *)

Section StoreOperations.

Implicit Types (coll : list Doc) (query : gmap string string).

Lemma findOne_head query coll :
  Booking.findOne query coll = head (Booking_find query coll).
Proof.
  unfold Booking.findOne, Booking_find.
  induction coll as [|d coll IH]; [reflexivity|]. cbn.
  destruct (Booking.matches query d); [reflexivity|exact IH].
Qed.

Lemma deleteOne_no_match query coll :
  Forall (fun d => Booking.matches query d = false) coll ->
  Booking_deleteOne query coll = (0%nat, coll).
Proof.
  induction 1 as [|d coll Hd _ IH]; [reflexivity|]. cbn.
  now rewrite Hd, IH.
Qed.

Lemma deleteOne_skip query coll rest :
  Forall (fun d => Booking.matches query d = false) coll ->
  Booking_deleteOne query (coll ++ rest)
  = ((Booking_deleteOne query rest).1, (coll ++ (Booking_deleteOne query rest).2)%list).
Proof.
  induction 1 as [|d coll Hd _ IH]; cbn.
  - now destruct (Booking_deleteOne query rest).
  - now rewrite Hd, IH.
Qed.

Lemma find_no_match query coll :
  Forall (fun d => Booking.matches query d = false) coll ->
  Booking_find query coll = [].
Proof.
  unfold Booking_find. induction 1 as [|d coll Hd _ IH]; [reflexivity|].
  cbn. now rewrite Hd.
Qed.

(** X1. [deleteBooking] removes the document [findOneBooking] returns
    for the same query, and only that one: with no such document the
    count is 0 and the collection is as it was; otherwise the count is
    1, the documents before and after it stay in their order, and what
    [findManyBookings] returns afterwards is what it returned before
    without the first. *)
Theorem deleteOne_removes_the_one_found query coll :
  match Booking.findOne query coll with
  | None => Booking_deleteOne query coll = (0%nat, coll)
  | Some d =>
      exists before after,
        coll = (before ++ d :: after)%list
        /\ Forall (fun x => Booking.matches query x = false) before
        /\ Booking_deleteOne query coll = (1%nat, (before ++ after)%list)
        /\ Booking_find query (before ++ after) = tail (Booking_find query coll)
  end.
Proof.
  unfold Booking.findOne.
  induction coll as [|x coll IH]; [reflexivity|]. cbn.
  destruct (Booking.matches query x) eqn:Hx.
  - exists [], coll. unfold Booking_find. cbn. rewrite ?Hx.
    split; [reflexivity|]. split; [constructor|]. split; reflexivity.
  - destruct (find (Booking.matches query) coll) as [d|].
    + destruct IH as (before & after & -> & Hb & Hdel & Hfind).
      exists (x :: before), after. cbn. rewrite Hdel, ?Hx.
      split; [reflexivity|]. split; [now constructor|]. split; [reflexivity|].
      unfold Booking_find in *. cbn. rewrite ?Hx. exact Hfind.
    + now rewrite IH.
Qed.

(** X2. A booking that [insertBooking] saved is found again: a query
    made of paths of the saved document returns it, last, behind the
    documents the query returned before; a query that asks for another
    value of a path returns what it returned before. *)
Theorem saved_booking_is_found (w : World) (schema : Schema)
    (data : gmap string string) coll coll' query :
  insertBooking w schema data coll = Some coll' ->
  exists doc,
    coll' = (coll ++ [doc])%list
    /\ paths doc = Booking.new schema data
    /\ (map_Forall (fun k v => Booking.new schema data !! k = Some v) query ->
        Booking_find query coll' = (Booking_find query coll ++ [doc])%list
        /\ is_Some (Booking.findOne query coll'))
    /\ (~ map_Forall (fun k v => Booking.new schema data !! k = Some v) query ->
        Booking_find query coll' = Booking_find query coll).
Proof.
  unfold insertBooking, Booking.save.
  destruct (_ && _); [|discriminate]. intros [= <-].
  set (doc := {| _id := fresh_id w; paths := Booking.new schema data;
                 createdAt := save_clock w; updatedAt := save_clock w |}).
  exists doc. split; [reflexivity|]. split; [reflexivity|].
  assert (Hyes : map_Forall (fun k v => Booking.new schema data !! k = Some v) query ->
                 Booking.matches query doc = true)
    by (intros Hq; apply bool_decide_eq_true_2; exact Hq).
  assert (Hno : ~ map_Forall (fun k v => Booking.new schema data !! k = Some v) query ->
                Booking.matches query doc = false)
    by (intros Hq; apply bool_decide_eq_false_2; exact Hq).
  unfold Booking_find. rewrite List.filter_app. cbn [List.filter]. split; intros Hq.
  - rewrite (Hyes Hq). split; [reflexivity|]. rewrite findOne_head.
    unfold Booking_find. rewrite List.filter_app. cbn [List.filter].
    rewrite (Hyes Hq). destruct (List.filter _ coll); cbn; eauto.
  - rewrite (Hno Hq). apply app_nil_r.
Qed.

(** Removing a booking leaves the pairs unique. *)
Lemma deleteOne_keeps_unique_pairs query coll :
  unique_pairs coll -> unique_pairs (Booking_deleteOne query coll).2.
Proof.
  unfold unique_pairs. induction coll as [|d coll IH]; [trivial|]. cbn.
  intros Hnd. apply NoDup_cons in Hnd as [Hd Hnd].
  destruct (Booking.matches query d); [exact Hnd|].
  specialize (IH Hnd).
  assert (Hsub : forall x, x ∈ pair_of <$> (Booking_deleteOne query coll).2 ->
                           x ∈ pair_of <$> coll).
  { clear. induction coll as [|y coll IH]; cbn; [trivial|].
    destruct (Booking.matches query y).
    - intros x Hx. now right.
    - destruct (Booking_deleteOne query coll) as [n rest]. cbn in *.
      intros x Hx. apply elem_of_cons in Hx as [-> | Hx]; [left|right; auto]. }
  destruct (Booking_deleteOne query coll) as [n rest]. cbn in *.
  apply NoDup_cons. split; [|exact IH]. intros Hin. apply Hd. now apply Hsub.
Qed.

End StoreOperations.

Section Outcomes.

Context {L : Libs}.

Implicit Types (w : World) (coll : list Doc) (schema : Schema).
Implicit Types (body formData : gmap string string).

Lemma listed_nonEmpty (msg : string) :
  msg ∈ server_messages -> nonEmpty msg = true.
Proof.
  intros H. unfold server_messages in H.
  repeat (apply elem_of_cons in H as [-> | H]; [reflexivity|]).
  now apply elem_of_nil in H.
Qed.

Lemma decode_inl_message w body r :
  Server.decode w body = inl r ->
  exists msg, r = Server.error 400 msg /\ msg ∈ server_messages.
Proof.
  unfold Server.decode.
  destruct (truthy (body !! "encrypted")); [|discriminate].
  rewrite SECRET_KEY_nonEmpty. cbn [negb].
  destruct (Utf8_stringify _) as [s|].
  2:{ intros [= <-]. eexists. split; [reflexivity|].
      apply list_elem_of_In; cbn; tauto. }
  destruct (negb (nonEmpty s)).
  { intros [= <-]. eexists. split; [reflexivity|].
    apply list_elem_of_In; cbn; tauto. }
  destruct (JSON_parse s); [discriminate|].
  intros [= <-]. eexists. split; [reflexivity|].
  apply list_elem_of_In; cbn; tauto.
Qed.

Lemma date_policy_message w pd r :
  Server.date_policy w pd = Some r ->
  exists msg, r = Server.error 400 msg /\ msg ∈ server_messages.
Proof.
  unfold Server.date_policy.
  destruct (JsDate.isNaN _).
  { intros [= <-]. eexists. split; [reflexivity|].
    apply list_elem_of_In; cbn; tauto. }
  destruct (JsDate.lt _ _); [|discriminate].
  intros [= <-]. eexists. split; [reflexivity|].
  apply list_elem_of_In; cbn; tauto.
Qed.

(** The ways a request ends. *)
Lemma submit_cases schema w coll body :
  let r := Server.submit_with schema w coll body in
  (exists msg, msg ∈ server_messages
               /\ r = {| response := Server.error 400 msg;
                         collection := coll; calls := [] |})
  \/ exists formData,
       passes_checks w body formData
       /\ let query := Server.conflict_query formData in
          let data := Server.booking_data formData in
          (db_findOne_ok w = false
           /\ r = {| response := Server.error 500 "Database error. Please try again later or contact support.";
                     collection := coll; calls := [FindOne query] |})
          \/ (db_findOne_ok w = true
              /\ is_Some (Booking.findOne query coll)
              /\ r = {| response := Server.error 409 "You have already booked a consultation for this date with this email.";
                        collection := coll; calls := [FindOne query] |})
          \/ (db_findOne_ok w = true
              /\ Booking.findOne query coll = None
              /\ insertBooking w schema data coll = None
              /\ r = {| response := Server.error 500 "Failed to save booking. Please try again later or contact support.";
                        collection := coll;
                        calls := [FindOne query; Insert data] |})
          \/ (db_findOne_ok w = true
              /\ Booking.findOne query coll = None
              /\ exists coll',
                   insertBooking w schema data coll = Some coll'
                   /\ r = {| response := (Server.notify w formData).1;
                             collection := coll';
                             calls := (FindOne query :: Insert data
                                       :: (Server.notify w formData).2)%list |}).
Proof.
  intros r. subst r.
  destruct (Server.decode w body) as [e|formData] eqn:Hdec.
  { left. unfold Server.submit_with. rewrite Hdec.
    destruct (decode_inl_message _ _ _ Hdec) as (msg & -> & Hmsg). eauto. }
  destruct (Server.missing_required formData) eqn:Hreq.
  { left. unfold Server.submit_with. rewrite Hdec, Hreq.
    eexists. split; [|reflexivity]. apply list_elem_of_In; cbn; tauto. }
  destruct (test emailRegex (trim (str (formData !! "email")))) eqn:Hmail.
  2:{ left. unfold Server.submit_with. rewrite Hdec, Hreq, Hmail. cbn [negb].
      eexists. split; [|reflexivity]. apply list_elem_of_In; cbn; tauto. }
  destruct (Server.date_policy w (str (formData !! "preferredDate")))
    as [e|] eqn:Hdate.
  { left. unfold Server.submit_with. rewrite Hdec, Hreq, Hmail, Hdate.
    destruct (date_policy_message _ _ _ Hdate) as (msg & -> & Hmsg).
    cbn [negb]. eauto. }
  right. exists formData.
  assert (Hpass : passes_checks w body formData) by (repeat split; assumption).
  split; [exact Hpass|].
  rewrite (submit_passed _ _ _ _ _ Hpass). cbn zeta.
  unfold findOneBooking. destruct (db_findOne_ok w); [|left; auto].
  right. destruct (Booking.findOne _ coll) as [d|] eqn:Hfind; [left; eauto|].
  right. destruct (insertBooking _ _ _ _) as [coll'|] eqn:Hins; [right|left]; eauto.
Qed.

Lemma snoc_neq {A : Type} (l : list A) (x : A) : l <> (l ++ [x])%list.
Proof.
  intros H. apply (f_equal length) in H. rewrite length_app in H.
  cbn in H. lia.
Qed.

Lemma submit_outcome schema w coll body :
  let r := Server.submit_with schema w coll body in
  status (response r) ∈ [200; 400; 409; 500]%Z
  /\ (status (response r) = 200%Z <->
      exists doc, collection r = (coll ++ [doc])%list)
  /\ (status (response r) <> 200%Z ->
      collection r = coll
      /\ exists msg, response r = Server.error (status (response r)) msg
                     /\ nonEmpty msg = true).
Proof.
  intros r. subst r.
  destruct (submit_cases schema w coll body)
    as [(msg & Hmsg & ->)
       |(fd & Hpass & [[_ ->]|[(_ & _ & ->)|[(_ & _ & _ & ->)
                                            |(_ & _ & coll' & Hins & ->)]]])];
    cbn [response collection status Server.error].
  1: apply listed_nonEmpty in Hmsg.
  1-4: (split; [apply list_elem_of_In; cbn; tauto|]; split;
        [split; [discriminate|intros [doc Hdoc]; now apply snoc_neq in Hdoc]|];
        intros _; split; [reflexivity|]; eauto).
  destruct (notify_success w fd) as (H200 & _ & _). rewrite H200.
  split; [apply list_elem_of_In; cbn; tauto|]. split; [|congruence].
  split; [intros _|reflexivity].
  apply insertBooking_Some in Hins as (doc & -> & _). eauto.
Qed.

(** X3. The handler answers 200, 400, 409 or 500 and nothing else. It
    leaves the collection as it was or with one document more at its
    end, and it has one document more exactly when the answer is 200.
    Every other answer carries a non-empty [error] message. *)
Theorem stored_iff_accepted schema w coll body :
  let r := Server.submit_with schema w coll body in
  status (response r) ∈ [200; 400; 409; 500]%Z
  /\ (status (response r) = 200%Z <->
      exists doc, collection r = (coll ++ [doc])%list)
  /\ (status (response r) <> 200%Z ->
      collection r = coll
      /\ exists msg, response r = Server.error (status (response r)) msg
                     /\ nonEmpty msg = true).
Proof. exact (submit_outcome schema w coll body). Qed.

(** X4. Requests handled one after the other never remove or change a
    stored booking: the collection they start from is the beginning of
    the collection they leave, which is longer by at most one document a
    request. *)
Theorem stored_bookings_are_kept schema
    (requests : list (World * gmap string string)) coll :
  coll `prefix_of` submit_all schema requests coll
  /\ (length (submit_all schema requests coll) <= length coll + length requests)%nat.
Proof.
  revert coll. induction requests as [|[w body] rest IH]; intros coll; cbn.
  - split; [reflexivity|lia].
  - destruct (IH (collection (Server.submit_with schema w coll body)))
      as [Hpre Hlen].
    destruct (submit_outcome schema w coll body) as (_ & Hiff & Hno).
    destruct (decide (status (response (Server.submit_with schema w coll body))
                      = 200%Z)) as [E|E].
    + apply Hiff in E as [doc Hdoc]. rewrite Hdoc in *.
      split; [etrans; [apply prefix_app_r; reflexivity|exact Hpre]|].
      rewrite length_app in Hlen. cbn in Hlen. lia.
    + destruct (Hno E) as [Hc _]. rewrite Hc in *. split; [exact Hpre|lia].
Qed.

(** X5. No mail is sent for a booking that was not saved. A call to the
    mail transport means that the answer is 200, that the booking is in
    the collection and that both credentials are set; the mail is the
    one to the submitted address or the one to the admin, and the admin
    is written to only once the mail to the user went through. *)
Theorem mail_only_after_saving schema w coll body (m : MailOptions) :
  SendMail m ∈ calls (Server.submit_with schema w coll body) ->
  let r := Server.submit_with schema w coll body in
  status (response r) = 200%Z
  /\ (exists doc, collection r = (coll ++ [doc])%list)
  /\ Server.credentials_missing w = false
  /\ exists formData,
       Server.decode w body = inr formData
       /\ (m = Server.userMailOptions w formData
           \/ (m = Server.adminMailOptions w formData
               /\ sendMail_ok w (Server.userMailOptions w formData) = true)).
Proof.
  intros Hin r. subst r. revert Hin.
  destruct (submit_outcome schema w coll body) as (_ & Hiff & _).
  revert Hiff.
  destruct (submit_cases schema w coll body)
    as [(msg & Hmsg & ->)
       |(fd & Hpass & [[_ ->]|[(_ & _ & ->)|[(_ & _ & _ & ->)
                                            |(_ & _ & coll' & Hins & ->)]]])];
    cbn [response collection calls]; intros Hiff Hin.
  1-4: (repeat (apply elem_of_cons in Hin as [Hin|Hin]; [discriminate|]);
        now apply elem_of_nil in Hin).
  destruct (notify_success w fd) as (H200 & _ & _).
  split; [exact H200|]. split; [now apply Hiff|].
  apply elem_of_cons in Hin as [Hin|Hin]; [discriminate|].
  apply elem_of_cons in Hin as [Hin|Hin]; [discriminate|].
  unfold Server.notify in Hin.
  destruct (Server.credentials_missing w); [now apply elem_of_nil in Hin|].
  split; [reflexivity|]. exists fd. split; [apply Hpass|].
  destruct (sendMail_ok w (Server.userMailOptions w fd)) eqn:Hu.
  - assert (Hin' : SendMail m ∈ [SendMail (Server.userMailOptions w fd);
                                 SendMail (Server.adminMailOptions w fd)])
      by (destruct (sendMail_ok w (Server.adminMailOptions w fd)); exact Hin).
    apply elem_of_cons in Hin' as [[= ->]|Hin']; [now left|].
    apply list_elem_of_singleton in Hin' as [= ->]. now right.
  - apply list_elem_of_singleton in Hin as [= ->]. now left.
Qed.

End Outcomes.

Section Strings.

Lemma lowerChar_white (c : ascii) : isWhiteSpace (lowerChar c) = isWhiteSpace c.
Proof. destruct c as [[] [] [] [] [] [] [] []]; reflexivity. Qed.

Lemma lowerChar_idem (c : ascii) : lowerChar (lowerChar c) = lowerChar c.
Proof. destruct c as [[] [] [] [] [] [] [] []]; reflexivity. Qed.

Lemma lowerChar_at (c : ascii) : Ascii.eqb "@" (lowerChar c) = Ascii.eqb "@" c.
Proof. destruct c as [[] [] [] [] [] [] [] []]; reflexivity. Qed.

Lemma lowerChar_dot (c : ascii) : Ascii.eqb "." (lowerChar c) = Ascii.eqb "." c.
Proof. destruct c as [[] [] [] [] [] [] [] []]; reflexivity. Qed.

Lemma lowerChar_part (c : ascii) :
  negb (isWhiteSpace (lowerChar c) || Ascii.eqb (lowerChar c) "@")
  = negb (isWhiteSpace c || Ascii.eqb c "@").
Proof. destruct c as [[] [] [] [] [] [] [] []]; reflexivity. Qed.

Lemma toLowerCase_idem (s : string) : toLowerCase (toLowerCase s) = toLowerCase s.
Proof.
  induction s as [|c s IH]; [reflexivity|]. cbn.
  now rewrite lowerChar_idem, IH.
Qed.

Lemma trimStart_lower (s : string) :
  trimStart (toLowerCase s) = toLowerCase (trimStart s).
Proof.
  induction s as [|c s IH]; [reflexivity|]. cbn.
  rewrite lowerChar_white. destruct (isWhiteSpace c); [exact IH|reflexivity].
Qed.

Lemma trimEnd_cons (c : ascii) (s : string) :
  trimEnd (String c s)
  = match trimEnd s with
    | EmptyString => if isWhiteSpace c then EmptyString else String c EmptyString
    | t => String c t
    end.
Proof. reflexivity. Qed.

Lemma trimEnd_lower (s : string) :
  trimEnd (toLowerCase s) = toLowerCase (trimEnd s).
Proof.
  induction s as [|c s IH]; [reflexivity|].
  cbn [toLowerCase]. rewrite !trimEnd_cons, IH.
  destruct (trimEnd s); cbn [toLowerCase].
  - rewrite lowerChar_white. now destruct (isWhiteSpace c).
  - reflexivity.
Qed.

Lemma trim_lower (s : string) : trim (toLowerCase s) = toLowerCase (trim s).
Proof. unfold trim. now rewrite trimStart_lower, trimEnd_lower. Qed.

Lemma trimStart_clean (s : string) : starts_clean (trimStart s) = true.
Proof.
  induction s as [|c s IH]; [reflexivity|]. cbn.
  destruct (isWhiteSpace c) eqn:E; [exact IH|]. cbn. now rewrite E.
Qed.

Lemma trimStart_id (s : string) : starts_clean s = true -> trimStart s = s.
Proof.
  destruct s as [|c s]; [reflexivity|]. cbn.
  now destruct (isWhiteSpace c).
Qed.

Lemma trimEnd_clean (s : string) :
  starts_clean s = true -> starts_clean (trimEnd s) = true.
Proof.
  destruct s as [|c s]; [reflexivity|]. rewrite trimEnd_cons. cbn.
  intros Hc. destruct (trimEnd s); cbn; [|exact Hc].
  destruct (isWhiteSpace c) eqn:E; [reflexivity|]. cbn. now rewrite E.
Qed.

Lemma trimEnd_idem (s : string) : trimEnd (trimEnd s) = trimEnd s.
Proof.
  induction s as [|c s IH]; [reflexivity|]. rewrite trimEnd_cons.
  destruct (trimEnd s) as [|a t] eqn:E.
  - destruct (isWhiteSpace c) eqn:Hc; [reflexivity|].
    rewrite trimEnd_cons. cbn. now rewrite Hc.
  - rewrite trimEnd_cons, IH. reflexivity.
Qed.

(** [trim] does nothing to a trimmed string. *)
Lemma trim_idem (s : string) : trim (trim s) = trim s.
Proof.
  unfold trim.
  rewrite (trimStart_id (trimEnd (trimStart s)))
    by apply trimEnd_clean, trimStart_clean.
  apply trimEnd_idem.
Qed.

Lemma respects_cat f (a b : regex) :
  respects f a -> respects f b -> respects f (cat a b).
Proof. intros Ha Hb. destruct a, b; cbn in *; tauto. Qed.

Lemma respects_alt f (a b : regex) :
  respects f a -> respects f b -> respects f (alt a b).
Proof. intros Ha Hb. destruct a, b; cbn in *; tauto. Qed.

Lemma respects_deriv f (r : regex) (c : ascii) :
  respects f r -> respects f (deriv c r).
Proof.
  induction r as [| |p|a IHa b IHb|a IHa b IHb|a IHa]; cbn; intros H.
  - exact I.
  - exact I.
  - now destruct (p c).
  - destruct H as [Ha Hb]. apply respects_alt.
    + apply respects_cat; auto.
    + destruct (nullable a); cbn; auto.
  - destruct H as [Ha Hb]. apply respects_alt; auto.
  - apply respects_cat; auto.
Qed.

Lemma deriv_respects f (r : regex) (c : ascii) :
  respects f r -> deriv (f c) r = deriv c r.
Proof.
  induction r as [| |p|a IHa b IHb|a IHa b IHb|a IHa]; cbn; intros H.
  - reflexivity.
  - reflexivity.
  - now rewrite H.
  - destruct H as [Ha Hb]. now rewrite IHa, IHb.
  - destruct H as [Ha Hb]. now rewrite IHa, IHb.
  - now rewrite IHa.
Qed.

(** A pattern whose classes do not tell a letter from its lower case
    answers the same on a string and on its lower case. *)
Lemma test_toLowerCase (r : regex) (s : string) :
  respects lowerChar r -> test r (toLowerCase s) = test r s.
Proof.
  revert r. induction s as [|c s IH]; intros r Hr; [reflexivity|]. cbn.
  rewrite (deriv_respects _ _ _ Hr). apply IH. now apply respects_deriv.
Qed.

Lemma emailRegex_respects : respects lowerChar emailRegex.
Proof.
  unfold emailRegex, Plus, chr. cbn.
  repeat split; intros c;
    first [apply lowerChar_part | apply lowerChar_at | apply lowerChar_dot].
Qed.

End Strings.

Section Stored.

Context {L : Libs}.

Implicit Types (w : World) (coll : list Doc) (schema : Schema).
Implicit Types (body formData : gmap string string) (k : string).

Lemma validate_required schema (doc : gmap string string) k :
  Booking.validate schema doc = true -> (k, true) ∈ schema ->
  truthy (doc !! k) = true.
Proof.
  unfold Booking.validate. intros Hv Hk.
  rewrite forallb_forall in Hv. apply list_elem_of_In in Hk.
  exact (Hv _ Hk).
Qed.

Lemma required_path schema k : (k, true) ∈ schema -> k ∈ schema.*1.
Proof. intros Hk. apply list_elem_of_fmap. exists (k, true). auto. Qed.

Lemma booking_data_trimmed formData k :
  k ∈ trimmed_required_fields ->
  Server.booking_data formData !! k = Some (trim (str (formData !! k))).
Proof.
  intros Hk. unfold trimmed_required_fields in Hk. unfold Server.booking_data.
  repeat (apply elem_of_cons in Hk as [-> | Hk]; [now simplify_map_eq|]).
  now apply elem_of_nil in Hk.
Qed.

Lemma insertBooking_validated w schema (data : gmap string string) coll coll' :
  insertBooking w schema data coll = Some coll' ->
  Booking.validate schema (Booking.new schema data) = true.
Proof.
  unfold insertBooking, Booking.save.
  destruct (Booking.validate _ _); [reflexivity|discriminate].
Qed.

(** X6. A required field made of white space only gets through the
    guards, which look at the field as sent, and fails the validation of
    the model, which looks at it trimmed: the answer is 500, "Failed to
    save booking", and nothing is stored. *)
Theorem blank_field_fails_at_save schema w coll body formData k :
  passes_checks w body formData ->
  findOneBooking w (Server.conflict_query formData) coll = Some None ->
  k ∈ trimmed_required_fields ->
  (k, true) ∈ schema ->
  trim (str (formData !! k)) = "" ->
  Server.submit_with schema w coll body
  = {| response := Server.error 500 "Failed to save booking. Please try again later or contact support.";
       collection := coll;
       calls := [FindOne (Server.conflict_query formData);
                 Insert (Server.booking_data formData)] |}.
Proof.
  intros Hpass Hfind Hk Hs Hblank.
  rewrite (submit_passed _ _ _ _ _ Hpass). cbn zeta. rewrite Hfind.
  destruct (insertBooking _ _ _ _) as [coll'|] eqn:Hins; [|reflexivity].
  apply insertBooking_validated in Hins.
  apply (validate_required _ _ k) in Hins; [|exact Hs].
  rewrite Booking_new_lookup in Hins by now apply required_path.
  rewrite (booking_data_trimmed _ _ Hk), Hblank in Hins. discriminate.
Qed.

Lemma truthy_Some (v : string) : truthy (Some v) = true -> v <> "".
Proof.
  cbn. intros H ->. discriminate.
Qed.

(** The booking an accepted request stores is well formed. *)
Lemma stored_booking_well_formed schema w coll body formData coll' :
  requires_all schema ->
  passes_checks w body formData ->
  insertBooking w schema (Server.booking_data formData) coll = Some coll' ->
  exists doc, coll' = (coll ++ [doc])%list /\ well_formed doc.
Proof.
  intros Hschema (_ & _ & Hmail & _) Hins.
  pose proof (insertBooking_validated _ _ _ _ _ Hins) as Hval.
  apply insertBooking_Some in Hins as (doc & -> & Hdoc).
  exists doc. split; [reflexivity|]. unfold well_formed. rewrite Hdoc. split.
  - exists (trim (toLowerCase (str (formData !! "email")))).
    rewrite Booking_new_lookup
      by (apply required_path, Hschema; apply list_elem_of_In; cbn; tauto).
    split; [apply booking_data_email|].
    rewrite trim_lower. split; [apply toLowerCase_idem|].
    split.
    + now rewrite <- trim_lower, trim_idem.
    + now rewrite (test_toLowerCase _ _ emailRegex_respects).
  - intros k Hk.
    assert (Hreq : (k, true) ∈ schema).
    { apply Hschema. now do 2 right. }
    exists (trim (str (formData !! k))).
    rewrite Booking_new_lookup by now apply required_path.
    split; [now apply booking_data_trimmed|]. split; [apply trim_idem|].
    apply (validate_required _ _ k) in Hval; [|exact Hreq].
    rewrite Booking_new_lookup in Hval by now apply required_path.
    rewrite (booking_data_trimmed _ _ Hk) in Hval. now apply truthy_Some.
Qed.

Lemma submit_keeps_well_formed schema w coll body :
  requires_all schema ->
  Forall well_formed coll ->
  Forall well_formed (collection (Server.submit_with schema w coll body)).
Proof.
  intros Hschema Hall.
  destruct (submit_cases schema w coll body)
    as [(msg & Hmsg & ->)
       |(fd & Hpass & [[_ ->]|[(_ & _ & ->)|[(_ & _ & _ & ->)
                                            |(_ & _ & coll' & Hins & ->)]]])];
    cbn [collection]; try exact Hall.
  destruct (stored_booking_well_formed _ _ _ _ _ _ Hschema Hpass Hins)
    as (doc & -> & Hdoc).
  apply Forall_app. split; [exact Hall|]. now constructor.
Qed.

(** X7. Every booking the handler stores is well formed: its email is
    in lower case, has no white space around it and has the shape of an
    email, and its name, phone, state and eligibility fields are trimmed
    and not empty. Requests handled one after the other, on a
    collection of such bookings, leave a collection of such bookings. *)
Theorem stored_bookings_are_well_formed schema
    (requests : list (World * gmap string string)) coll :
  requires_all schema ->
  Forall well_formed coll ->
  Forall well_formed (submit_all schema requests coll).
Proof.
  intros Hschema. revert coll.
  induction requests as [|[w body] rest IH]; intros coll Hall; cbn.
  - exact Hall.
  - apply IH. now apply submit_keeps_well_formed.
Qed.

(** X8. [deleteBooking] with the query of the conflict check undoes an
    accepted request whose email came without white space around it: it
    removes one document and the collection is as it was before the
    request. When the email came with white space around it, the same
    query removes nothing: the booking is not stored under the email the
    conflict check looked for. *)
Theorem delete_undoes_accepted_request schema w coll body formData :
  passes_checks w body formData ->
  "email" ∈ schema.*1 -> "preferredDate" ∈ schema.*1 ->
  status (response (Server.submit_with schema w coll body)) = 200%Z ->
  let after := collection (Server.submit_with schema w coll body) in
  let query := Server.conflict_query formData in
  (trimmed (toLowerCase (str (formData !! "email"))) ->
   Booking_deleteOne query after = (1%nat, coll))
  /\ (~ trimmed (toLowerCase (str (formData !! "email"))) ->
      Booking_deleteOne query after = (0%nat, after)).
Proof.
  intros Hpass He Hd H200 after query. subst after query. revert H200.
  rewrite (submit_passed _ _ _ _ _ Hpass). cbn zeta. unfold findOneBooking.
  destruct (db_findOne_ok w); [|discriminate].
  destruct (Booking.findOne _ coll) as [d|] eqn:Hfind; [discriminate|].
  destruct (insertBooking _ _ _ _) as [coll'|] eqn:Hins; [|discriminate].
  intros _. cbn [collection].
  apply insertBooking_Some in Hins as (doc & -> & Hdoc).
  rewrite findOne_None in Hfind.
  assert (Hnone : Forall (fun d => Booking.matches (Server.conflict_query formData) d
                                   = false) coll)
    by (apply Forall_forall; exact Hfind).
  assert (Hdoc_match :
            Booking.matches (Server.conflict_query formData) doc = true <->
            trimmed (toLowerCase (str (formData !! "email")))).
  { rewrite matches_conflict_query, Hdoc.
    rewrite !Booking_new_lookup by assumption.
    rewrite booking_data_email, booking_data_preferredDate. unfold trimmed.
    split; [intros [[= E] _]; exact E|intros ->; split; reflexivity]. }
  rewrite (deleteOne_skip _ _ _ Hnone). cbn.
  destruct (Booking.matches (Server.conflict_query formData) doc) eqn:Hm.
  - split; [intros _; cbn; now rewrite app_nil_r|].
    intros Hno. exfalso. apply Hno, Hdoc_match. reflexivity.
  - split; [|intros _; reflexivity].
    intros Hyes. apply Hdoc_match in Hyes. discriminate.
Qed.

End Stored.

Section Agreement.

Context {L : Libs}.

Implicit Types (w : World) (coll : list Doc) (schema : Schema).
Implicit Types (fd : Client.FormData) (k : string).

Lemma validateForm_other (now tza : Z) fd k :
  k ∉ error_keys -> Client.validateForm now tza fd !! k = None.
Proof.
  intros Hk.
  assert (Hne : forall k', k' ∈ error_keys -> k <> k') by (intros k' Hk' ->; auto).
  unfold error_keys in Hne. unfold Client.validateForm. cbn zeta.
  rewrite validate_message_ne, validate_date_ne, !validate_present_ne,
    validate_phone_ne, validate_email_ne, validate_name_ne
    by (apply Hne, list_elem_of_In; cbn; tauto).
  apply lookup_empty.
Qed.

Lemma nonEmpty_trim (s : string) : nonEmpty (trim s) = true -> nonEmpty s = true.
Proof. destruct s; [discriminate|reflexivity]. Qed.

Lemma if_Some_None (b : bool) (v : string) :
  (if b then Some v else None) = None <-> b = false.
Proof. destruct b; split; congruence. Qed.

Lemma if2_Some_None (a b : bool) (u v : string) :
  (if a then Some u else if b then Some v else None) = None
  <-> a = false /\ b = false.
Proof. destruct a, b; cbn; split; try discriminate; try (intros [? ?]; discriminate); auto. Qed.

Lemma test_nonEmpty (r : regex) (s : string) :
  nullable r = false -> test r s = true -> nonEmpty s = true.
Proof. destruct s; cbn; [congruence|reflexivity]. Qed.

Lemma message_rule (m : string) :
  nonEmpty m && (500 <? Z.of_nat (String.length m))%Z = false
  <-> (String.length m <= 500)%nat.
Proof.
  destruct m as [|c m]; [cbn; split; [lia|reflexivity]|].
  change (nonEmpty (String c m)) with true. cbn [andb].
  rewrite Z.ltb_ge. lia.
Qed.

Lemma validateForm_empty_iff (now tza : Z) fd :
  Client.validateForm now tza fd = ∅ <-> lets_through now tza fd.
Proof.
  unfold lets_through. split.
  - intros H.
    pose proof (validateForm_name now tza fd) as Hname.
    pose proof (validateForm_email now tza fd) as Hemail.
    pose proof (validateForm_phone now tza fd) as Hphone.
    pose proof (validateForm_service now tza fd) as Hservice.
    pose proof (validateForm_englishLevel now tza fd) as Henglish.
    pose proof (validateForm_age now tza fd) as Hage.
    pose proof (validateForm_education now tza fd) as Hedu.
    pose proof (validateForm_experience now tza fd) as Hexp.
    pose proof (validateForm_visaType now tza fd) as Hvisa.
    pose proof (validateForm_preferredDate now tza fd) as Hdate.
    pose proof (validateForm_message now tza fd) as Hmsg.
    rewrite H, lookup_empty in Hname, Hemail, Hphone, Hservice, Henglish,
      Hage, Hedu, Hexp, Hvisa, Hdate, Hmsg.
    symmetry in Hname, Hemail, Hphone, Hservice, Henglish, Hage, Hedu, Hexp,
      Hvisa, Hdate, Hmsg.
    apply if2_Some_None in Hname as [_ Hname], Hemail as [_ Hemail],
      Hphone as [_ Hphone], Hdate as [Hdate1 Hdate2].
    apply if_Some_None in Hservice, Henglish, Hage, Hedu, Hexp, Hvisa, Hmsg.
    apply negb_false_iff in Hname, Hemail, Hphone, Hservice, Henglish, Hage,
      Hedu, Hexp, Hvisa, Hdate1.
    apply message_rule in Hmsg. tauto.
  - intros (Hname & Hemail & Hphone & Hservice & Henglish & Hage & Hedu & Hexp
            & Hvisa & Hdate1 & Hdate2 & Hmsg).
    apply map_eq. intros k. rewrite lookup_empty.
    destruct (decide (k ∈ error_keys)) as [Hk|Hk];
      [|now apply validateForm_other].
    unfold error_keys in Hk.
    repeat (apply elem_of_cons in Hk as [-> | Hk]).
    + rewrite validateForm_name, Hname.
      now rewrite (test_nonEmpty nameRegex _ eq_refl Hname).
    + rewrite validateForm_email, Hemail.
      now rewrite (test_nonEmpty emailRegex _ eq_refl Hemail).
    + rewrite validateForm_phone, Hphone.
      now rewrite (test_nonEmpty phoneRegex _ eq_refl Hphone).
    + now rewrite validateForm_service, Hservice.
    + now rewrite validateForm_englishLevel, Henglish.
    + now rewrite validateForm_age, Hage.
    + now rewrite validateForm_education, Hedu.
    + now rewrite validateForm_experience, Hexp.
    + now rewrite validateForm_visaType, Hvisa.
    + now rewrite validateForm_preferredDate, Hdate1, Hdate2.
    + rewrite validateForm_message. apply message_rule in Hmsg.
      now rewrite Hmsg.
    + now apply elem_of_nil in Hk.
Qed.

(** X9. [validateForm] returns the empty object exactly when the
    trimmed name, email and phone match their patterns, the service, the
    five eligibility fields and the date are not empty, the date, its
    hours zeroed, is not before today, and the message has at most 500
    characters; and it never sets a key other than those of these
    eleven fields. *)
Theorem validateForm_accepts_iff (now tza : Z) fd :
  (Client.validateForm now tza fd = ∅ <-> lets_through now tza fd)
  /\ forall k, is_Some (Client.validateForm now tza fd !! k) -> k ∈ error_keys.
Proof.
  split; [apply validateForm_empty_iff|].
  intros k [v Hv]. destruct (decide (k ∈ error_keys)) as [Hk|Hk]; [exact Hk|].
  rewrite validateForm_other in Hv by exact Hk. discriminate.
Qed.

Lemma missing_required_to_object fd :
  Server.missing_required (Client.to_object fd)
  = negb (nonEmpty (Client.name fd)) || negb (nonEmpty (Client.email fd))
    || negb (nonEmpty (Client.phone fd)) || negb (nonEmpty (Client.state fd))
    || negb (nonEmpty (Client.service fd))
    || negb (nonEmpty (Client.preferredDate fd))
    || negb (nonEmpty (Client.englishLevel fd))
    || negb (nonEmpty (Client.age fd)) || negb (nonEmpty (Client.education fd))
    || negb (nonEmpty (Client.experience fd))
    || negb (nonEmpty (Client.visaType fd)).
Proof.
  unfold Server.missing_required, Client.to_object. now simplify_map_eq.
Qed.

(** X10. A payload that [validateForm] lets through, with a state, sent
    plain to a server with the same clock and zone: when its date
    parses, it passes every check of the server and reaches the store;
    when its date does not parse, which [validateForm] does not see, the
    server answers 400, "Invalid date format.", and makes no call. *)
Theorem client_valid_payload_on_server schema w coll fd :
  Client.validateForm (clock w) (LocalTZA w) fd = ∅ ->
  nonEmpty (Client.state fd) = true ->
  let body := Client.to_object fd in
  let r := Server.submit_with schema w coll body in
  (new_Date (Client.preferredDate fd) <> None ->
   passes_checks w body body /\ calls r <> [])
  /\ (new_Date (Client.preferredDate fd) = None ->
      response r = Server.error 400 "Invalid date format." /\ calls r = []
      /\ collection r = coll).
Proof.
  intros Hvalid Hstate body r. subst body r.
  apply validateForm_empty_iff in Hvalid
    as (Hname & Hemail & Hphone & Hservice & Henglish & Hage & Hedu & Hexp
        & Hvisa & Hdate1 & Hdate2 & Hmsg).
  assert (Hdec : Server.decode w (Client.to_object fd) = inr (Client.to_object fd))
    by (apply decode_plain; now rewrite to_object_no_encrypted).
  assert (Hreq : Server.missing_required (Client.to_object fd) = false).
  { rewrite missing_required_to_object.
    rewrite (nonEmpty_trim _ (test_nonEmpty nameRegex _ eq_refl Hname)).
    rewrite (nonEmpty_trim _ (test_nonEmpty emailRegex _ eq_refl Hemail)).
    rewrite (nonEmpty_trim _ (test_nonEmpty phoneRegex _ eq_refl Hphone)).
    now rewrite Hstate, Hservice, Hdate1, Henglish, Hage, Hedu, Hexp, Hvisa. }
  assert (Hmail : test emailRegex (trim (str (Client.to_object fd !! "email"))) = true)
    by (rewrite to_object_email; exact Hemail).
  split.
  - intros Hparse.
    assert (Hpass : passes_checks w (Client.to_object fd) (Client.to_object fd)).
    { split; [exact Hdec|]. split; [exact Hreq|]. split; [exact Hmail|].
      rewrite to_object_preferredDate. cbn [str default from_option id].
      unfold Server.date_policy.
      destruct (new_Date (Client.preferredDate fd)) as [b|] eqn:Hb;
        [|congruence].
      cbn [JsDate.isNaN]. now rewrite Hdate2. }
    split; [exact Hpass|].
    rewrite (submit_passed _ _ _ _ _ Hpass). cbn zeta.
    destruct (findOneBooking _ _ _) as [[d|]|]; try discriminate.
    destruct (insertBooking _ _ _ _); discriminate.
  - intros Hparse. unfold Server.submit_with.
    rewrite Hdec, Hreq, Hmail. cbn [negb].
    rewrite to_object_preferredDate. cbn [str default from_option id].
    unfold Server.date_policy. rewrite Hparse. cbn. auto.
Qed.

End Agreement.

Section ContactForm.

Context {L : Libs}.

Implicit Types (st : Form.State) (k : string).

Lemma sanitizeInput_clean (value : string) :
  Form.clean (Form.sanitizeInput value) = true.
Proof.
  induction value as [|c s IH]; [reflexivity|]. cbn.
  destruct (Form.isDangerous c) eqn:E; [exact IH|]. cbn. now rewrite E, IH.
Qed.

Lemma sanitizeInput_id (value : string) :
  Form.clean value = true -> Form.sanitizeInput value = value.
Proof.
  induction value as [|c s IH]; [reflexivity|]. cbn.
  destruct (Form.isDangerous c); cbn; [discriminate|].
  intros H. now rewrite IH.
Qed.

Lemma sanitizeInput_length (value : string) :
  (String.length (Form.sanitizeInput value) <= String.length value)%nat.
Proof.
  induction value as [|c s IH]; [reflexivity|]. cbn.
  destruct (Form.isDangerous c); cbn; lia.
Qed.

(** X11. What [sanitizeInput] returns holds no angle bracket, no double
    quote and no apostrophe; a string without any comes back as it is,
    so sanitizing twice is sanitizing once; and the result is never
    longer than the input. *)
Theorem sanitizeInput_removes_the_class (value : string) :
  Form.clean (Form.sanitizeInput value) = true
  /\ (Form.clean value = true -> Form.sanitizeInput value = value)
  /\ Form.sanitizeInput (Form.sanitizeInput value) = Form.sanitizeInput value
  /\ (String.length (Form.sanitizeInput value) <= String.length value)%nat.
Proof.
  split; [apply sanitizeInput_clean|]. split; [apply sanitizeInput_id|].
  split; [apply sanitizeInput_id, sanitizeInput_clean|apply sanitizeInput_length].
Qed.

Lemma initialFormData_complete : Form.complete Form.initialFormData.
Proof.
  intros k Hk. unfold Form.field_names in Hk. unfold Form.initialFormData.
  repeat (apply elem_of_cons in Hk as [-> | Hk]; [now simplify_map_eq|]).
  now apply elem_of_nil in Hk.
Qed.

Lemma initialFormData_values k (v : string) :
  Form.initialFormData !! k = Some v -> v = "".
Proof.
  unfold Form.initialFormData. intros H.
  repeat (apply lookup_insert_Some in H as [[_ <-]|[_ H]]; [reflexivity|]).
  now apply lookup_singleton_Some in H as [_ <-].
Qed.

Lemma handleInputChange_tidy (name value : string) st :
  tidy (Form.formData st) ->
  tidy (Form.formData (Form.handleInputChange name value st)).
Proof.
  intros [Hc Hv]. cbn. split.
  - intros k Hk. destruct (decide (name = k)) as [->|Hne].
    + rewrite lookup_insert_eq. eauto.
    + rewrite lookup_insert_ne by exact Hne. now apply Hc.
  - intros k v. destruct (decide (name = k)) as [->|Hne].
    + rewrite lookup_insert_eq. intros [= <-]. apply sanitizeInput_clean.
    + rewrite lookup_insert_ne by exact Hne. apply Hv.
Qed.

(** X12. Whatever is typed into the form, in whatever fields, starting
    from [initialFormData]: each of the twelve fields stays a property
    of the form data, so that [validateForm] finds every field it
    trims, and no value of the form data holds an angle bracket, a
    double quote or an apostrophe. *)
Theorem form_data_stays_tidy (events : list (string * string)) :
  let o := Form.formData (Form.type_all events Form.initial) in
  Form.complete o /\ forall k v, o !! k = Some v -> Form.clean v = true.
Proof.
  assert (Hgen : forall st, tidy (Form.formData st) ->
                            tidy (Form.formData (Form.type_all events st))).
  { induction events as [|[name value] rest IH]; intros st Hst; cbn.
    - exact Hst.
    - apply IH. now apply handleInputChange_tidy. }
  apply Hgen. cbn. split; [apply initialFormData_complete|].
  intros k v Hv. apply initialFormData_values in Hv. now subst.
Qed.

Lemma errorMsg_error (code : Z) (msg : string) :
  nonEmpty msg = true -> Form.errorMsg (Server.error code msg) = JStr msg.
Proof.
  intros Hmsg. unfold Form.errorMsg, Server.error. cbn [json].
  rewrite lookup_singleton_eq. cbn. now rewrite Hmsg.
Qed.

Lemma submit_error_listed schema (w : World) (coll : list Doc)
    (body : gmap string string) :
  let r := Server.submit_with schema w coll body in
  status (response r) <> 200%Z ->
  exists msg, msg ∈ server_messages
              /\ response r = Server.error (status (response r)) msg.
Proof.
  intros r. subst r.
  destruct (submit_cases schema w coll body)
    as [(msg & Hmsg & ->)
       |(fd & Hpass & [[_ ->]|[(_ & _ & ->)|[(_ & _ & _ & ->)
                                            |(_ & _ & coll' & Hins & ->)]]])];
    cbn [response status Server.error]; intros Hne.
  1: eauto.
  1-3: (eexists; split; [|reflexivity]; apply list_elem_of_In; cbn; tauto).
  destruct (notify_success w fd) as (H200 & _ & _). congruence.
Qed.

Lemma thanks_not_listed : Form.thanks ∉ server_messages.
Proof.
  intros H. unfold server_messages in H.
  repeat (apply elem_of_cons in H as [H | H]; [discriminate|]).
  now apply elem_of_nil in H.
Qed.

(** X13. [handleSubmit] against the handler, once [validateForm] has
    found nothing. When the handler stores the booking, the form shows
    the thanks and is reset, also when the answer carries the warning
    that the emails failed or the note that they are disabled, which is
    shown nowhere. When the handler stores nothing, the form keeps its
    data and shows the [error] message of the answer, never the thanks. *)
Theorem form_reset_iff_stored schema (w : World) (coll : list Doc)
    (isProduction : bool) (salt : Salt) (key : string) (now tza : Z) st :
  Client.validateForm now tza (Form.of_object (Form.formData st)) = ∅ ->
  let body := Form.payload isProduction salt key (Form.formData st) in
  let r := Server.submit_with schema w coll body in
  let st' := Form.handleSubmit isProduction salt key now tza
               (backend schema w coll) st in
  ((exists doc, collection r = (coll ++ [doc])%list) ->
   Form.submitMessage st' = JStr Form.thanks
   /\ Form.formData st' = Form.initialFormData
   /\ Form.selectedDate st' = None)
  /\ (collection r = coll ->
      Form.formData st' = Form.formData st
      /\ Form.submitMessage st' <> JStr Form.thanks
      /\ exists msg, json (response r) !! "error" = Some (JStr msg)
                     /\ Form.submitMessage st' = JStr msg).
Proof.
  intros Hvalid body r st'. subst body r st'.
  unfold Form.handleSubmit, backend. rewrite Hvalid.
  rewrite bool_decide_eq_true_2 by reflexivity. cbn [negb].
  destruct (submit_outcome schema w coll
              (Form.payload isProduction salt key (Form.formData st)))
    as (Hin & Hiff & _).
  pose proof (submit_error_listed schema w coll
                (Form.payload isProduction salt key (Form.formData st))) as Hno.
  cbn zeta in Hno.
  set (r := Server.submit_with schema w coll _) in *.
  split.
  - intros Hdoc. apply Hiff in Hdoc. unfold Form.ok. rewrite Hdoc. cbn.
    auto.
  - intros Hsame.
    assert (Hne : status (response r) <> 200%Z).
    { intros H200. apply Hiff in H200 as [doc Hdoc]. rewrite Hsame in Hdoc.
      now apply snoc_neq in Hdoc. }
    destruct (Hno Hne) as (msg & Hmsg & Hresp).
    assert (Hok : Form.ok (response r) = false).
    { unfold Form.ok. apply list_elem_of_In in Hin. cbn in Hin.
      destruct Hin as [H|[H|[H|[H|[]]]]]; rewrite <- H in *;
        [congruence|reflexivity|reflexivity|reflexivity]. }
    rewrite Hok. cbn [negb Form.formData Form.submitMessage].
    rewrite Hresp, (errorMsg_error _ _ (listed_nonEmpty _ Hmsg)).
    split; [reflexivity|]. split.
    + intros [= ->]. now apply thanks_not_listed.
    + exists msg. split; [|reflexivity]. cbn [json Server.error].
      apply lookup_singleton_eq.
Qed.

End ContactForm.

Section DatePicker.

Context {L : Libs}.

Local Open Scope Z_scope.

Lemma utc_midnight_local_day (tza d : Z) :
  0 <= tza < JsDate.msPerDay ->
  JsDate.LocalDay tza (d * JsDate.msPerDay) = d.
Proof.
  intros Hz. unfold JsDate.LocalDay, JsDate.Day. symmetry.
  apply (Z.div_unique_pos _ _ d tza); [exact Hz|]. lia.
Qed.

Lemma early_local_hours (tza m : Z) :
  0 <= tza < JsDate.msPerDay ->
  (m + tza) mod JsDate.msPerDay < tza ->
  JsDate.Day m < JsDate.LocalDay tza m.
Proof.
  intros Hz Hr. unfold JsDate.LocalDay, JsDate.Day.
  pose proof (Z.div_mod (m + tza) JsDate.msPerDay) as Hdm.
  apply Z.div_lt_upper_bound; unfold JsDate.msPerDay in *; lia.
Qed.

(** X14. The date picker hands a time [m]; the form keeps the date part
    of its ISO string, which names the UTC day of [m] and which
    [new Date] reads as midnight UTC of that day. East of Greenwich
    [validateForm] therefore compares the UTC day of [m] with the local
    day of the clock: a pick on today's local day, at a local time of
    day earlier than the offset of the zone, is refused as a date in the
    past. *)
Theorem picked_date_is_the_utc_day (toISOString : Z -> string)
    (now tza m : Z) (st : Form.State) :
  let s := Form.beforeT (toISOString m) in
  let st' := Form.onDateChange toISOString (Some m) st in
  let error := Client.validateForm now tza (Form.of_object (Form.formData st'))
                 !! "preferredDate" in
  Date_parse s = Some (JsDate.Day m * JsDate.msPerDay) ->
  nonEmpty s = true ->
  Form.clean s = true ->
  0 <= tza < JsDate.msPerDay ->
  inside (JsDate.Day m * JsDate.msPerDay) ->
  inside now ->
  Form.formData st' !! "preferredDate" = Some s
  /\ Form.selectedDate st' = Some m
  /\ error = (if JsDate.Day m <? JsDate.LocalDay tza now
              then Some "Please select future date"%string else None)
  /\ (JsDate.LocalDay tza m = JsDate.LocalDay tza now ->
      (m + tza) mod JsDate.msPerDay < tza ->
      error = Some "Please select future date"%string).
Proof.
  intros s st' error Hparse Hne Hclean Hz Hm Hnow. subst st' error.
  assert (Hfield : Form.formData (Form.onDateChange toISOString (Some m) st)
                     !! "preferredDate" = Some s).
  { cbn. rewrite lookup_insert_eq. fold s. now rewrite sanitizeInput_id. }
  assert (Herr : Client.validateForm now tza
                   (Form.of_object
                      (Form.formData (Form.onDateChange toISOString (Some m) st)))
                   !! "preferredDate"
                 = if JsDate.Day m <? JsDate.LocalDay tza now
                   then Some "Please select future date"%string else None).
  { rewrite (validateForm_date_by_day now tza _ (JsDate.Day m * JsDate.msPerDay)).
    - now rewrite utc_midnight_local_day.
    - unfold Form.of_object. cbn [Client.preferredDate]. now rewrite Hfield.
    - unfold Form.of_object. cbn [Client.preferredDate]. now rewrite Hfield.
    - unfold JsDate.msPerDay in *. lia.
    - exact Hm.
    - exact Hnow. }
  split; [exact Hfield|]. split; [reflexivity|]. split; [exact Herr|].
  intros Hday Hearly. rewrite Herr.
  pose proof (early_local_hours tza m Hz Hearly) as Hlt. rewrite Hday in Hlt.
  apply Z.ltb_lt in Hlt. now rewrite Hlt.
Qed.

End DatePicker.

Section EarlierHandler.

Context {L : Libs}.

Lemma legacy_booking_data_email (formData : gmap string string) :
  Legacy.booking_data formData !! "email"
  = Some (toLowerCase (str (formData !! "email"))).
Proof.
  unfold Legacy.booking_data. destruct (formData !! "message"); now simplify_map_eq.
Qed.

Lemma legacy_booking_data_preferredDate (formData : gmap string string) :
  Legacy.booking_data formData !! "preferredDate"
  = Some (str (formData !! "preferredDate")).
Proof.
  unfold Legacy.booking_data. destruct (formData !! "message"); now simplify_map_eq.
Qed.

Lemma legacy_submit_keeps_unique_pairs (w : World) (coll : list Doc)
    (body : gmap string string) :
  unique_pairs coll ->
  unique_pairs (Legacy.collection (Legacy.submit w coll body)).
Proof.
  intros Huniq. unfold Legacy.submit.
  destruct (Legacy.decode body) as [r|formData]; [exact Huniq|].
  destruct (Legacy.missing_required formData); [exact Huniq|].
  destruct (Server.date_policy w _); [exact Huniq|]. cbn zeta.
  unfold findOneBooking. destruct (db_findOne_ok w); [|exact Huniq].
  destruct (Booking.findOne _ coll) as [d|] eqn:Hfind; [exact Huniq|].
  destruct (insertBooking _ _ _ _) as [coll'|] eqn:Hins; [|exact Huniq].
  destruct (Legacy.notify w formData) as [r mails]. cbn [Legacy.collection].
  apply insertBooking_Some in Hins as (doc & -> & Hdoc).
  apply unique_pairs_snoc; [exact Huniq|].
  intros Hin. apply list_elem_of_fmap in Hin as (d & Hpair & Hd).
  rewrite findOne_None in Hfind. specialize (Hfind d Hd).
  assert (Booking.matches (Server.conflict_query formData) d = true); [|congruence].
  apply matches_conflict_query.
  unfold pair_of in Hpair. rewrite Hdoc in Hpair.
  rewrite !Booking_new_lookup in Hpair
    by (apply list_elem_of_In; cbn; tauto).
  rewrite legacy_booking_data_email, legacy_booking_data_preferredDate in Hpair.
  injection Hpair as <- <-. split; reflexivity.
Qed.

(** X15. The earlier revision of the handler stores the email as it
    looks for it, in lower case and not trimmed: requests handled one
    after the other, whatever they are, leave at most one booking for
    an email and a date. *)
Theorem legacy_keeps_unique_pairs
    (requests : list (World * gmap string string)) (coll : list Doc) :
  unique_pairs coll -> unique_pairs (legacy_submit_all requests coll).
Proof.
  revert coll. induction requests as [|[w body] rest IH]; intros coll Huniq; cbn.
  - exact Huniq.
  - apply IH. now apply legacy_submit_keeps_unique_pairs.
Qed.

End EarlierHandler.

Section Envelope.

Context {L : Libs}.

(** X16. An envelope with a non-empty [encrypted] is read from
    [encrypted] alone: whatever other properties the body carries, the
    handler does what it does on the body reduced to [encrypted]. *)
Theorem encrypted_envelope_is_all (schema : Schema) (w : World)
    (coll : list Doc) (body : gmap string string) :
  truthy (body !! "encrypted") = true ->
  Server.submit_with schema w coll body
  = Server.submit_with schema w coll
      {[ "encrypted" := str (body !! "encrypted") ]}.
Proof.
  intros Henc.
  assert (Hdec : Server.decode w body
                 = Server.decode w {[ "encrypted" := str (body !! "encrypted") ]}).
  { unfold Server.decode. rewrite lookup_singleton_eq, Henc.
    destruct (body !! "encrypted") as [c|]; [|discriminate].
    cbn [str default from_option id] in *. now rewrite Henc. }
  unfold Server.submit_with. now rewrite Hdec.
Qed.

Lemma missing_required_false (formData : gmap string string) :
  Server.missing_required formData = false ->
  truthy (formData !! "englishLevel") = true
  /\ truthy (formData !! "age") = true
  /\ truthy (formData !! "education") = true
  /\ truthy (formData !! "experience") = true
  /\ truthy (formData !! "visaType") = true.
Proof.
  unfold Server.missing_required. intros H.
  repeat (apply orb_false_iff in H as [H ?]).
  repeat match goal with
         | X : negb _ = false |- _ => apply negb_false_iff in X
         end.
  auto.
Qed.

Lemma append_assoc (a b c : string) : (a ++ b) ++ c = a ++ (b ++ c).
Proof.
  induction a as [|x a IH]; [reflexivity|].
  change (String x ((a ++ b) ++ c) = String x (a ++ (b ++ c))).
  now rewrite IH.
Qed.

(** X17. Past the guard on the required fields both mails announce the
    eligibility check and list its five fields: the branches of the mail
    step for a request without eligibility fields are never taken. *)
Theorem eligibility_always_in_the_mails (w : World)
    (formData : gmap string string) :
  Server.missing_required formData = false ->
  subject (Server.userMailOptions w formData)
  = "Your Consultation Booking - Easy Go Overseas - With Eligibility Check"
  /\ subject (Server.adminMailOptions w formData)
     = "New Consultation Booking - With Eligibility Check"
  /\ forall header,
       Server.eligibility header formData
       = header
         ++ "English Level: " ++ str (formData !! "englishLevel") ++ nl
         ++ "Age: " ++ str (formData !! "age") ++ nl
         ++ "Education: " ++ str (formData !! "education") ++ nl
         ++ "Experience: " ++ str (formData !! "experience") ++ nl
         ++ "Visa Type: " ++ str (formData !! "visaType") ++ nl.
Proof.
  intros H. apply missing_required_false in H as (H1 & H2 & H3 & H4 & H5).
  unfold Server.userMailOptions, Server.adminMailOptions,
    Server.withEligibility, Server.eligibility, Server.line.
  cbn [subject]. rewrite H1, H2, H3, H4, H5. cbn [orb].
  split; [reflexivity|]. split; [reflexivity|]. intros header.
  now rewrite !append_assoc.
Qed.

End Envelope.

Section Patterns.

Implicit Types (r a b : regex) (s t u : string) (c : ascii).

Lemma append_cons c s t : String c s ++ t = String c (s ++ t).
Proof. reflexivity. Qed.

Lemma append_nil_l s : "" ++ s = s.
Proof. reflexivity. Qed.

Lemma append_nil_r s : s ++ "" = s.
Proof.
  induction s as [|c s IH]; [reflexivity|]. now rewrite append_cons, IH.
Qed.

Lemma append_eq_nil s t : s ++ t = "" -> s = "" /\ t = "".
Proof.
  destruct s as [|c s]; [intros H; split; [reflexivity|exact H]|].
  rewrite append_cons. discriminate.
Qed.

Lemma append_eq_cons s t c u :
  s ++ t = String c u ->
  (s = "" /\ t = String c u) \/ exists s', s = String c s' /\ u = s' ++ t.
Proof.
  destruct s as [|x s]; [intros H; left; split; [reflexivity|exact H]|].
  rewrite append_cons. intros [= -> <-]. right. eauto.
Qed.

Lemma append_length s t :
  String.length (s ++ t) = (String.length s + String.length t)%nat.
Proof.
  induction s as [|c s IH]; [reflexivity|]. rewrite append_cons. cbn.
  now rewrite IH.
Qed.

Lemma lang_Void s : ~ lang Void s.
Proof. intros H. inversion H. Qed.

Lemma lang_Eps_inv s : lang Eps s -> s = "".
Proof. intros H. now inversion H. Qed.

Lemma lang_Class_inv p s :
  lang (Class p) s -> exists c, s = String c "" /\ p c = true.
Proof. intros H. inversion H; subst. eauto. Qed.

Lemma lang_Cat_inv a b s :
  lang (Cat a b) s -> exists s1 s2, s = s1 ++ s2 /\ lang a s1 /\ lang b s2.
Proof. intros H. inversion H; subst. eauto. Qed.

Lemma lang_Alt_inv a b s : lang (Alt a b) s -> lang a s \/ lang b s.
Proof. intros H. inversion H; subst; auto. Qed.

Lemma lang_nullable r : nullable r = true <-> lang r "".
Proof.
  split.
  - induction r as [| |p|a IHa b IHb|a IHa b IHb|a IHa]; cbn; intros H;
      try discriminate.
    + constructor.
    + apply andb_true_iff in H as [Ha Hb].
      apply (lang_Cat a b "" ""); auto.
    + apply orb_true_iff in H as [H|H];
        [apply lang_AltL|apply lang_AltR]; auto.
    + constructor.
  - intros H. remember EmptyString as e eqn:E.
    induction H as [|p c Hc|a b s t Ha IHa Hb IHb|a b s Ha IHa|a b s Hb IHb
                    |a|a s t Ha IHa Hs IHs]; cbn; try reflexivity.
    + discriminate.
    + apply append_eq_nil in E as [-> ->]. now rewrite IHa, IHb.
    + now rewrite IHa.
    + rewrite IHb by exact E. apply orb_true_r.
Qed.

Lemma lang_cat a b s : lang (cat a b) s <-> lang (Cat a b) s.
Proof.
  assert (Hvoid_l : forall x, lang (Cat Void x) s <-> lang Void s).
  { intros x. split; intros H; [|now apply lang_Void in H].
    apply lang_Cat_inv in H as (s1 & s2 & _ & H & _). now apply lang_Void in H. }
  assert (Hvoid_r : forall x, lang (Cat x Void) s <-> lang Void s).
  { intros x. split; intros H; [|now apply lang_Void in H].
    apply lang_Cat_inv in H as (s1 & s2 & _ & _ & H). now apply lang_Void in H. }
  assert (Heps : forall x, lang (Cat Eps x) s <-> lang x s).
  { intros x. split; intros H.
    - apply lang_Cat_inv in H as (s1 & s2 & -> & H1 & H2).
      apply lang_Eps_inv in H1. now subst.
    - apply (lang_Cat Eps x "" s); [constructor|exact H]. }
  destruct a, b; cbn;
    first [reflexivity | now rewrite Hvoid_l | now rewrite Hvoid_r
           | now rewrite Heps].
Qed.

Lemma lang_alt a b s : lang (alt a b) s <-> lang (Alt a b) s.
Proof.
  assert (Hl : forall x, lang (Alt Void x) s <-> lang x s).
  { intros x. split; intros H; [|now apply lang_AltR].
    apply lang_Alt_inv in H as [H|H]; [now apply lang_Void in H|exact H]. }
  assert (Hr : forall x, lang (Alt x Void) s <-> lang x s).
  { intros x. split; intros H; [|now apply lang_AltL].
    apply lang_Alt_inv in H as [H|H]; [exact H|now apply lang_Void in H]. }
  destruct a, b; cbn;
    first [reflexivity | now rewrite Hl | now rewrite Hr].
Qed.

Lemma lang_Star_cons a c s :
  lang (Star a) (String c s) ->
  exists s1 s2, s = s1 ++ s2 /\ lang a (String c s1) /\ lang (Star a) s2.
Proof.
  intros H. remember (Star a) as r eqn:Er. remember (String c s) as u eqn:Eu.
  induction H as [|p x Hx|a' b s' t Ha IHa Hb IHb|a' b s' Ha IHa|a' b s' Hb IHb
                  |a'|a' s' t Ha IHa Hs IHs]; try discriminate.
  injection Er as ->.
  apply append_eq_cons in Eu as [[-> ->]|(s1 & -> & ->)].
  - now apply IHs.
  - eauto.
Qed.

Lemma lang_deriv r c s : lang (deriv c r) s <-> lang r (String c s).
Proof.
  revert s. induction r as [| |p|a IHa b IHb|a IHa b IHb|a IHa]; intros s; cbn.
  - split; intros H; now apply lang_Void in H.
  - split; intros H; [now apply lang_Void in H|].
    apply lang_Eps_inv in H. discriminate.
  - split; intros H.
    + destruct (p c) eqn:Hp; [|now apply lang_Void in H].
      apply lang_Eps_inv in H. subst. now constructor.
    + apply lang_Class_inv in H as (x & [= -> ->] & Hp). rewrite Hp. constructor.
  - rewrite lang_alt. split; intros H.
    + apply lang_Alt_inv in H as [H|H].
      * apply lang_cat, lang_Cat_inv in H as (s1 & s2 & -> & H1 & H2).
        apply IHa in H1. rewrite <- append_cons. now constructor.
      * destruct (nullable a) eqn:Hn; [|now apply lang_Void in H].
        apply IHb in H. apply lang_nullable in Hn.
        apply (lang_Cat a b "" (String c s)); assumption.
    + apply lang_Cat_inv in H as (s1 & s2 & E & H1 & H2). symmetry in E.
      apply append_eq_cons in E as [[-> ->]|(s1' & -> & ->)].
      * apply lang_AltR. apply lang_nullable in H1. rewrite H1. now apply IHb.
      * apply lang_AltL, lang_cat. constructor; [now apply IHa|exact H2].
  - rewrite lang_alt. split; intros H.
    + apply lang_Alt_inv in H as [H|H];
        [apply lang_AltL, IHa|apply lang_AltR, IHb]; exact H.
    + apply lang_Alt_inv in H as [H|H];
        [apply lang_AltL, IHa|apply lang_AltR, IHb]; exact H.
  - rewrite lang_cat. split; intros H.
    + apply lang_Cat_inv in H as (s1 & s2 & -> & H1 & H2).
      apply IHa in H1. rewrite <- append_cons. now constructor.
    + apply lang_Star_cons in H as (s1 & s2 & -> & H1 & H2).
      constructor; [now apply IHa|exact H2].
Qed.

(** Matching by derivatives is matching: [test] tells whether the
    string is one of those the pattern stands for. *)
Lemma test_lang r s : test r s = true <-> lang r s.
Proof.
  revert r. induction s as [|c s IH]; intros r; cbn.
  - apply lang_nullable.
  - rewrite IH. apply lang_deriv.
Qed.

Lemma lang_chr (x : ascii) s : lang (chr x) s <-> s = String x "".
Proof.
  unfold chr. split.
  - intros H. apply lang_Class_inv in H as (c & -> & Hc).
    apply Ascii.eqb_eq in Hc. now subst.
  - intros ->. constructor. apply Ascii.eqb_refl.
Qed.

Lemma lang_Star_class p s : lang (Star (Class p)) s <-> all p s = true.
Proof.
  split.
  - revert s. induction s as [|c s IH]; intros H; [reflexivity|].
    apply lang_Star_cons in H as (s1 & s2 & -> & H1 & H2).
    apply lang_Class_inv in H1 as (x & [= -> ->] & Hx). cbn.
    rewrite Hx. now apply IH.
  - induction s as [|c s IH]; cbn; intros H; [constructor|].
    apply andb_true_iff in H as [Hc Hs].
    apply (lang_StarS (Class p) (String c "") s); [now constructor|auto].
Qed.

Lemma lang_Plus_class p s :
  lang (Plus (Class p)) s <-> all p s = true /\ s <> "".
Proof.
  unfold Plus. split.
  - intros H. apply lang_Cat_inv in H as (s1 & s2 & -> & H1 & H2).
    apply lang_Class_inv in H1 as (c & -> & Hc).
    apply lang_Star_class in H2. rewrite append_cons, append_nil_l. cbn.
    rewrite Hc, H2. split; [reflexivity|discriminate].
  - intros [H Hne]. destruct s as [|c s]; [congruence|]. cbn in H.
    apply andb_true_iff in H as [Hc Hs].
    apply (lang_Cat (Class p) (Star (Class p)) (String c "") s);
      [now constructor|now apply lang_Star_class].
Qed.

Lemma all_append p s t : all p (s ++ t) = all p s && all p t.
Proof.
  induction s as [|c s IH]; [reflexivity|]. rewrite append_cons. cbn.
  now rewrite IH, andb_assoc.
Qed.

(** X18. The email pattern, on the server and in the form, accepts
    exactly the strings made of a local part, an at sign, a domain, a
    dot and an ending, the three parts not empty and free of white
    space and of at signs; a string it accepts holds no white space and
    is at least five characters long. *)
Theorem emailRegex_shape s :
  (test emailRegex s = true <->
   exists loc dom tld,
     s = loc ++ "@" ++ dom ++ "." ++ tld
     /\ all emailPart loc = true /\ loc <> ""
     /\ all emailPart dom = true /\ dom <> ""
     /\ all emailPart tld = true /\ tld <> "")
  /\ (test emailRegex s = true ->
      all (fun c => negb (isWhiteSpace c)) s = true
      /\ (5 <= String.length s)%nat).
Proof.
  assert (Hshape : test emailRegex s = true <->
            exists loc dom tld,
              s = loc ++ "@" ++ dom ++ "." ++ tld
              /\ all emailPart loc = true /\ loc <> ""
              /\ all emailPart dom = true /\ dom <> ""
              /\ all emailPart tld = true /\ tld <> "").
  { rewrite test_lang. unfold emailRegex. cbn zeta. split.
    - intros H.
      apply lang_Cat_inv in H as (loc & s1 & -> & Hloc & H).
      apply lang_Cat_inv in H as (at_ & s2 & -> & Hat & H).
      apply lang_Cat_inv in H as (dom & s3 & -> & Hdom & H).
      apply lang_Cat_inv in H as (dot & tld & -> & Hdot & Htld).
      apply lang_chr in Hat, Hdot. subst at_ dot.
      apply lang_Plus_class in Hloc as [? ?], Hdom as [? ?], Htld as [? ?].
      exists loc, dom, tld. auto 10.
    - intros (loc & dom & tld & -> & Hl & Hl' & Hd & Hd' & Ht & Ht').
      repeat constructor; first [now apply lang_Plus_class | now apply lang_chr]. }
  split; [exact Hshape|].
  intros H. apply Hshape in H
    as (loc & dom & tld & -> & Hl & Hl' & Hd & Hd' & Ht & Ht').
  assert (Hws : forall u, all emailPart u = true ->
                          all (fun c => negb (isWhiteSpace c)) u = true).
  { induction u as [|c u IH]; cbn; [reflexivity|]. intros Hu.
    apply andb_true_iff in Hu as [Hc Hu]. rewrite (IH Hu).
    unfold emailPart in Hc. apply negb_true_iff, orb_false_iff in Hc as [-> _].
    reflexivity. }
  split.
  - rewrite !all_append, (Hws _ Hl), (Hws _ Hd), (Hws _ Ht). reflexivity.
  - rewrite !append_length. cbn.
    destruct loc; [congruence|]. destruct dom; [congruence|].
    destruct tld; [congruence|]. cbn. lia.
Qed.

Lemma lang_upto p (extra : nat) s :
  lang (Between (Class p) 0 extra) s <->
  all p s = true /\ (String.length s <= extra)%nat.
Proof.
  revert s. induction extra as [|k IH]; intros s.
  - cbn. split.
    + intros H. apply lang_Eps_inv in H. subst. auto.
    + intros [_ H]. destruct s; [constructor|cbn in H; lia].
  - change (Between (Class p) 0 (S k))
      with (Alt Eps (Cat (Class p) (Between (Class p) 0 k))). split.
    + intros H. apply lang_Alt_inv in H as [H|H].
      * apply lang_Eps_inv in H. subst. cbn. split; [reflexivity|lia].
      * apply lang_Cat_inv in H as (s1 & s2 & -> & H1 & H2).
        apply lang_Class_inv in H1 as (c & -> & Hc). apply IH in H2 as [H2 Hlen].
        rewrite append_cons, append_nil_l. cbn. rewrite Hc, H2. split; [reflexivity|lia].
    + intros [H Hlen]. destruct s as [|c s]; [apply lang_AltL; constructor|].
      cbn in H, Hlen. apply andb_true_iff in H as [Hc Hs]. apply lang_AltR.
      apply (lang_Cat (Class p) _ (String c "") s); [now constructor|].
      apply IH. split; [exact Hs|lia].
Qed.

Lemma lang_Between p (lo extra : nat) s :
  lang (Between (Class p) lo extra) s <->
  all p s = true /\ (lo <= String.length s <= lo + extra)%nat.
Proof.
  revert s. induction lo as [|lo IH]; intros s.
  - rewrite lang_upto. cbn. intuition lia.
  - change (Between (Class p) (S lo) extra)
      with (Cat (Class p) (Between (Class p) lo extra)). split.
    + intros H. apply lang_Cat_inv in H as (s1 & s2 & -> & H1 & H2).
      apply lang_Class_inv in H1 as (c & -> & Hc). apply IH in H2 as [H2 Hlen].
      rewrite append_cons, append_nil_l. cbn. rewrite Hc, H2. split; [reflexivity|lia].
    + intros [H Hlen]. destruct s as [|c s]; [cbn in Hlen; lia|].
      cbn in H, Hlen. apply andb_true_iff in H as [Hc Hs].
      apply (lang_Cat (Class p) _ (String c "") s); [now constructor|].
      apply IH. split; [exact Hs|lia].
Qed.

(** X19. The name pattern of [validateForm] accepts exactly the strings
    of 2 to 50 characters that are letters of the alphabet or white
    space, and its phone pattern exactly the strings of 10 to 15
    characters that are digits, white space, hyphens, parentheses or
    plus signs. *)
Theorem name_and_phone_patterns s :
  (test nameRegex s = true <->
   all nameChar s = true /\ (2 <= String.length s <= 50)%nat)
  /\ (test phoneRegex s = true <->
      all phoneChar s = true /\ (10 <= String.length s <= 15)%nat).
Proof.
  split; rewrite test_lang.
  - unfold nameRegex. rewrite lang_Between. reflexivity.
  - unfold phoneRegex. rewrite lang_Between. reflexivity.
Qed.

End Patterns.

Section ValidTime.

Lemma code_embedding (c : ascii) : ascii_of_N (code c) = c.
Proof. apply ascii_N_embedding. Qed.

Lemma twoDigits_chars (c1 c2 : ascii) :
  (48 <= code c1 <= 57)%N -> (48 <= code c2 <= 57)%N ->
  twoDigits ((code c1 - 48) * 10 + (code c2 - 48)) = String c1 (String c2 "").
Proof.
  intros H1 H2. unfold twoDigits.
  assert (Hq : (((code c1 - 48) * 10 + (code c2 - 48)) / 10 = code c1 - 48)%N).
  { symmetry. apply (N.div_unique _ 10 _ (code c2 - 48)); lia. }
  assert (Hr : (((code c1 - 48) * 10 + (code c2 - 48)) mod 10 = code c2 - 48)%N).
  { symmetry. apply (N.mod_unique _ 10 (code c1 - 48)); lia. }
  rewrite Hq, Hr.
  replace (48 + (code c1 - 48))%N with (code c1) by lia.
  replace (48 + (code c2 - 48))%N with (code c2) by lia.
  now rewrite !code_embedding.
Qed.

Lemma between_inv (lo hi : N) (c : ascii) :
  ((lo <=? code c) && (code c <=? hi))%N = true -> (lo <= code c <= hi)%N.
Proof.
  intros H. apply andb_true_iff in H as [H1 H2].
  apply N.leb_le in H1, H2. lia.
Qed.

Lemma every_clock_time_is_valid :
  forallb (fun h => forallb (fun m => isValidTime (clockTime (N.of_nat h) (N.of_nat m)))
                            (seq 0 60))
          (seq 0 24) = true.
Proof. vm_compute. reflexivity. Qed.

(** X20. [isValidTime] accepts exactly the times of the 24-hour clock
    written [HH:MM], hours and minutes on two digits: hours from 00 to
    23, minutes from 00 to 59. *)
Theorem isValidTime_iff (time : string) :
  isValidTime time = true <->
  exists h m : N, (h < 24)%N /\ (m < 60)%N /\ time = clockTime h m.
Proof.
  split.
  - unfold isValidTime. rewrite test_lang. unfold timeRegex. cbn zeta.
    intros H.
    apply lang_Cat_inv in H as (hh & s1 & -> & Hh & H).
    apply lang_Cat_inv in H as (colon & mm & -> & Hcolon & Hm).
    apply lang_chr in Hcolon. subst colon.
    apply lang_Cat_inv in Hm as (m1 & m2 & -> & Hm1 & Hm2).
    apply lang_Class_inv in Hm1 as (c4 & -> & Hc4).
    apply lang_Class_inv in Hm2 as (c5 & -> & Hc5).
    apply between_inv in Hc4, Hc5.
    assert (Hhours : exists c1 c2, hh = String c1 (String c2 "")
                       /\ (48 <= code c1 <= 57)%N /\ (48 <= code c2 <= 57)%N
                       /\ ((code c1 - 48) * 10 + (code c2 - 48) < 24)%N).
    { apply lang_Alt_inv in Hh as [Hh|Hh];
        apply lang_Cat_inv in Hh as (h1 & h2 & -> & Hh1 & Hh2).
      - apply lang_Class_inv in Hh1 as (c1 & -> & Hc1).
        apply lang_Class_inv in Hh2 as (c2 & -> & Hc2).
        apply between_inv in Hc1, Hc2. exists c1, c2.
        split; [reflexivity|]. lia.
      - apply lang_chr in Hh1. subst h1.
        apply lang_Class_inv in Hh2 as (c2 & -> & Hc2).
        apply between_inv in Hc2. exists "2"%char, c2.
        split; [reflexivity|]. change (code "2") with 50%N. lia. }
    destruct Hhours as (c1 & c2 & -> & H1 & H2 & Hlt).
    exists ((code c1 - 48) * 10 + (code c2 - 48))%N,
           ((code c4 - 48) * 10 + (code c5 - 48))%N.
    split; [exact Hlt|]. split; [lia|].
    unfold clockTime. rewrite !twoDigits_chars by lia. reflexivity.
  - intros (h & m & Hh & Hm & ->).
    pose proof every_clock_time_is_valid as Hall.
    rewrite forallb_forall in Hall.
    specialize (Hall (N.to_nat h)). rewrite forallb_forall in Hall.
    specialize (Hall ltac:(apply in_seq; lia) (N.to_nat m) ltac:(apply in_seq; lia)).
    now rewrite !N2Nat.id in Hall.
Qed.

End ValidTime.

(** * More of the code on concrete requests *)

Section MoreRuns.

Import Scenario Desk.

#[local] Existing Instance Sample.libs.

Local Abbreviation plain := Client.to_object.

(** A witness of X2: Jane's booking, once saved, is what a query for her
    email returns, and a query for another email returns nothing. *)
Lemma saved_booking_is_found_witness :
  let data := Server.booking_data (plain jane) in
  let query : gmap string string := {[ "email" := "jane@x.com" ]} in
  insertBooking world BookingSchema_eligibility data [ravi_stored]
  = Some [ravi_stored; jane_stored]
  /\ Booking_find query [ravi_stored; jane_stored] = [jane_stored]
  /\ Booking.findOne query [ravi_stored; jane_stored] = Some jane_stored.
Proof.
  intros data query.
  assert (Hins : insertBooking world BookingSchema_eligibility data [ravi_stored]
                 = Some [ravi_stored; jane_stored]) by (vm_compute; reflexivity).
  destruct (saved_booking_is_found world BookingSchema_eligibility data
              [ravi_stored] [ravi_stored; jane_stored] query Hins)
    as (doc & Hcoll & Hpaths & Hfound & _).
  assert (Hq : map_Forall
                 (fun k v => Booking.new BookingSchema_eligibility data !! k = Some v)
                 query).
  { apply map_Forall_singleton. vm_compute. reflexivity. }
  destruct (Hfound Hq) as [Hfind Hone].
  split; [exact Hins|]. split; vm_compute; reflexivity.
Defined.

(** A witness of X5: with a transport that delivers, two mails go out,
    the first to the address as submitted, and the booking is stored. *)
Lemma mail_only_after_saving_witness :
  let r := Server.submit world_mail_up [] (plain jane) in
  let m := Server.userMailOptions world_mail_up (plain jane) in
  SendMail m ∈ calls r
  /\ to m = Some "JANE@x.com"
  /\ status (response r) = 200%Z
  /\ Server.credentials_missing world_mail_up = false.
Proof.
  intros r m.
  assert (Hin : SendMail m ∈ calls (Server.submit_with BookingSchema_eligibility
                                      world_mail_up [] (plain jane))).
  { apply list_elem_of_In. vm_compute. tauto. }
  destruct (mail_only_after_saving (L := Sample.libs) BookingSchema_eligibility
              world_mail_up [] (plain jane) m Hin) as (H200 & _ & Hcred & _).
  split; [exact Hin|]. split; [reflexivity|]. split; [exact H200|exact Hcred].
Defined.

(** A witness of X6: a name of three spaces. *)
Lemma blank_field_fails_at_save_witness :
  let body := plain blank_name in
  passes_checks world body body
  /\ trim (str (body !! "name")) = ""
  /\ status (response (Server.submit world [] body)) = 500%Z
  /\ collection (Server.submit world [] body) = [].
Proof.
  intros body.
  assert (Hpass : passes_checks world body body)
    by (unfold passes_checks; repeat split; vm_compute; reflexivity).
  assert (Hk : "name" ∈ trimmed_required_fields)
    by (apply list_elem_of_In; left; reflexivity).
  assert (Hs : ("name", true) ∈ BookingSchema_eligibility)
    by (apply list_elem_of_In; left; reflexivity).
  pose proof (blank_field_fails_at_save (L := Sample.libs)
                BookingSchema_eligibility world [] body body "name"
                Hpass eq_refl Hk Hs eq_refl) as H.
  split; [exact Hpass|]. split; [reflexivity|].
  unfold Server.submit. rewrite H. split; reflexivity.
Defined.

Lemma requires_all_eligibility : requires_all BookingSchema_eligibility.
Proof.
  intros k Hk. apply list_elem_of_In in Hk. apply list_elem_of_In.
  cbn in Hk. cbn. intuition (subst; auto 20).
Qed.

(** A witness of X7: three requests, the first two with spaces around
    the email, the third with a blank name. *)
Lemma stored_bookings_are_well_formed_witness :
  let requests :=
    [ (world, plain (with_email " Jane@X.com " jane));
      (world_later, plain (with_email " jane@x.com" jane));
      (world_later, plain blank_name) ] in
  let coll := submit_all BookingSchema_eligibility requests [] in
  length coll = 2%nat /\ Forall well_formed coll.
Proof.
  intros requests coll. split; [vm_compute; reflexivity|].
  exact (stored_bookings_are_well_formed (L := Sample.libs)
           BookingSchema_eligibility requests []
           requires_all_eligibility (Forall_nil_2 _)).
Defined.

(** A witness of X8: Jane's request on Ravi's booking, then the
    deletion. *)
Lemma delete_undoes_accepted_request_witness :
  let body := plain jane in
  let after := collection (Server.submit world [ravi_stored] body) in
  passes_checks world body body
  /\ trimmed (toLowerCase (str (body !! "email")))
  /\ after = [ravi_stored; jane_stored]
  /\ Booking_deleteOne (Server.conflict_query body) after = (1%nat, [ravi_stored]).
Proof.
  intros body after.
  assert (Hpass : passes_checks world body body)
    by (unfold passes_checks; repeat split; vm_compute; reflexivity).
  assert (He : "email" ∈ BookingSchema_eligibility.*1)
    by (apply list_elem_of_In; vm_compute; tauto).
  assert (Hd : "preferredDate" ∈ BookingSchema_eligibility.*1)
    by (apply list_elem_of_In; vm_compute; tauto).
  assert (H200 : status (response (Server.submit_with BookingSchema_eligibility
                                     world [ravi_stored] body)) = 200%Z)
    by (vm_compute; reflexivity).
  assert (Ht : trimmed (toLowerCase (str (body !! "email"))))
    by (vm_compute; reflexivity).
  destruct (delete_undoes_accepted_request (L := Sample.libs)
              BookingSchema_eligibility world [ravi_stored] body body
              Hpass He Hd H200) as [Hyes _].
  split; [exact Hpass|]. split; [exact Ht|].
  split; [vm_compute; reflexivity|]. exact (Hyes Ht).
Defined.

(** A witness of X10: Jane's form passes in the browser and then on the
    server. *)
Lemma client_valid_payload_on_server_witness :
  Client.validateForm (clock world) (LocalTZA world) jane = ∅
  /\ new_Date (Client.preferredDate jane) = Some 1762041600000%Z
  /\ passes_checks world (plain jane) (plain jane)
  /\ calls (Server.submit world [] (plain jane)) <> [].
Proof.
  assert (Hvalid : Client.validateForm (clock world) (LocalTZA world) jane = ∅)
    by (vm_compute; reflexivity).
  assert (Hdate : new_Date (Client.preferredDate jane) = Some 1762041600000%Z)
    by (vm_compute; reflexivity).
  destruct (client_valid_payload_on_server (L := Sample.libs)
              BookingSchema_eligibility world [] jane Hvalid eq_refl)
    as [Hparsed _].
  destruct (Hparsed ltac:(rewrite Hdate; discriminate)) as [Hpass Hcalls].
  split; [exact Hvalid|]. split; [exact Hdate|]. split; [exact Hpass|exact Hcalls].
Defined.

(** A witness of X13: Jane's form, typed, is submitted in development
    mode; the booking is stored and the form is reset. Submitted again,
    it shows the message of the conflict. *)
Lemma form_reset_iff_stored_witness :
  let st := Form.type_all jane_typed Form.initial in
  let fetch1 := backend BookingSchema_eligibility world [] in
  let fetch2 := backend BookingSchema_eligibility world_later [jane_stored] in
  let go fetch := Form.handleSubmit false "s"%char "EasyGoAdvisor@1974"
                    (clock world) (LocalTZA world) fetch st in
  Form.formData st !! "name" = Some "Jane Doe"
  /\ Client.validateForm (clock world) (LocalTZA world)
       (Form.of_object (Form.formData st)) = ∅
  /\ Form.submitMessage (go fetch1) = JStr Form.thanks
  /\ Form.formData (go fetch1) = Form.initialFormData
  /\ Form.submitMessage (go fetch2)
     = JStr "You have already booked a consultation for this date with this email."
  /\ Form.formData (go fetch2) = Form.formData st.
Proof.
  intros st fetch1 fetch2 go.
  assert (Hvalid : Client.validateForm (clock world) (LocalTZA world)
                     (Form.of_object (Form.formData st)) = ∅)
    by (vm_compute; reflexivity).
  destruct (form_reset_iff_stored (L := Sample.libs) BookingSchema_eligibility
              world [] false "s"%char "EasyGoAdvisor@1974"
              (clock world) (LocalTZA world) st Hvalid) as [Hstored _].
  destruct (Hstored ltac:(exists jane_stored; vm_compute; reflexivity))
    as (Hmsg & Hdata & _).
  destruct (form_reset_iff_stored (L := Sample.libs) BookingSchema_eligibility
              world_later [jane_stored] false "s"%char "EasyGoAdvisor@1974"
              (clock world) (LocalTZA world) st Hvalid) as [_ Hkept].
  destruct (Hkept ltac:(vm_compute; reflexivity)) as (Hsame & _ & _).
  split; [vm_compute; reflexivity|]. split; [exact Hvalid|].
  split; [exact Hmsg|]. split; [exact Hdata|].
  split; [vm_compute; reflexivity|exact Hsame].
Defined.

(** A witness of X14: the pick of 2 November at local midnight, India
    time, on the afternoon of 2 November. *)
Lemma picked_date_is_the_utc_day_witness :
  let st := Form.onDateChange toISOString (Some local_midnight) Form.initial in
  toISOString local_midnight = "2025-11-01T18:30:00.000Z"
  /\ JsDate.LocalDay (LocalTZA world) local_midnight
     = JsDate.LocalDay (LocalTZA world) (clock world)
  /\ Form.formData st !! "preferredDate" = Some "2025-11-01"
  /\ Client.validateForm (clock world) (LocalTZA world)
       (Form.of_object (Form.formData st)) !! "preferredDate"
     = Some "Please select future date".
Proof.
  intros st.
  assert (Hz : (0 <= LocalTZA world < JsDate.msPerDay)%Z)
    by (split; [vm_compute; discriminate|vm_compute; reflexivity]).
  assert (Hm : inside (JsDate.Day local_midnight * JsDate.msPerDay))
    by (vm_compute; discriminate).
  assert (Hn : inside (clock world)) by (vm_compute; discriminate).
  destruct (picked_date_is_the_utc_day (L := Sample.libs) toISOString
              (clock world) (LocalTZA world) local_midnight Form.initial
              eq_refl eq_refl eq_refl Hz Hm Hn) as (Hfield & _ & _ & Hearly).
  split; [vm_compute; reflexivity|]. split; [vm_compute; reflexivity|].
  split; [exact Hfield|].
  apply Hearly; [vm_compute; reflexivity|vm_compute; reflexivity].
Defined.

(** A witness of X15: the request with a space before the email, twice,
    through the earlier handler: the second is a conflict. *)
Lemma legacy_keeps_unique_pairs_witness :
  let body := plain (with_email " jane@x.com" jane) in
  let coll := legacy_submit_all [(world, body); (world_later, body)] [] in
  length coll = 1%nat /\ unique_pairs coll.
Proof.
  intros body coll. split; [vm_compute; reflexivity|].
  exact (legacy_keeps_unique_pairs (L := Sample.libs)
           [(world, body); (world_later, body)] [] (NoDup_nil_2 (A := _))).
Defined.

(** A witness of X16: garbage in [encrypted] next to Jane's fields. *)
Lemma encrypted_envelope_is_all_witness :
  let body := <["encrypted" := "garbage"]> (plain jane) in
  truthy (body !! "encrypted") = true
  /\ status (response (Server.submit world [] body)) = 400%Z
  /\ Server.submit world [] body
     = Server.submit world [] {[ "encrypted" := "garbage" ]}.
Proof.
  intros body.
  assert (Henc : truthy (body !! "encrypted") = true) by (vm_compute; reflexivity).
  pose proof (encrypted_envelope_is_all (L := Sample.libs)
                BookingSchema_eligibility world [] body Henc) as H.
  split; [exact Henc|]. split; [vm_compute; reflexivity|]. exact H.
Defined.

(** A witness of X17. *)
Lemma eligibility_always_in_the_mails_witness :
  Server.missing_required (plain jane) = false
  /\ subject (Server.adminMailOptions world_mail_up (plain jane))
     = "New Consultation Booking - With Eligibility Check".
Proof.
  assert (H : Server.missing_required (plain jane) = false)
    by (vm_compute; reflexivity).
  destruct (eligibility_always_in_the_mails world_mail_up (plain jane) H)
    as (_ & Hadmin & _).
  split; [exact H|exact Hadmin].
Defined.

(** [isValidTime] at the edges of the clock. *)
Example isValidTime_edges :
  isValidTime "00:00" = true /\ isValidTime "23:59" = true
  /\ isValidTime "24:00" = false /\ isValidTime "9:30" = false
  /\ isValidTime "12:60" = false /\ isValidTime "12:30 " = false.
Proof. vm_compute. repeat split; reflexivity. Qed.

(** [sanitizeInput] on a tag. *)
Example sanitizeInput_tag :
  Form.sanitizeInput "<b>Jane</b>" = "bJane/b"
  /\ Form.sanitizeInput "O'Neil" = "ONeil".
Proof. vm_compute. split; reflexivity. Qed.

End MoreRuns.
